(** * CloudMisScan dashboard: the presentation contract, verified

    A shallow embedding of the dashboard front-end of Project-CloudMisScan
    (Next.js / React, TypeScript) and of its single API route, together
    with the properties its specification states about them.

    The code is JavaScript at run time: a prop declared [Resource[]] can
    hold [undefined] when the backend leaves a field out, and the spec's
    properties speak about exactly those inputs.  Values are therefore
    modelled dynamically ([JS.Value]), numbers are IEEE-754 binary64
    ([spec_float] at precision 53), exceptions and console/network effects
    are threaded through a small monad ([JS.Eff]), and JSX is a tree
    ([JS.Node]). *)

From Stdlib Require Import ZArith NArith List String Ascii Bool Lia.
From Stdlib Require Import Floats.SpecFloat.
From Stdlib Require Import Numbers.DecimalString Numbers.DecimalN.
Import ListNotations.
Open Scope Z_scope.
Open Scope string_scope.
Set Warnings "-register-all".

(* ===================================================================== *)
(** * The JavaScript fragment the code uses *)
(* ===================================================================== *)

Module JS.

(** ** Numbers: binary64 *)

Definition number : Type := spec_float.

Definition prec : Z := 53.
Definition emax : Z := 1024.

(** The double nearest to an integer (numeric literals [3], [100], ...). *)
Definition of_Z (z : Z) : number := binary_normalize prec emax z 0 false.

Definition add : number -> number -> number := SFadd prec emax.
Definition sub : number -> number -> number := SFsub prec emax.
Definition mul : number -> number -> number := SFmul prec emax.
Definition neg : number -> number := SFopp.

(** [a < b] and [a >= b]; both are false as soon as one side is NaN. *)
Definition lt (a b : number) : bool := SFltb a b.
Definition ge (a b : number) : bool := SFleb b a.

Definition is_nan (x : number) : bool :=
  match x with S754_nan => true | _ => false end.

Definition is_zero (x : number) : bool :=
  match x with S754_zero _ => true | _ => false end.

Definition div : number -> number -> number := SFdiv prec emax.

Definition NaN : number := S754_nan.

(** [Math.PI], the double 0x400921FB54442D18. *)
Definition Math_PI : number := S754_finite false 7074237752028440 (-51).

(** The literal [0.5]. *)
Definition one_half : number := S754_finite false 4503599627370496 (-53).

Definition is_neg_zero (x : number) : bool :=
  match x with S754_zero true => true | _ => false end.

(** [Math.min] and [Math.max] of two numbers: NaN if either is NaN, and
    -0 counts as smaller than +0. *)
Definition Math_min (a b : number) : number :=
  match SFcompare a b with
  | None => NaN
  | Some Lt => a
  | Some Gt => b
  | Some Eq => if is_neg_zero a then a else b
  end.

Definition Math_max (a b : number) : number :=
  match SFcompare a b with
  | None => NaN
  | Some Lt => b
  | Some Gt => a
  | Some Eq => if is_neg_zero a then b else a
  end.

(** Decimal digits of a natural number, as [String(n)] prints them. *)
Definition digits (n : N) : string := NilZero.string_of_uint (N.to_uint n).

(** The platform functions the components call and this development
    does not define: the shortest-round-trip printer [Number::toString],
    the part of [StringToNumber] beyond plain decimal integers, and the
    trigonometric functions of [Math]. *)
Class Host : Type := {
  Number_toString : number -> string;
  StringToNumber : string -> number;
  Math_cos : number -> number;
  Math_sin : number -> number
}.

(** [2^k] divides [m] *)
Definition divisible_by_pow2 (m : positive) (k : Z) : bool :=
  (Z.pos m mod 2 ^ k =? 0)%Z.

(** A host for examples.  It prints the integer-valued numbers in decimal
    and nothing else, reads no number syntax beyond what [Number] below
    reads itself, and its trigonometry is frozen at the angle 0. *)
Definition sample_Host : Host :=
  {| Number_toString := fun x =>
       match x with
       | S754_zero _ => "0"
       | S754_finite s m e =>
           if (0 <=? e)%Z then
             (if s then "-" else "") ++ digits (Z.to_N (Z.pos m * 2 ^ e))
           else if divisible_by_pow2 m (- e) then
             (if s then "-" else "") ++ digits (Z.to_N (Z.pos m / 2 ^ (- e)))
           else "NaN"
       | _ => "NaN"
       end;
     StringToNumber := fun _ => S754_nan;
     Math_cos := fun _ => S754_finite false 4503599627370496 (-52);
     Math_sin := fun _ => S754_zero false |}.

(** The integer nearest to [m * 2^e] ([m > 0]), the larger one on a tie:
    the [n] of Number.prototype.toFixed with zero fraction digits. *)
Definition nearest_integer (m : positive) (e : Z) : Z :=
  if (0 <=? e)%Z then Z.pos m * 2 ^ e
  else (2 * Z.pos m + 2 ^ (- e)) / 2 ^ (- e + 1).

(** [10^21 <= m * 2^e] *)
Definition at_least_1e21 (m : positive) (e : Z) : bool :=
  if (0 <=? e)%Z then (10 ^ 21 <=? Z.pos m * 2 ^ e)%Z
  else (10 ^ 21 * 2 ^ (- e) <=? Z.pos m)%Z.

(** [x.toFixed(0)] (ECMA-262, Number.prototype.toFixed). *)
Definition toFixed0 `{Host} (x : number) : string :=
  match x with
  | S754_nan => "NaN"
  | S754_infinity false => "Infinity"
  | S754_infinity true => "-Infinity"
  | S754_zero _ => "0"
  | S754_finite s m e =>
      (if s then "-" else "") ++
      (if at_least_1e21 m e then Number_toString (S754_finite false m e)
       else digits (Z.to_N (nearest_integer m e)))
  end.

(** A string made of decimal digits only, read as a natural number. *)
Definition parse_digits (s : string) : option N :=
  match NilZero.uint_of_string s with
  | Some d => Some (N.of_uint d)
  | None => None
  end.

(** [Number(s)] on a string: an optionally signed run of decimal digits
    is read here, everything else is the host's [StringToNumber]. *)
Definition Number `{Host} (s : string) : number :=
  match s with
  | String "-" rest =>
      match parse_digits rest with
      | Some n => binary_normalize prec emax (- Z.of_N n) 0 true
      | None => StringToNumber s
      end
  | String "+" rest =>
      match parse_digits rest with
      | Some n => of_Z (Z.of_N n)
      | None => StringToNumber s
      end
  | _ =>
      match parse_digits s with
      | Some n => of_Z (Z.of_N n)
      | None => StringToNumber s
      end
  end.

(** ** Strings *)

Definition lower_ascii (c : ascii) : ascii :=
  let n := N_of_ascii c in
  if ((65 <=? n) && (n <=? 90))%N then ascii_of_N (n + 32) else c.

(** [s.toLowerCase()].  Bytes outside A-Z are kept: the only non-ASCII
    characters whose lower case is an ASCII letter are U+212A (to [k]) and
    U+0130 (to [i] followed by a combining dot), and neither can produce
    one of the words the program compares against. *)
Fixpoint toLowerCase (s : string) : string :=
  match s with
  | EmptyString => EmptyString
  | String c rest => String (lower_ascii c) (toLowerCase rest)
  end.

(** ** Values *)

Inductive Value : Type :=
| VUndefined
| VNull
| VBool (b : bool)
| VNum (n : number)
| VStr (s : string)
| VArr (items : list Value)
| VObj (fields : list (string * Value)).

(** ToBoolean. *)
Definition truthy (v : Value) : bool :=
  match v with
  | VUndefined | VNull => false
  | VBool b => b
  | VNum n => negb (is_zero n || is_nan n)
  | VStr s => negb (s =? "")
  | VArr _ | VObj _ => true
  end.

(** [a || b] on values. *)
Definition or_else (a b : Value) : Value := if truthy a then a else b.

Inductive TypeTag : Type :=
| TUndefined | TObject | TBoolean | TNumber | TString.

Definition typeof (v : Value) : TypeTag :=
  match v with
  | VUndefined => TUndefined
  | VNull | VArr _ | VObj _ => TObject
  | VBool _ => TBoolean
  | VNum _ => TNumber
  | VStr _ => TString
  end.

Definition Array_isArray (v : Value) : bool :=
  match v with VArr _ => true | _ => false end.

(** Own-property lookup in an object literal / parsed JSON object. *)
Fixpoint lookup (k : string) (fields : list (string * Value)) : Value :=
  match fields with
  | [] => VUndefined
  | (k', v) :: rest => if k =? k' then v else lookup k rest
  end.

(** ** Exceptions and effects *)

Inductive Exn : Type :=
| TypeError (msg : string)
| RangeError (msg : string)
| SyntaxError (msg : string).

Inductive Event : Type :=
| Fetch (url : string) (headers : list (string * string))
| ConsoleLog (msg : string) (payload : Value)
| ConsoleWarn (msg : string) (payload : Value)
| ConsoleError (msg : string) (cause : Exn).

Inductive Outcome (A : Type) : Type :=
| Returns (a : A)
| Throws (e : Exn).
Arguments Returns {A} a.
Arguments Throws {A} e.

(** A computation reads the trace of events so far and extends it.  The
    trace survives a throw: what was fetched or logged before an
    exception stays fetched and logged when a [catch] takes over. *)
Definition Eff (A : Type) : Type := list Event -> Outcome A * list Event.

Definition ret {A} (a : A) : Eff A := fun tr => (Returns a, tr).

Definition throw {A} (e : Exn) : Eff A := fun tr => (Throws e, tr).

Definition bind {A B} (c : Eff A) (k : A -> Eff B) : Eff B :=
  fun tr =>
    match c tr with
    | (Returns a, tr') => k a tr'
    | (Throws e, tr') => (Throws e, tr')
    end.

Definition try_catch {A} (c : Eff A) (handler : Exn -> Eff A) : Eff A :=
  fun tr =>
    match c tr with
    | (Returns a, tr') => (Returns a, tr')
    | (Throws e, tr') => handler e tr'
    end.

Definition emit (ev : Event) : Eff unit := fun tr => (Returns tt, (tr ++ [ev])%list).

Definition run {A} (c : Eff A) : Outcome A * list Event := c [].

Declare Scope eff_scope.
Delimit Scope eff_scope with eff.
Notation "x <- c ;; k" := (bind c (fun x => k))
  (at level 61, c at next level, right associativity) : eff_scope.
Notation "c ;;; k" := (bind c (fun _ => k))
  (at level 61, right associativity) : eff_scope.

(** [v.k] for the property names the program reads ([date], [value], [id],
    [name], [type], [relationships], [error], [high], ...): none of them
    is a property of an array, a string, a number or a boolean, so only
    objects can answer; reading a property of [undefined] or [null]
    throws. *)
Definition get (v : Value) (k : string) : Eff Value :=
  match v with
  | VUndefined =>
      throw (TypeError ("Cannot read properties of undefined (reading '" ++ k ++ "')"))
  | VNull =>
      throw (TypeError ("Cannot read properties of null (reading '" ++ k ++ "')"))
  | VObj fields => ret (lookup k fields)
  | _ => ret VUndefined
  end.

(** [xs.map(f)] as a method call on an arbitrary value. *)
Fixpoint mapM {A B} (f : A -> Eff B) (xs : list A) : Eff (list B) :=
  match xs with
  | [] => ret []
  | x :: rest =>
      (y <- f x ;; ys <- mapM f rest ;; ret (y :: ys))%eff
  end.

Definition call_map {B} (recv : Value) (what : string)
  (f : Value -> Eff B) : Eff (list B) :=
  match recv with
  | VArr items => mapM f items
  | VUndefined =>
      throw (TypeError "Cannot read properties of undefined (reading 'map')")
  | VNull =>
      throw (TypeError "Cannot read properties of null (reading 'map')")
  | _ => throw (TypeError (what ++ ".map is not a function"))
  end.

(** [xs.flatMap(f)]: the arrays the callback returns are concatenated. *)
Definition call_flatMap {B} (recv : Value) (what : string)
  (f : Value -> Eff (list B)) : Eff (list B) :=
  match recv with
  | VArr items => (parts <- mapM f items ;; ret (List.concat parts))%eff
  | VUndefined =>
      throw (TypeError "Cannot read properties of undefined (reading 'flatMap')")
  | VNull =>
      throw (TypeError "Cannot read properties of null (reading 'flatMap')")
  | _ => throw (TypeError (what ++ ".flatMap is not a function"))
  end.

(** [v.length] of a value that is not [undefined] or [null]. *)
Definition length_of (v : Value) : Value :=
  match v with
  | VArr items => VNum (of_Z (Z.of_nat (List.length items)))
  | VStr s => VNum (of_Z (Z.of_nat (String.length s)))
  | VObj fields => lookup "length" fields
  | _ => VUndefined
  end.

(** [v === 0] *)
Definition is_number_zero (v : Value) : bool :=
  match v with VNum n => is_zero n | _ => false end.

Fixpoint indexed {A} (i : nat) (xs : list A) : list (string * A) :=
  match xs with
  | [] => []
  | x :: rest => (digits (N.of_nat i), x) :: indexed (S i) rest
  end.

Fixpoint chars (s : string) : list Value :=
  match s with
  | EmptyString => []
  | String c rest => VStr (String c EmptyString) :: chars rest
  end.

(** An array index (ECMA-262, 6.1.7): a key that is the canonical decimal
    string of an integer from 0 to 2^32 - 2. *)
Definition array_index (key : string) : option N :=
  match parse_digits key with
  | Some n => if (digits n =? key) && (n <? 4294967295)%N then Some n else None
  | None => None
  end.

(** A property of index [i] placed into a list sorted by index. *)
Fixpoint insert_index {A} (i : N) (x : A) (sorted : list (N * A)) : list (N * A) :=
  match sorted with
  | [] => [(i, x)]
  | (j, y) :: rest =>
      if (i <? j)%N then (i, x) :: sorted else (j, y) :: insert_index i x rest
  end.

(** The properties whose key is an array index, by ascending index. *)
Fixpoint index_properties {A} (fields : list (string * A)) : list (N * (string * A)) :=
  match fields with
  | [] => []
  | kv :: rest =>
      match array_index (fst kv) with
      | Some i => insert_index i kv (index_properties rest)
      | None => index_properties rest
      end
  end.

Definition is_named {A} (kv : string * A) : bool :=
  match array_index (fst kv) with
  | Some _ => false
  | None => true
  end.

(** The order in which JavaScript enumerates the own properties of an
    object whose [fields] are listed as they were created
    (OrdinaryOwnPropertyKeys): the array indices first, in ascending
    order, then the other keys in creation order. *)
Definition own_properties {A} (fields : list (string * A)) : list (string * A) :=
  (map snd (index_properties fields) ++ filter is_named fields)%list.

(** [Object.entries(v)] for a value that is not [undefined] or [null]:
    the own enumerable properties, which are the fields of an object, the
    indexed elements of an array and the indexed characters of a string. *)
Definition Object_entries (v : Value) : list (string * Value) :=
  match v with
  | VObj fields => own_properties fields
  | VArr items => indexed 0 items
  | VStr s => indexed 0 (chars s)
  | _ => []
  end.

(** [Object.keys(v)], same domain. *)
Definition Object_keys (v : Value) : list string := map fst (Object_entries v).

(** The properties [{...v}] copies; spreading [undefined] or [null]
    copies nothing. *)
Definition spread (v : Value) : list (string * Value) := Object_entries v.

(** ** JSX *)

(** [xs.map((x, index) => ...)] on a list that is already an array. *)
Fixpoint mapi {A B} (f : nat -> A -> B) (i : nat) (xs : list A) : list B :=
  match xs with
  | [] => []
  | x :: rest => f i x :: mapi f (S i) rest
  end.

(** An element with its props and children, a literal text, or a value
    placed in braces.  Function-valued props (event handlers, formatters)
    have no counterpart in [Value] and are left out of [props]. *)
Inductive Node : Type :=
| El (tag : string) (props : list (string * Value)) (children : list Node)
| Text (s : string)
| Expr (v : Value).

End JS.

(* ===================================================================== *)
(** * The dashboard proxy route ([GET /api/dashboard]) *)
(* ===================================================================== *)

Module Route.
Import JS.
Local Open Scope eff_scope.

Record Request : Type := { url : string }.

(** What [fetch] resolves to: the status line and, when the body is JSON,
    its parse ([None]: [response.json()] rejects). *)
Record Response : Type := {
  status : Z;
  json_body : option Value
}.

Record NextResponse : Type := {
  res_status : Z;
  res_body : Value
}.

(** [response.ok] *)
Definition ok (r : Response) : bool :=
  ((200 <=? status r) && (status r <=? 299))%Z.

(** [await response.json()] *)
Definition Response_json (r : Response) : Eff Value :=
  match json_body r with
  | Some v => ret v
  | None => throw (SyntaxError "Unexpected token in JSON")
  end.

(** Statuses that cannot carry a body (Fetch standard, "null body status"). *)
Definition null_body_status (s : Z) : bool :=
  ((s =? 101) || (s =? 103) || (s =? 204) || (s =? 205) || (s =? 304))%Z.

(** [NextResponse.json(body, { status })]: the Response constructor under
    it refuses a status outside 200..599 and a body on a null-body
    status. *)
Definition NextResponse_json (body : Value) (st : Z) : Eff NextResponse :=
  if ((st <? 200) || (599 <? st))%Z then
    throw (RangeError "init[status] must be in the range of 200 to 599, inclusive.")
  else if null_body_status st then
    throw (TypeError "Response constructor: Invalid response status code")
  else ret {| res_status := st; res_body := body |}.

(** [searchParams.get(name)]: the first value under that name, or null. *)
Fixpoint searchParams_get (name : string) (params : list (string * string))
  : option string :=
  match params with
  | [] => None
  | (k, v) :: rest => if k =? name then Some v else searchParams_get name rest
  end.

(** [s || fallback] for a string-or-null [s]. *)
Definition or_default (s : option string) (fallback : string) : string :=
  match s with
  | Some v => if v =? "" then fallback else v
  | None => fallback
  end.

Definition request_headers : list (string * string) :=
  [("Content-Type", "application/json")].

Section Environment.

(** [process.env.NEXT_PUBLIC_API_URL] *)
Variable NEXT_PUBLIC_API_URL : option string.

(** [new URL(u).searchParams], the platform's URL parser; [None] when the
    constructor throws. *)
Variable URL_searchParams : string -> option (list (string * string)).

(** The upstream backend as seen through [fetch]; [None] when the promise
    rejects (connection refused, DNS failure, ...). *)
Variable upstream : string -> list (string * string) -> option Response.

Definition API_URL : string := or_default NEXT_PUBLIC_API_URL "http://localhost:5000".

Definition URL_new (u : string) : Eff (list (string * string)) :=
  match URL_searchParams u with
  | Some params => ret params
  | None => throw (TypeError "Invalid URL")
  end.

Definition fetch (u : string) (headers : list (string * string)) : Eff Response :=
  emit (Fetch u headers) ;;;
  match upstream u headers with
  | Some r => ret r
  | None => throw (TypeError "fetch failed")
  end.

Definition GET (request : Request) : Eff NextResponse :=
  try_catch
    (searchParams <- URL_new (url request) ;;
     let days := or_default (searchParams_get "days" searchParams) "30" in
     response <- fetch (API_URL ++ "/api/dashboard?days=" ++ days) request_headers ;;
     if negb (ok response) then
       errorData <- Response_json response ;;
       e <- get errorData "error" ;;
       NextResponse_json
         (VObj [("error", or_else e (VStr "Failed to fetch dashboard data"))])
         (status response)
     else
       data <- Response_json response ;;
       NextResponse_json data 200)
    (fun error =>
       emit (ConsoleError "Dashboard API Error:" error) ;;;
       NextResponse_json (VObj [("error", VStr "Internal server error")]) 500).

(** The upstream URL a request is proxied to. *)
Definition target (params : list (string * string)) : string :=
  API_URL ++ "/api/dashboard?days=" ++ or_default (searchParams_get "days" params) "30".

End Environment.

(** The upstream calls recorded in a trace. *)
Fixpoint fetched (tr : list Event) : list string :=
  match tr with
  | [] => []
  | Fetch u _ :: rest => u :: fetched rest
  | _ :: rest => fetched rest
  end.

Definition internal_error : NextResponse :=
  {| res_status := 500; res_body := VObj [("error", VStr "Internal server error")] |}.

(** [errorData.error] of a body that is neither [null] nor [undefined]. *)
Definition error_field (errorData : Value) : Value :=
  match errorData with
  | VObj fields => lookup "error" fields
  | _ => VUndefined
  end.

(** What the route answers to an upstream failure with a readable body. *)
Definition relayed_error (r : Response) (body : Value) : NextResponse :=
  {| res_status := status r;
     res_body :=
       VObj [("error", or_else (error_field body) (VStr "Failed to fetch dashboard data"))] |}.

(** ** An environment for examples *)

(** The query part of a URL, cut at [?], [&] and [=] with no decoding: a
    small stand-in for the platform's parser, enough for the URLs of the
    examples. *)
Fixpoint after (sep : ascii) (s : string) : option string :=
  match s with
  | EmptyString => None
  | String c rest => if Ascii.eqb c sep then Some rest else after sep rest
  end.

Fixpoint before (sep : ascii) (s : string) : string :=
  match s with
  | EmptyString => EmptyString
  | String c rest => if Ascii.eqb c sep then EmptyString else String c (before sep rest)
  end.

Fixpoint pieces (fuel : nat) (sep : ascii) (s : string) : list string :=
  match fuel with
  | O => [s]
  | S fuel' =>
      match after sep s with
      | None => [s]
      | Some rest => before sep s :: pieces fuel' sep rest
      end
  end.

Definition pair_of (kv : string) : string * string :=
  (before "=" kv, match after "=" kv with Some v => v | None => "" end).

Definition sample_searchParams (u : string) : option (list (string * string)) :=
  match after "?" u with
  | None => Some []
  | Some "" => Some []
  | Some q => Some (map pair_of (pieces (String.length q) "&" q))
  end.

(** An upstream that is down for maintenance. *)
Definition sample_unavailable : Response :=
  {| status := 503;
     json_body := Some (VObj [ ("error", VStr "backend down");
                               ("detail", VStr "database unreachable") ]) |}.

End Route.

(* ===================================================================== *)
(** * TrendChart *)
(* ===================================================================== *)

Module TrendChart.
Import JS.
Local Open Scope eff_scope.

(** date-fns.  [parseISO] turns a string into a Date, which is either a
    point in time or the Invalid Date; [format] throws a RangeError on the
    Invalid Date.  Which strings parse, and how a valid date prints, is
    the library's business. *)
Class DateFns : Type := {
  parseISO_time : string -> option Z;
  format_time : Z -> string -> string
}.

Inductive Date : Type :=
| ValidDate (time : Z)
| InvalidDate.

Record Props : Type := {
  data : Value;
  title : string;
  timeRange : number
}.

Section Component.
Context `{Host} `{DateFns}.

Definition parseISO (argument : Value) : Date :=
  match argument with
  | VStr s =>
      match parseISO_time s with
      | Some t => ValidDate t
      | None => InvalidDate
      end
  | _ => InvalidDate
  end.

Definition format (date : Date) (pattern : string) : Eff string :=
  match date with
  | ValidDate t => ret (format_time t pattern)
  | InvalidDate => throw (RangeError "Invalid time value")
  end.

(** [!item.date || typeof item.value !== 'number'] *)
Definition invalid_point (item : Value) : Eff bool :=
  date <- get item "date" ;;
  if negb (truthy date) then ret true
  else
    value <- get item "value" ;;
    ret (match typeof value with TNumber => false | _ => true end).

(** The callback of [data.map]. *)
Definition format_item (item : Value) : Eff Value :=
  invalid <- invalid_point item ;;
  if invalid then
    emit (ConsoleWarn "TrendChart: Invalid data point" (VObj [("item", item)])) ;;;
    ret VNull
  else
    date <- get item "date" ;;
    label <- format (parseISO date) "MMM d, yyyy" ;;
    value <- get item "value" ;;
    ret (VObj [("date", VStr label); ("value", value)]).

(** The [useMemo] body. *)
Definition formattedData (data : Value) : Eff (list Value) :=
  if negb (truthy data) || negb (Array_isArray data) then
    emit (ConsoleWarn "TrendChart: Invalid or missing data" (VObj [("data", data)])) ;;;
    ret []
  else
    mapped <- call_map data "data" format_item ;;
    ret (filter truthy mapped).

(** The default parameter [data = []] replaces [undefined] only. *)
Definition data_or_default (d : Value) : Value :=
  match d with
  | VUndefined => VArr []
  | _ => d
  end.

(** The title row with the time-range selector; both returns contain it. *)
Definition header (title : string) (timeRange : number) : Node :=
  El "div" [("className", VStr "flex justify-between items-center mb-4")]
    [ El "Title" [] [Expr (VStr title)];
      El "Select"
        [("value", VStr (Number_toString timeRange)); ("className", VStr "w-40")]
        [ El "SelectItem" [("value", VStr "7")] [Text "Last 7 days"];
          El "SelectItem" [("value", VStr "30")] [Text "Last 30 days"];
          El "SelectItem" [("value", VStr "90")] [Text "Last 90 days"] ] ].

Definition no_trend_data (title : string) (timeRange : number) : Node :=
  El "Card" [("className", VStr "h-96")]
    [ header title timeRange;
      El "div"
        [("className", VStr "h-64 flex items-center justify-center text-gray-500")]
        [Text "No trend data available"] ].

Definition chart (title : string) (timeRange : number) (formatted : list Value)
  : Node :=
  El "Card" [("className", VStr "h-96")]
    [ header title timeRange;
      El "LineChart"
        [ ("data", VArr formatted);
          ("index", VStr "date");
          ("categories", VArr [VStr "value"]);
          ("colors", VArr [VStr "blue"]);
          ("showLegend", VBool false);
          ("className", VStr "h-64 mt-4") ]
        [] ].

Definition TrendChart (props : Props) : Eff Node :=
  let data := data_or_default (data props) in
  formatted <- formattedData data ;;
  emit (ConsoleLog "TrendChart:"
          (VObj [ ("title", VStr (title props));
                  ("timeRange", VNum (timeRange props));
                  ("data", data);
                  ("formattedData", VArr formatted) ])) ;;;
  if negb (truthy data) || is_number_zero (length_of data) then
    ret (no_trend_data (title props) (timeRange props))
  else
    ret (chart (title props) (timeRange props) formatted).

(** The formatting computation as the component runs it on its [data]
    prop. *)
Definition formatSeries (series : Value) : Eff (list Value) :=
  formattedData (data_or_default series).

End Component.

(** A point as the backend sends it ([interface TrendData]). *)
Definition point (date : string) (value : Z) : Value :=
  VObj [("date", VStr date); ("value", VNum (of_Z value))].

(** A two-day calendar standing in for date-fns in examples. *)
Definition sample_DateFns : DateFns :=
  {| parseISO_time := fun s =>
       if s =? "2024-01-15" then Some 1705276800000
       else if s =? "2024-01-16" then Some 1705363200000
       else None;
     format_time := fun t _ =>
       if (t =? 1705276800000)%Z then "Jan 15, 2024" else "Jan 16, 2024" |}.

(** A retained point: a label printed from a date that parsed, and a
    number. *)
Definition well_formed_point `{DateFns} (p : Value) : Prop :=
  exists s t n,
    parseISO_time s = Some t /\
    p = VObj [("date", VStr (format_time t "MMM d, yyyy")); ("value", VNum n)].

End TrendChart.

(* ===================================================================== *)
(** * ResourceRelationships *)
(* ===================================================================== *)

Module ResourceRelationships.
Import JS.
Local Open Scope eff_scope.

Record GraphNode : Type := {
  node_id : Value;
  node_name : Value;
  node_val : number;
  node_color : string
}.

Record GraphLink : Type := {
  link_source : Value;
  link_target : Value
}.

Record GraphData : Type := {
  nodes : list GraphNode;
  links : list GraphLink
}.

Definition color_of_type (lowered : string) : string :=
  if lowered =? "ec2" then "#ff9900"
  else if lowered =? "s3" then "#e31a1c"
  else if lowered =? "rds" then "#33a02c"
  else if lowered =? "iam" then "#1f78b4"
  else "#6a3d9a".

(** [switch (type.toLowerCase())]: the method exists on strings only. *)
Definition getResourceColor (type : Value) : Eff string :=
  match type with
  | VStr s => ret (color_of_type (toLowerCase s))
  | VUndefined =>
      throw (TypeError "Cannot read properties of undefined (reading 'toLowerCase')")
  | VNull =>
      throw (TypeError "Cannot read properties of null (reading 'toLowerCase')")
  | _ => throw (TypeError "type.toLowerCase is not a function")
  end.

Definition node_of (resource : Value) : Eff GraphNode :=
  id <- get resource "id" ;;
  name <- get resource "name" ;;
  type <- get resource "type" ;;
  color <- getResourceColor type ;;
  ret {| node_id := id; node_name := name; node_val := of_Z 1; node_color := color |}.

Definition links_of (resource : Value) : Eff (list GraphLink) :=
  relationships <- get resource "relationships" ;;
  call_map relationships "resource.relationships"
    (fun targetId =>
       source <- get resource "id" ;;
       ret {| link_source := source; link_target := targetId |}).

Definition graphData (resources : Value) : Eff GraphData :=
  ns <- call_map resources "resources" node_of ;;
  ls <- call_flatMap resources "resources" links_of ;;
  ret {| nodes := ns; links := ls |}.

Definition node_value (n : GraphNode) : Value :=
  VObj [ ("id", node_id n); ("name", node_name n);
         ("val", VNum (node_val n)); ("color", VStr (node_color n)) ].

Definition link_value (l : GraphLink) : Value :=
  VObj [ ("source", link_source l); ("target", link_target l) ].

Definition graph_value (g : GraphData) : Value :=
  VObj [ ("nodes", VArr (map node_value (nodes g)));
         ("links", VArr (map link_value (links g))) ].

Definition ResourceRelationships (resources : Value) : Eff Node :=
  g <- graphData resources ;;
  ret (El "Card" [("className", VStr "mx-auto")]
         [ El "Title" [] [Text "Resource Relationships"];
           El "div" [("className", VStr "h-[500px] w-full mt-4")]
             [ El "Graph"
                 [ ("graphData", graph_value g);
                   ("nodeLabel", VStr "name");
                   ("nodeRelSize", VNum (of_Z 6));
                   ("nodeAutoColorBy", VStr "type");
                   ("linkDirectionalParticles", VNum (of_Z 2)) ]
                 [] ] ]).

(** The declared shape of a resource ([interface Resource]) and its
    run-time representation. *)
Record Resource : Type := {
  id : string;
  type : string;
  name : string;
  relationships : list string
}.

Definition to_value (r : Resource) : Value :=
  VObj [ ("id", VStr (id r)); ("type", VStr (type r)); ("name", VStr (name r));
         ("relationships", VArr (map VStr (relationships r))) ].

(** The node and the edges the projection owes to one resource. *)
Definition node_for (r : Resource) : GraphNode :=
  {| node_id := VStr (id r);
     node_name := VStr (name r);
     node_val := of_Z 1;
     node_color := color_of_type (toLowerCase (type r)) |}.

Definition links_for (r : Resource) : list GraphLink :=
  map (fun target => {| link_source := VStr (id r); link_target := VStr target |})
      (relationships r).

(** The total number of relationship entries. *)
Definition relationship_count (rs : list Resource) : nat :=
  list_sum (map (fun r => List.length (relationships r)) rs).

(** The card around a graph with no nodes and no links. *)
Definition empty_graph_card : Node :=
  El "Card" [("className", VStr "mx-auto")]
    [ El "Title" [] [Text "Resource Relationships"];
      El "div" [("className", VStr "h-[500px] w-full mt-4")]
        [ El "Graph"
            [ ("graphData", VObj [("nodes", VArr []); ("links", VArr [])]);
              ("nodeLabel", VStr "name");
              ("nodeRelSize", VNum (of_Z 6));
              ("nodeAutoColorBy", VStr "type");
              ("linkDirectionalParticles", VNum (of_Z 2)) ]
            [] ] ].

End ResourceRelationships.

(* ===================================================================== *)
(** * ServiceMisconfigurations *)
(* ===================================================================== *)

Module ServiceMisconfigurations.
Import JS.
Local Open Scope eff_scope.

(** [switch (severity)] compares with [===]: only the three strings match. *)
Definition getSeverityColor (severity : Value) : string :=
  match severity with
  | VStr s =>
      if s =? "HIGH" then "rose"
      else if s =? "MEDIUM" then "amber"
      else if s =? "LOW" then "emerald"
      else "slate"
  | _ => "slate"
  end.

(** The icon components are named by their identifiers. *)
Definition getSeverityIcon (severity : Value) : string :=
  match severity with
  | VStr s =>
      if s =? "HIGH" then "ExclamationTriangleIcon"
      else if s =? "MEDIUM" then "InformationCircleIcon"
      else if s =? "LOW" then "CheckCircleIcon"
      else "InformationCircleIcon"
  | _ => "InformationCircleIcon"
  end.

(** [{...issue, severityColor, Icon}] *)
Record IssueView : Type := {
  issue : list (string * Value);
  severityColor : string;
  Icon : string
}.

(** [{...resource, misconfigurations}] *)
Record ResourceView : Type := {
  resource : list (string * Value);
  misconfigurations : list IssueView
}.

Record ServiceView : Type := {
  service : string;
  resources : list ResourceView
}.

Definition annotate_issue (i : Value) : Eff IssueView :=
  severity <- get i "severity" ;;
  ret {| issue := spread i;
         severityColor := getSeverityColor severity;
         Icon := getSeverityIcon severity |}.

Definition annotate_resource (r : Value) : Eff ResourceView :=
  ms <- get r "misconfigurations" ;;
  issues <- call_map ms "resource.misconfigurations" annotate_issue ;;
  ret {| resource := spread r; misconfigurations := issues |}.

(** The [useMemo] body: [Object.entries(services).map(...)]. *)
Definition resourcesList (services : Value) : Eff (list ServiceView) :=
  mapM (fun entry : string * Value =>
          rs <- call_map (snd entry) "resources" annotate_resource ;;
          ret {| service := fst entry; resources := rs |})
       (Object_entries services).

(** The default parameter [services = {}] replaces [undefined] only. *)
Definition services_or_default (s : Value) : Value :=
  match s with
  | VUndefined => VObj []
  | _ => s
  end.

Definition no_misconfigurations : Node :=
  El "div" [("className", VStr "bg-white p-6 rounded-lg shadow")]
    [ El "h2" [("className", VStr "text-xl font-semibold mb-4")]
        [Text "Service Misconfigurations"];
      El "p" [("className", VStr "text-gray-500")]
        [Text "No misconfigurations found"] ].

Definition issue_node (index : nat) (i : IssueView) : Node :=
  El "div"
    [ ("key", VNum (of_Z (Z.of_nat index)));
      ("className", VStr "flex items-start space-x-2 text-sm") ]
    [ El (Icon i)
        [ ("className", VStr ("h-5 w-5 text-" ++ severityColor i ++ "-500 shrink-0"));
          ("aria-hidden", VStr "true") ]
        [];
      El "div" []
        [ El "Badge" [("color", VStr (severityColor i))]
            [Expr (lookup "type" (issue i))];
          El "p" [("className", VStr "mt-1 text-gray-600 dark:text-gray-300")]
            [Expr (lookup "description" (issue i))] ] ].

Definition resource_node (r : ResourceView) : Node :=
  El "div"
    [ ("key", lookup "resource_id" (resource r));
      ("className", VStr "bg-gray-50 p-4 rounded") ]
    [ El "p" [("className", VStr "font-medium mb-2")]
        [Text "Resource ID: "; Expr (lookup "resource_id" (resource r))];
      El "div" [("className", VStr "space-y-2")]
        (mapi issue_node 0 (misconfigurations r)) ].

Definition service_node (s : ServiceView) : Node :=
  El "div"
    [ ("key", VStr (service s));
      ("className", VStr "p-4 bg-gray-50 dark:bg-gray-800 rounded-lg") ]
    [ El "h3"
        [("className", VStr "font-medium text-gray-900 dark:text-gray-100 capitalize")]
        [Expr (VStr (service s))];
      match resources s with
      | [] => El "p" [("className", VStr "text-gray-500")] [Text "No issues found"]
      | _ => El "div" [("className", VStr "space-y-4")]
               (map resource_node (resources s))
      end ].

Definition ServiceMisconfigurations (services_prop : Value) : Eff Node :=
  let services := services_or_default services_prop in
  if negb (truthy services) || (List.length (Object_keys services) =? 0)%nat then
    ret no_misconfigurations
  else
    list <- resourcesList services ;;
    ret (El "Card" []
           [ El "Title" [] [Text "Service Misconfigurations"];
             El "div" [("className", VStr "mt-4 space-y-4")]
               (map service_node list) ]).

End ServiceMisconfigurations.

(* ===================================================================== *)
(** * MisconfigTable *)
(* ===================================================================== *)

Module MisconfigTable.

(** The table is rendered from a fixed list whose [riskLevel] is declared
    ['Critical' | 'High' | 'Medium' | 'Low']; the badge colour is the only
    computation in it. *)
Definition getRiskLevelColor (level : string) : string :=
  if level =? "Critical" then "bg-red-100 text-red-800"
  else if level =? "High" then "bg-blue-100 text-blue-800"
  else if level =? "Medium" then "bg-gray-100 text-gray-800"
  else "bg-gray-100 text-gray-800".

End MisconfigTable.

(* ===================================================================== *)
(** * SecurityOverview (the "Risk Overview" card) *)
(* ===================================================================== *)

Module SecurityOverview.
Import JS.

Record Entry : Type := {
  entry_name : string;
  entry_value : number;
  entry_color : string
}.

Definition data : list Entry :=
  [ {| entry_name := "Critical"; entry_value := of_Z 3; entry_color := "#ef4444" |};
    {| entry_name := "High"; entry_value := of_Z 8; entry_color := "#f97316" |};
    {| entry_name := "Medium"; entry_value := of_Z 15; entry_color := "#eab308" |};
    {| entry_name := "Low"; entry_value := of_Z 24; entry_color := "#22c55e" |} ].

Definition RADIAN : number := div Math_PI (of_Z 180).

(** What recharts hands to a pie label renderer. *)
Record LabelProps : Type := {
  cx : number;
  cy : number;
  midAngle : number;
  innerRadius : number;
  outerRadius : number;
  percent : number;
  index : number;
  name : string;
  value : number
}.

Section Label.
Context `{Host}.

(** [(percent * 100).toFixed(0)] *)
Definition percentageValue (p : LabelProps) : string :=
  toFixed0 (mul (percent p) (of_Z 100)).

(** [None] is the [null] render. *)
Definition renderCustomizedLabel (p : LabelProps) : option Node :=
  let radius := add (innerRadius p) (mul (sub (outerRadius p) (innerRadius p)) one_half) in
  let x := add (cx p) (mul radius (Math_cos (mul (neg (midAngle p)) RADIAN))) in
  let y := add (cy p) (mul radius (Math_sin (mul (neg (midAngle p)) RADIAN))) in
  let cos := Math_cos (mul (neg (midAngle p)) RADIAN) in
  let textAnchor := if ge cos (of_Z 0) then "start" else "end" in
  if lt (Number (percentageValue p)) (of_Z 5) then None
  else
    let adjustedX :=
      if ge cos (of_Z 0) then Math_min x (add (cx p) (of_Z 70))
      else Math_max x (sub (cx p) (of_Z 70)) in
    Some
      (El "g" []
         [ El "text"
             [ ("x", VNum adjustedX);
               ("y", VNum y);
               ("textAnchor", VStr textAnchor);
               ("className", VStr "text-[10px] font-medium fill-[#64748b]");
               ("dominantBaseline", VStr "central") ]
             [ Expr (VStr (Number_toString (value p) ++ " " ++ name p ++
                           " (" ++ percentageValue p ++ "%)")) ] ]).

(** The guard of [renderCustomizedLabel] run on the digit strings of
    0..100 and of their negatives: it must fire below 5 and on every
    negative. *)
Definition guard_agrees_upto_100 : bool :=
  forallb (fun k : nat =>
             Bool.eqb (lt (Number (digits (N.of_nat k))) (of_Z 5)) (Z.of_nat k <? 5)%Z
             && lt (Number ("-" ++ digits (N.of_nat k))) (of_Z 5))
          (seq 0 101).

End Label.

(** A slice of the pie of the examples, with the given share. *)
Definition sample_slice (share : number) : LabelProps :=
  {| cx := of_Z 100; cy := of_Z 100; midAngle := of_Z 45;
     innerRadius := of_Z 35; outerRadius := of_Z 60;
     percent := share; index := of_Z 0; name := "Critical"; value := of_Z 3 |}.

Definition entry_value_of (e : Entry) : Value :=
  VObj [ ("name", VStr (entry_name e)); ("value", VNum (entry_value e));
         ("color", VStr (entry_color e)) ].

(** [data.reduce((sum, item) => sum + item.value, 0)] *)
Definition total : number :=
  fold_left (fun sum item => add sum (entry_value item)) data (of_Z 0).

Definition cell (index : nat) (entry : Entry) : Node :=
  El "Cell"
    [ ("key", VStr ("cell-" ++ digits (N.of_nat index)));
      ("fill", VStr (entry_color entry)) ]
    [].

Definition legend_row (index : nat) (item : Entry) : Node :=
  El "div"
    [ ("key", VNum (of_Z (Z.of_nat index)));
      ("className", VStr "flex items-center justify-between p-2 bg-accent rounded-lg") ]
    [ El "div" [("className", VStr "flex items-center space-x-3")]
        [ El "div"
            [ ("className", VStr "w-2 h-2 rounded-full");
              ("style", VObj [("backgroundColor", VStr (entry_color item))]) ]
            [];
          El "span" [] [Expr (VStr (entry_name item))] ];
      El "span" [("className", VStr "text-sm font-medium")]
        [Expr (VNum (entry_value item)); Text " issues"] ].

(** The component takes no props: it renders the fixed [data].  The
    [label] prop of [Pie] is the function [renderCustomizedLabel]. *)
Definition SecurityOverview : Node :=
  El "Card" [("className", VStr "col-span-1")]
    [ El "CardHeader"
        [("className", VStr "flex flex-row items-center justify-between space-y-0 pb-2")]
        [ El "CardTitle" [] [Text "Risk Overview"];
          El "span" [("className", VStr "text-sm text-muted-foreground")]
            [Expr (VNum total); Text " issues"] ];
      El "CardContent" []
        [ El "div" [("className", VStr "h-[200px] relative")]
            [ El "ResponsiveContainer"
                [("width", VStr "100%"); ("height", VStr "100%")]
                [ El "PieChart"
                    [("margin", VObj [ ("top", VNum (of_Z 10)); ("right", VNum (of_Z 10));
                                       ("bottom", VNum (of_Z 10)); ("left", VNum (of_Z 10)) ])]
                    [ El "Pie"
                        [ ("data", VArr (map entry_value_of data));
                          ("cx", VStr "50%");
                          ("cy", VStr "50%");
                          ("labelLine", VBool false);
                          ("innerRadius", VNum (of_Z 35));
                          ("outerRadius", VNum (of_Z 60));
                          ("fill", VStr "#8884d8");
                          ("dataKey", VStr "value");
                          ("paddingAngle", VNum (of_Z 2)) ]
                        (mapi cell 0 data) ] ] ];
          El "div" [("className", VStr "mt-4 space-y-2")]
            (mapi legend_row 0 data) ] ].

End SecurityOverview.

(* ===================================================================== *)
(** * RiskAssessment *)
(* ===================================================================== *)

Module RiskAssessment.
Import JS.
Local Open Scope eff_scope.

Definition RiskAssessment (metrics : Value) : Eff Node :=
  high <- get metrics "high" ;;
  medium <- get metrics "medium" ;;
  low <- get metrics "low" ;;
  let data :=
    [ VObj [("name", VStr "High Risk"); ("value", high); ("color", VStr "rose")];
      VObj [("name", VStr "Medium Risk"); ("value", medium); ("color", VStr "amber")];
      VObj [("name", VStr "Low Risk"); ("value", low); ("color", VStr "emerald")] ] in
  ret (El "Card" [("className", VStr "mx-auto")]
         [ El "Title" [] [Text "Risk Assessment"];
           El "div" [("className", VStr "mt-6")]
             [ El "DonutChart"
                 [ ("data", VArr data);
                   ("category", VStr "value");
                   ("index", VStr "name");
                   ("colors", VArr [VStr "rose"; VStr "amber"; VStr "emerald"]);
                   ("className", VStr "mt-6") ]
                 [] ];
           El "Legend"
             [ ("className", VStr "mt-6");
               ("categories", VArr [VStr "High Risk"; VStr "Medium Risk"; VStr "Low Risk"]);
               ("colors", VArr [VStr "rose"; VStr "amber"; VStr "emerald"]) ]
             [] ]).

End RiskAssessment.


(* ===================================================================== *)
(** * Vocabulary of the specification *)
(* ===================================================================== *)

(** ** Colours *)

Module Palette.
Import JS.

(** The colours the two mapping functions declare for the values they
    name: those of the [case] arms.  [getRiskLevelColor] names Medium and
    gives it the colour that is also its default. *)
Definition severity_palette : list string := ["rose"; "amber"; "emerald"].

Definition risk_palette : list string :=
  ["bg-red-100 text-red-800"; "bg-blue-100 text-blue-800"; "bg-gray-100 text-gray-800"].

Definition severity_default : string := "slate".
Definition risk_default : string := "bg-gray-100 text-gray-800".

Definition severities : list string := ["HIGH"; "MEDIUM"; "LOW"].
Definition risk_levels : list string := ["Critical"; "High"; "Medium"; "Low"].

Inductive Family : Type := Red | Amber | GreenBlue | Neutral.

Fixpoint contains (word s : string) : bool :=
  match s with
  | EmptyString => String.prefix word EmptyString
  | String _ rest => String.prefix word s || contains word rest
  end.

(** The family of a colour, read off the hue it names. *)
Definition family (color : string) : option Family :=
  if contains "rose" color || contains "red" color then Some Red
  else if contains "amber" color || contains "orange" color then Some Amber
  else if contains "emerald" color || contains "green" color || contains "blue" color
  then Some GreenBlue
  else if contains "slate" color || contains "gray" color then Some Neutral
  else None.

(** The families the specification assigns. *)
Definition severity_family (s : string) : Family :=
  if s =? "HIGH" then Red
  else if s =? "MEDIUM" then Amber
  else if s =? "LOW" then GreenBlue
  else Neutral.

Definition risk_family (s : string) : Family :=
  if s =? "Critical" then Red
  else if s =? "High" then Amber
  else if s =? "Medium" then GreenBlue
  else Neutral.

(** The families [getRiskLevelColor] assigns. *)
Definition risk_family_in_code (s : string) : Family :=
  if s =? "Critical" then Red
  else if s =? "High" then GreenBlue
  else Neutral.

End Palette.

(** ** What a rendered tree shows *)

Module View.
Import JS.

(** A tree carries text in two ways: its markup writes it (literal text
    and the values placed in braces), or it hands it to a component as a
    prop.  What a library component draws from the props it is given is
    not in this code. *)

(** [2^(-e)] divides [m], or [e >= 0]: [m * 2^e] is an integer. *)
Definition is_integer (m : positive) (e : Z) : bool :=
  (0 <=? e)%Z || divisible_by_pow2 m (- e).

Section Written.
Context `{Host}.

(** [String(x)], which is how React writes a number: the decimal digits
    of an integer below 10^21 (ECMA-262, Number::toString); every other
    finite number is printed by the host. *)
Definition number_text (x : number) : string :=
  match x with
  | S754_nan => "NaN"
  | S754_infinity false => "Infinity"
  | S754_infinity true => "-Infinity"
  | S754_zero _ => "0"
  | S754_finite s m e =>
      if is_integer m e && negb (at_least_1e21 m e) then
        (if s then "-" else "") ++
        digits (Z.to_N (if (0 <=? e)%Z then Z.pos m * 2 ^ e else Z.pos m / 2 ^ (- e)))
      else Number_toString x
  end.

Definition append_text (a b : option string) : option string :=
  match a, b with
  | Some x, Some y => Some (x ++ y)
  | _, _ => None
  end.

(** The text React writes for a value placed in braces: a string as it
    is, a number through [String], nothing for a boolean, [null] or
    [undefined], the items of an array one after the other.  An object
    is refused ([None]). *)
Fixpoint value_text (v : Value) : option string :=
  match v with
  | VStr s => Some s
  | VNum x => Some (number_text x)
  | VArr items =>
      fold_right (fun item rest => append_text (value_text item) rest) (Some "") items
  | VObj _ => None
  | VUndefined | VNull | VBool _ => Some ""
  end.

(** The text the markup of a tree writes, in document order. *)
Fixpoint text (n : Node) : option string :=
  match n with
  | El _ _ children =>
      fold_right (fun child rest => append_text (text child) rest) (Some "") children
  | Text s => Some s
  | Expr v => value_text v
  end.

(** The strings and numbers inside a value handed over as a prop. *)
Fixpoint strings_of (v : Value) : list string :=
  match v with
  | VStr s => [s]
  | VNum x => [number_text x]
  | VArr items => flat_map strings_of items
  | VObj fields => flat_map (fun kv => strings_of (snd kv)) fields
  | VUndefined | VNull | VBool _ => []
  end.

(** The strings a tree hands to its elements as props. *)
Fixpoint prop_strings (n : Node) : list string :=
  match n with
  | El _ props children =>
      (flat_map (fun kv => strings_of (snd kv)) props ++ flat_map prop_strings children)%list
  | _ => []
  end.

(** The tree carries the text [t]: its markup writes it, or one of the
    strings it hands over contains it. *)
Definition carries (t : string) (n : Node) : bool :=
  match text n with
  | Some written => Palette.contains t written
  | None => false
  end || existsb (Palette.contains t) (prop_strings n).

End Written.

Definition is_chart (tag : string) : bool := (tag =? "DonutChart") || (tag =? "Pie").

(** The data entries of the pie and donut charts in a tree: one segment
    is drawn per entry. *)
Fixpoint segments (n : Node) : list Value :=
  match n with
  | El tag props children =>
      ((if is_chart tag then
          match lookup "data" props with
          | VArr items => items
          | _ => []
          end
        else []) ++ flat_map segments children)%list
  | _ => []
  end.

Definition segment_values (n : Node) : list Value :=
  map (fun item => match item with
                   | VObj fields => lookup "value" fields
                   | _ => VUndefined
                   end) (segments n).

(** The share of a slice as a percentage, rounded to the nearest integer
    (halves away from zero); [None] when the percentage is not finite. *)
Definition rounded_percentage (percent : number) : option Z :=
  match mul percent (of_Z 100) with
  | S754_zero _ => Some 0
  | S754_finite s m e => Some (if s then - nearest_integer m e else nearest_integer m e)
  | _ => None
  end.

End View.

(* ===================================================================== *)
(** * Statements of the specification that the code does not meet *)
(* ===================================================================== *)

Module Stated.
Import JS.

(** "For every non-2xx upstream response, the local response carries the
    same status code and the upstream error body passed through
    verbatim." *)
Definition relays_error_body_verbatim : Prop :=
  forall env parse upstream req params r body,
    parse (Route.url req) = Some params ->
    upstream (Route.target env params) Route.request_headers = Some r ->
    Route.ok r = false ->
    Route.json_body r = Some body ->
    fst (run (Route.GET env parse upstream req)) =
      Returns {| Route.res_status := Route.status r; Route.res_body := body |}.

(** "Each of ServiceMisconfigurations, TrendChart and ResourceRelationships,
    applied to an undefined or empty input collection, produces a render
    result rather than raising an exception." *)
Definition renders_without_collection : Prop :=
  forall (host : Host) (dates : TrendChart.DateFns) title timeRange,
    (forall v, v = VUndefined \/ v = VObj [] ->
       exists node,
         fst (run (ServiceMisconfigurations.ServiceMisconfigurations v)) = Returns node)
    /\ (forall v, v = VUndefined \/ v = VArr [] ->
          exists node,
            fst (run (TrendChart.TrendChart
                        {| TrendChart.data := v; TrendChart.title := title;
                           TrendChart.timeRange := timeRange |})) = Returns node)
    /\ (forall v, v = VUndefined \/ v = VArr [] ->
          exists node,
            fst (run (ResourceRelationships.ResourceRelationships v)) = Returns node).

(** "HIGH and Critical map to a red-family colour, MEDIUM and High to an
    amber/orange-family colour, LOW and Medium to a green/blue-family
    colour, and any unrecognized value to a neutral/gray colour."  The risk
    level [Low] is named by none of the four clauses and is left free. *)
Definition follows_color_families : Prop :=
  forall s : string,
    Palette.family (ServiceMisconfigurations.getSeverityColor (VStr s)) =
      Some (Palette.severity_family s)
    /\ (s <> "Low" ->
        Palette.family (MisconfigTable.getRiskLevelColor s) =
          Some (Palette.risk_family s)).

(** The metrics of the end-to-end example. *)
Definition example_metrics : Value :=
  VObj [("high", VNum (of_Z 3)); ("medium", VNum (of_Z 8)); ("low", VNum (of_Z 24))].

(** "The risk overview displays a total reading '35 issues' and renders
    exactly three chart segments whose values are in the proportions
    3/8/24."  To be displayed, the reading has to be carried by the tree:
    written by its markup or handed to a component. *)
Definition reads_35_issues_in_three_segments `{Host} (view : Node) : Prop :=
  View.carries "35 issues" view = true
  /\ View.segment_values view = [VNum (of_Z 3); VNum (of_Z 8); VNum (of_Z 24)].

(** The claim for either of the two components it is drawn from, on some
    host. *)
Definition risk_overview_reads_35 : Prop :=
  exists host : Host,
    (exists view,
       fst (run (RiskAssessment.RiskAssessment example_metrics)) = Returns view
       /\ reads_35_issues_in_three_segments view)
    \/ reads_35_issues_in_three_segments SecurityOverview.SecurityOverview.

End Stated.

(* ===================================================================== *)
(** * Further vocabulary: sequencing of pure callbacks *)
(* ===================================================================== *)

Module Sequence.
Import JS.

(** The outcome of running a list of computations in order: the first
    throw wins. *)
Fixpoint sequence {B} (os : list (Outcome B)) : Outcome (list B) :=
  match os with
  | [] => Returns []
  | Returns y :: rest =>
      match sequence rest with
      | Returns ys => Returns (y :: ys)
      | Throws e => Throws e
      end
  | Throws e :: _ => Throws e
  end.

Definition returns {B} (o : Outcome B) : bool :=
  match o with Returns _ => true | Throws _ => false end.

(** A callback whose outcome does not depend on the trace and which
    leaves the trace alone. *)
Definition silent {A B} (f : A -> Eff B) : Prop :=
  forall x tr, f x tr = (fst (f x []), tr).

End Sequence.

(* ===================================================================== *)
(** * Further vocabulary: how TrendChart treats a point *)
(* ===================================================================== *)

Module TrendPoints.
Import JS TrendChart.

(** The warning logged for a point the guard rejects. *)
Definition warning (item : Value) : Event :=
  ConsoleWarn "TrendChart: Invalid data point" (VObj [("item", item)]).

Definition is_number (v : Value) : bool :=
  match v with VNum _ => true | _ => false end.

(** The points the guard of the [map] callback rejects: anything but
    [undefined] and [null] whose [date] is falsy or whose [value] is not a
    number. *)
Definition dropped (item : Value) : bool :=
  match item with
  | VUndefined | VNull => false
  | VObj fields =>
      negb (truthy (lookup "date" fields)) || negb (is_number (lookup "value" fields))
  | _ => true
  end.

Section Kept.
Context `{DateFns}.

(** The formatted point of an object whose [date] is a non-empty string
    that parses and whose [value] is a number. *)
Definition kept (item : Value) : option Value :=
  match item with
  | VObj fields =>
      match lookup "date" fields, lookup "value" fields with
      | VStr s, VNum n =>
          if s =? "" then None
          else match parseISO_time s with
               | Some t =>
                   Some (VObj [("date", VStr (format_time t "MMM d, yyyy"));
                               ("value", VNum n)])
               | None => None
               end
      | _, _ => None
      end
  | _ => None
  end.

Definition kept_points (items : list Value) : list Value :=
  flat_map (fun item => match kept item with Some p => [p] | None => [] end) items.

(** A point the formatting can handle: it is rejected by the guard, or it
    formats. *)
Definition formattable (item : Value) : bool :=
  dropped item || match kept item with Some _ => true | None => false end.

End Kept.

End TrendPoints.

(* ===================================================================== *)
(** * ResourceRelationships: the rest of the file *)
(* ===================================================================== *)

Module ResourceShape.
Import JS.
Local Open Scope eff_scope.

Definition icon_of_type (lowered : string) : string :=
  if lowered =? "ec2" then "🖥️"
  else if lowered =? "s3" then "💾"
  else if lowered =? "rds" then "🗄️"
  else if lowered =? "iam" then "🔑"
  else "📦".

(** [getResourceTypeIcon], declared after the component and called
    nowhere; same [switch (type.toLowerCase())] as [getResourceColor]. *)
Definition getResourceTypeIcon (type : Value) : Eff string :=
  match type with
  | VStr s => ret (icon_of_type (toLowerCase s))
  | VUndefined =>
      throw (TypeError "Cannot read properties of undefined (reading 'toLowerCase')")
  | VNull =>
      throw (TypeError "Cannot read properties of null (reading 'toLowerCase')")
  | _ => throw (TypeError "type.toLowerCase is not a function")
  end.

(** A resource the projection can handle: an object whose [type] is a
    string and whose [relationships] is an array. *)
Definition projectable (resource : Value) : bool :=
  match resource with
  | VObj fields =>
      match lookup "type" fields, lookup "relationships" fields with
      | VStr _, VArr _ => true
      | _, _ => false
      end
  | _ => false
  end.

(** The number of relationship entries of a resource. *)
Definition edge_count (resource : Value) : nat :=
  match resource with
  | VObj fields =>
      match lookup "relationships" fields with
      | VArr targets => List.length targets
      | _ => 0%nat
      end
  | _ => 0%nat
  end.

End ResourceShape.

(* ===================================================================== *)
(** * The declared data model ([types/aws.ts]) *)
(* ===================================================================== *)

Module Aws.
Import JS.

Inductive Severity : Type := HIGH | MEDIUM | LOW.

Definition severity_name (s : Severity) : string :=
  match s with
  | HIGH => "HIGH"
  | MEDIUM => "MEDIUM"
  | LOW => "LOW"
  end.

Record Misconfiguration : Type := {
  mis_type : string;
  mis_severity : Severity;
  mis_description : string
}.

Record Resource : Type := {
  res_id : string;
  res_resource_id : string;
  res_type : string;
  res_name : string;
  res_relationships : list string;
  res_misconfigurations : list Misconfiguration
}.

(** [ServiceData]: the services in the order in which the object's keys
    were written. *)
Definition ServiceData : Type := list (string * list Resource).

Definition misconfiguration_value (m : Misconfiguration) : Value :=
  VObj [ ("type", VStr (mis_type m));
         ("severity", VStr (severity_name (mis_severity m)));
         ("description", VStr (mis_description m)) ].

Definition resource_value (r : Resource) : Value :=
  VObj [ ("id", VStr (res_id r));
         ("resource_id", VStr (res_resource_id r));
         ("type", VStr (res_type r));
         ("name", VStr (res_name r));
         ("relationships", VArr (map VStr (res_relationships r)));
         ("misconfigurations", VArr (map misconfiguration_value (res_misconfigurations r))) ].

Definition service_entry (entry : string * list Resource) : string * Value :=
  (fst entry, VArr (map resource_value (snd entry))).

Definition services_value (services : ServiceData) : Value :=
  VObj (map service_entry services).

End Aws.

(* ===================================================================== *)
(** * Further vocabulary: what ServiceMisconfigurations shows *)
(* ===================================================================== *)

Module ServiceShape.
Import JS ServiceMisconfigurations.

(** The views [resourcesList] owes to well-typed data. *)
Definition issue_view (m : Aws.Misconfiguration) : IssueView :=
  {| issue := spread (Aws.misconfiguration_value m);
     severityColor := getSeverityColor (VStr (Aws.severity_name (Aws.mis_severity m)));
     Icon := getSeverityIcon (VStr (Aws.severity_name (Aws.mis_severity m))) |}.

Definition resource_view (r : Aws.Resource) : ResourceView :=
  {| resource := spread (Aws.resource_value r);
     misconfigurations := map issue_view (Aws.res_misconfigurations r) |}.

Definition service_view (entry : string * list Aws.Resource) : ServiceView :=
  {| service := fst entry; resources := map resource_view (snd entry) |}.

(** The card over a list of service views. *)
Definition card (views : list ServiceView) : Node :=
  El "Card" []
    [ El "Title" [] [Text "Service Misconfigurations"];
      El "div" [("className", VStr "mt-4 space-y-4")] (map service_node views) ].

(** The colours of all issues in a list of views. *)
Definition issue_colors (views : list ServiceView) : list string :=
  flat_map (fun s => flat_map (fun r => map severityColor (misconfigurations r))
                              (resources s)) views.

(** Values with no own enumerable property: everything but a non-empty
    object, array or string. *)
Definition keyless (v : Value) : bool :=
  match v with
  | VObj (_ :: _) | VArr (_ :: _) | VStr (String _ _) => false
  | _ => true
  end.

(** Shapes the annotation can handle. *)
Definition shaped_issue (i : Value) : bool :=
  match i with
  | VUndefined | VNull => false
  | _ => true
  end.

Definition shaped_resource (r : Value) : bool :=
  match r with
  | VObj fields =>
      match lookup "misconfigurations" fields with
      | VArr issues => forallb shaped_issue issues
      | _ => false
      end
  | _ => false
  end.

Definition shaped_service (entry : string * Value) : bool :=
  match snd entry with
  | VArr rs => forallb shaped_resource rs
  | _ => false
  end.

(** The callback [resourcesList] maps over the entries. *)
Definition annotate_service (entry : string * Value) : Eff ServiceView :=
  bind (call_map (snd entry) "resources" annotate_resource)
       (fun rs => ret {| service := fst entry; resources := rs |}).

End ServiceShape.

(* ===================================================================== *)
(** * Further vocabulary: reading a rendered label and the risk metrics *)
(* ===================================================================== *)

Module Reading.
Import JS.

(** [metrics.k] of a value that is neither [undefined] nor [null]. *)
Definition metric (metrics : Value) (k : string) : Value :=
  match metrics with
  | VObj fields => lookup k fields
  | _ => VUndefined
  end.

Definition nullish (v : Value) : bool :=
  match v with
  | VUndefined | VNull => true
  | _ => false
  end.

(** An attribute of the [<text>] inside a rendered pie label. *)
Definition label_attribute (name : string) (label : Node) : Value :=
  match label with
  | El _ _ [El _ props _] => lookup name props
  | _ => VUndefined
  end.

(** [cos], as [renderCustomizedLabel] computes it. *)
Definition label_cos `{Host} (p : SecurityOverview.LabelProps) : number :=
  Math_cos (mul (neg (SecurityOverview.midAngle p)) SecurityOverview.RADIAN).

(** [a <= b] on numbers; false as soon as one side is NaN. *)
Definition le (a b : number) : bool := SFleb a b.

End Reading.

(* ===================================================================== *)
(** * MisconfigDetails and the state of MisconfigTable *)
(* ===================================================================== *)

Module MisconfigModal.
Import JS.

Record Details : Type := {
  impact : string;
  remediation : string;
  additionalInfo : list (string * string)
}.

Record Misconfiguration : Type := {
  service : string;
  resource : string;
  riskLevel : string;
  description : string;
  compliance : string;
  details : Details
}.

(** The line break written [\n] in the source. *)
Definition nl : string := String (ascii_of_nat 10) EmptyString.

Definition mockMisconfigurations : list Misconfiguration :=
  [ {| service := "S3";
       resource := "data-backup-bucket";
       riskLevel := "Critical";
       description := "Public read access enabled";
       compliance := "CIS 2.1.5";
       details :=
         {| impact := "Unauthorized access to sensitive data";
            remediation :=
              "1. Disable public access settings" ++ nl ++
              "2. Update bucket policy" ++ nl ++ "3. Enable default encryption";
            additionalInfo :=
              [ ("Bucket Policy", "Allow public read access");
                ("Versioning", "Disabled");
                ("Encryption", "None") ] |} |};
    {| service := "IAM";
       resource := "service-role-prod";
       riskLevel := "High";
       description := "Overly permissive IAM role";
       compliance := "NIST AC-6";
       details :=
         {| impact := "Potential privilege escalation";
            remediation :=
              "1. Review role permissions" ++ nl ++
              "2. Apply least privilege principle" ++ nl ++ "3. Remove unused permissions";
            additionalInfo :=
              [ ("Attached Policies", "10");
                ("Last Used", "2025-02-15");
                ("Resource Access", "Full Admin") ] |} |};
    {| service := "EC2";
       resource := "web-server-01";
       riskLevel := "Medium";
       description := "Security group allows all inbound traffic";
       compliance := "PCI DSS 1.3";
       details :=
         {| impact := "Increased attack surface";
            remediation :=
              "1. Review security group rules" ++ nl ++
              "2. Remove overly permissive rules" ++ nl ++ "3. Implement specific IP ranges";
            additionalInfo :=
              [ ("Security Group", "sg-01234");
                ("Open Ports", "0-65535");
                ("Source IP", "0.0.0.0/0") ] |} |} ].

(** A labelled field of the modal. *)
Definition field (label : string) (value : string) : Node :=
  El "div" []
    [ El "label" [("className", VStr "block text-sm font-medium text-gray-500")] [Text label];
      El "p" [("className", VStr "mt-1 text-sm text-gray-900")] [Expr (VStr value)] ].

Definition info_pair (kv : string * string) : Node :=
  El "div" [("key", VStr (fst kv))]
    [ El "dt" [("className", VStr "text-sm font-medium text-gray-500")] [Expr (VStr (fst kv))];
      El "dd" [("className", VStr "mt-1 text-sm text-gray-900")] [Expr (VStr (snd kv))] ].

(** [MisconfigDetails]; both buttons call [onClose]. *)
Definition MisconfigDetails (misconfig : Misconfiguration) : Node :=
  El "div"
    [("className",
      VStr "fixed inset-0 bg-black bg-opacity-50 flex items-center justify-center z-50")]
    [ El "div"
        [("className",
          VStr "bg-white rounded-lg max-w-2xl w-full mx-4 max-h-[90vh] overflow-y-auto")]
        [ El "div" [("className", VStr "p-6")]
            [ El "div" [("className", VStr "flex justify-between items-start mb-4")]
                [ El "h2" [("className", VStr "text-xl font-semibold text-gray-900")]
                    [Text "Configuration Details"];
                  El "button" [("className", VStr "text-gray-400 hover:text-gray-500")]
                    [ El "svg"
                        [ ("className", VStr "h-6 w-6"); ("fill", VStr "none");
                          ("viewBox", VStr "0 0 24 24"); ("stroke", VStr "currentColor") ]
                        [ El "path"
                            [ ("strokeLinecap", VStr "round");
                              ("strokeLinejoin", VStr "round");
                              ("strokeWidth", VNum (of_Z 2));
                              ("d", VStr "M6 18L18 6M6 6l12 12") ]
                            [] ] ] ];
              El "div" [("className", VStr "space-y-6")]
                [ El "div" [("className", VStr "grid grid-cols-2 gap-4")]
                    [ field "Service" (service misconfig);
                      field "Resource" (resource misconfig);
                      field "Risk Level" (riskLevel misconfig);
                      field "Compliance" (compliance misconfig) ];
                  field "Description" (description misconfig);
                  field "Impact" (impact (details misconfig));
                  El "div" []
                    [ El "label"
                        [("className", VStr "block text-sm font-medium text-gray-500")]
                        [Text "Remediation Steps"];
                      El "div"
                        [("className", VStr "mt-1 text-sm text-gray-900 whitespace-pre-line")]
                        [Expr (VStr (remediation (details misconfig)))] ];
                  El "div" []
                    [ El "label"
                        [("className", VStr "block text-sm font-medium text-gray-500 mb-2")]
                        [Text "Additional Information"];
                      El "div" [("className", VStr "bg-gray-50 rounded-lg p-4")]
                        [ El "dl" [("className", VStr "grid grid-cols-2 gap-4")]
                            (map info_pair (additionalInfo (details misconfig))) ] ] ] ];
          El "div"
            [("className", VStr "px-6 py-4 bg-gray-50 border-t border-gray-200 rounded-b-lg")]
            [ El "button"
                [("className",
                  VStr ("w-full inline-flex justify-center py-2 px-4 border border-transparent " ++
                        "shadow-sm text-sm font-medium rounded-md text-white bg-blue-600 " ++
                        "hover:bg-blue-700 focus:outline-none focus:ring-2 focus:ring-offset-2 " ++
                        "focus:ring-blue-500"))]
                [Text "Close"] ] ] ].

(** The two [useState] cells of MisconfigTable. *)
Record State : Type := {
  selectedMisconfig : option Misconfiguration;
  showDetails : bool
}.

Definition initial : State := {| selectedMisconfig := None; showDetails := false |}.

(** What the user can do: press "View Details" in a row, or close the
    modal. *)
Inductive Action : Type :=
| ViewDetails (row : nat)
| Close.

(** The handlers: [setSelectedMisconfig(misconfig); setShowDetails(true)]
    on a row that exists, and [setShowDetails(false)]. *)
Definition step (s : State) (a : Action) : State :=
  match a with
  | ViewDetails row =>
      match nth_error mockMisconfigurations row with
      | Some misconfig => {| selectedMisconfig := Some misconfig; showDetails := true |}
      | None => s
      end
  | Close => {| selectedMisconfig := selectedMisconfig s; showDetails := false |}
  end.

Definition after (actions : list Action) : State := fold_left step actions initial.

(** The row of the table for one misconfiguration. *)
Definition row (index : nat) (misconfig : Misconfiguration) : Node :=
  El "tr" [("key", VNum (of_Z (Z.of_nat index))); ("className", VStr "hover:bg-gray-50")]
    [ El "td"
        [("className", VStr "px-6 py-4 whitespace-nowrap text-sm font-medium text-gray-900")]
        [Expr (VStr (service misconfig))];
      El "td" [("className", VStr "px-6 py-4 whitespace-nowrap text-sm text-gray-500")]
        [Expr (VStr (resource misconfig))];
      El "td" [("className", VStr "px-6 py-4 whitespace-nowrap")]
        [ El "span"
            [("className",
              VStr ("px-2 inline-flex text-xs leading-5 font-semibold rounded-full " ++
                    MisconfigTable.getRiskLevelColor (riskLevel misconfig)))]
            [Expr (VStr (riskLevel misconfig))] ];
      El "td" [("className", VStr "px-6 py-4 text-sm text-gray-500")]
        [Expr (VStr (description misconfig))];
      El "td" [("className", VStr "px-6 py-4 whitespace-nowrap text-sm text-gray-500")]
        [Expr (VStr (compliance misconfig))];
      El "td" [("className", VStr "px-6 py-4 whitespace-nowrap text-sm font-medium")]
        [ El "button" [("className", VStr "text-blue-600 hover:text-blue-900")]
            [Text "View Details"] ] ].

Definition heading (label : string) : Node :=
  El "th"
    [("className",
      VStr "px-6 py-3 text-left text-xs font-medium text-gray-500 uppercase tracking-wider")]
    [Text label].

Definition table : Node :=
  El "div" [("className", VStr "bg-white shadow-md rounded-lg overflow-hidden")]
    [ El "div" [("className", VStr "overflow-x-auto")]
        [ El "table" [("className", VStr "min-w-full divide-y divide-gray-200")]
            [ El "thead" [("className", VStr "bg-gray-50")]
                [ El "tr" []
                    (map heading ["Service"; "Resource"; "Risk Level"; "Description";
                                  "Compliance"; "Actions"]) ];
              El "tbody" [("className", VStr "bg-white divide-y divide-gray-200")]
                (mapi row 0 mockMisconfigurations) ] ] ].

(** [showDetails && selectedMisconfig && <MisconfigDetails .../>]: the
    first falsy operand, or the modal. *)
Definition modal_slot (s : State) : Node :=
  if showDetails s then
    match selectedMisconfig s with
    | Some misconfig => MisconfigDetails misconfig
    | None => Expr VNull
    end
  else Expr (VBool false).

(** The render of MisconfigTable in a given state. *)
Definition render (s : State) : Node :=
  El "Fragment" [] [table; modal_slot s].

(** The modal in a rendered MisconfigTable, when one is shown. *)
Definition modal (view : Node) : option Node :=
  match view with
  | El _ _ [_; El tag props children] => Some (El tag props children)
  | _ => None
  end.

End MisconfigModal.

(* ===================================================================== *)
(** * ComplianceOverview *)
(* ===================================================================== *)

Module ComplianceOverview.
Import JS.
Local Open Scope eff_scope.

(** ['error' in data] for a truthy [data]: objects and arrays answer, a
    primitive makes the operator throw. *)
Definition has_error (data : Value) : Eff bool :=
  match data with
  | VObj fields => ret (existsb (fun kv => fst kv =? "error") fields)
  | VArr _ => ret false
  | _ => throw (TypeError "Cannot use 'in' operator to search for 'error'")
  end.

(** [v?.k] *)
Definition optional_get (v : Value) (k : string) : Value :=
  match v with
  | VObj fields => lookup k fields
  | _ => VUndefined
  end.

(** [framework?.score || 0] for [framework = data[key]]. *)
Definition score (data : Value) (key : string) : Value :=
  or_else (optional_get (optional_get data key) "score") (VNum (of_Z 0)).

Definition frameworks : list (string * string) :=
  [("cis", "CIS Benchmark"); ("nist", "NIST Framework"); ("pci", "PCI DSS")].

Section Component.

(** The string a template literal makes of a value (ToString). *)
Variable ToString : Value -> string.

Definition failure (data : Value) : Node :=
  El "div" [("className", VStr "bg-white p-6 rounded-lg shadow")]
    [ El "h2" [("className", VStr "text-xl font-semibold mb-4")] [Text "Compliance Overview"];
      El "p" [("className", VStr "text-red-500")]
        [Expr (or_else (optional_get data "error") (VStr "Failed to load compliance data"))] ].

Definition framework_card (data : Value) (framework : string * string) : Node :=
  El "div" [("key", VStr (fst framework)); ("className", VStr "p-4 border rounded-lg")]
    [ El "h3" [("className", VStr "font-medium text-lg mb-2")] [Expr (VStr (snd framework))];
      El "div" [("className", VStr "flex items-center justify-between mb-2")]
        [ El "span" [("className", VStr "text-gray-600")] [Text "Compliance Score:"];
          El "span" [("className", VStr "font-semibold")]
            [Expr (score data (fst framework)); Text "%"] ];
      El "div" [("className", VStr "h-2 bg-gray-200 rounded-full overflow-hidden")]
        [ El "div"
            [ ("className", VStr "h-full bg-blue-500 rounded-full");
              ("style", VObj [("width", VStr (ToString (score data (fst framework)) ++ "%"))]) ]
            [] ] ].

Definition overview (data : Value) : Node :=
  El "div" [("className", VStr "bg-white p-6 rounded-lg shadow")]
    [ El "h2" [("className", VStr "text-xl font-semibold mb-4")] [Text "Compliance Overview"];
      El "div" [("className", VStr "grid grid-cols-1 md:grid-cols-3 gap-4")]
        (map (framework_card data) frameworks) ].

Definition ComplianceOverview (data : Value) : Eff Node :=
  if negb (truthy data) then ret (failure data)
  else
    err <- has_error data ;;
    if err then ret (failure data) else ret (overview data).

End Component.


End ComplianceOverview.

(* ===================================================================== *)
(** * The dashboard page ([Home]) *)
(* ===================================================================== *)

Module Home.
Import JS.
Local Open Scope eff_scope.

(** The four [useState] cells. *)
Record State : Type := {
  data : Value;
  loading : bool;
  error : option string;
  timeRange : number
}.

Definition initial : State :=
  {| data := VNull; loading := true; error := None; timeRange := of_Z 30 |}.

(** What the page's [fetch] settles to.  A rejection, and a body that is
    not JSON, carry the message of the Error the platform throws. *)
Record ClientResponse : Type := {
  status : Z;
  text : string;
  json : string + Value
}.

Inductive Settled : Type :=
| Rejected (message : string)
| Resolved (response : ClientResponse).

Definition ok (r : ClientResponse) : bool :=
  ((200 <=? status r) && (status r <=? 299))%Z.

(** [!jsonData || typeof jsonData !== 'object'] *)
Definition invalid_payload (jsonData : Value) : bool :=
  negb (truthy jsonData)
  || match typeof jsonData with TObject => false | _ => true end.

(** The [try] block of [fetchData]: the message of the Error it throws,
    or the value it passes to [setData].  Everything thrown there is an
    Error, so the [catch] always takes [err.message]. *)
Definition load (settled : Settled) : string + Value :=
  match settled with
  | Rejected message => inl message
  | Resolved response =>
      if negb (ok response) then
        inl ("Failed to fetch dashboard data: " ++ text response)
      else
        match json response with
        | inl message => inl message
        | inr jsonData =>
            if invalid_payload jsonData then inl "Invalid dashboard data received"
            else inr jsonData
        end
  end.

Section Page.
Context `{Host} `{TrendChart.DateFns}.

(** The page's own network: what a request to a URL settles to. *)
Variable network : string -> Settled.

(** The same conversion as in ComplianceOverview. *)
Variable ToString : Value -> string.

Definition request_url (s : State) : string :=
  "/api/dashboard?days=" ++ Number_toString (timeRange s).

(** The state while the request is in flight. *)
Definition begin (s : State) : State :=
  {| data := data s; loading := true; error := None; timeRange := timeRange s |}.

(** The state once [fetchData] has run to its [finally]. *)
Definition fetchData (s : State) : State :=
  match load (network (request_url s)) with
  | inr jsonData =>
      {| data := jsonData; loading := false; error := None; timeRange := timeRange s |}
  | inl message =>
      {| data := data s; loading := false; error := Some message; timeRange := timeRange s |}
  end.

(** [setTimeRange], which re-runs the effect. *)
Definition setTimeRange (days : number) (s : State) : State :=
  fetchData {| data := data s; loading := loading s; error := error s; timeRange := days |}.

Inductive Tab : Type := Overview | Resources | Analytics.

(** [a?.b] where reading [b] of a non-nullish [a] cannot throw. *)
Definition optional (v : Value) (k : string) : Value :=
  match v with
  | VObj fields => lookup k fields
  | _ => VUndefined
  end.

Definition grid (children : list Node) : Node :=
  El "div" [("className", VStr "grid gap-8")] children.

(** The content of a tab panel for truthy [data]. *)
Definition panel_content (tab : Tab) (data : Value) (timeRange : number) : Eff Node :=
  match tab with
  | Overview =>
      compliance <- ComplianceOverview.ComplianceOverview ToString (optional data "compliance") ;;
      risk <- RiskAssessment.RiskAssessment (optional data "riskMetrics") ;;
      services <- ServiceMisconfigurations.ServiceMisconfigurations (optional data "services") ;;
      ret (El "Fragment" []
             [ El "div" [("className", VStr "grid md:grid-cols-2 gap-8")] [compliance; risk];
               services ])
  | Resources =>
      graph <- ResourceRelationships.ResourceRelationships (optional data "resources") ;;
      ret (El "Fragment" [] [graph])
  | Analytics =>
      overall <- TrendChart.TrendChart
                   {| TrendChart.data := optional (optional data "trends") "overall";
                      TrendChart.title := "Overall Security Trend";
                      TrendChart.timeRange := timeRange |} ;;
      ec2 <- TrendChart.TrendChart
               {| TrendChart.data :=
                    optional (optional (optional data "trends") "services") "ec2";
                  TrendChart.title := "EC2 Security Trend";
                  TrendChart.timeRange := timeRange |} ;;
      ret (El "Fragment" []
             [ El "div" [("className", VStr "grid md:grid-cols-2 gap-8")] [overall; ec2] ])
  end.

(** [<div className="grid gap-8">{data && (...)}</div>] *)
Definition panel (tab : Tab) (data : Value) (timeRange : number) : Eff Node :=
  if truthy data then
    content <- panel_content tab data timeRange ;;
    ret (grid [content])
  else ret (grid [Expr data]).

(** What the page shows.  The title row, the report generator and the tab
    list around the selected panel are the same in every dashboard and
    are not spelled out. *)
Inductive Screen : Type :=
| Spinner
| ErrorBanner (message : string)
| Dashboard (selected_panel : Node).

Definition Home (s : State) (tab : Tab) : Eff Screen :=
  if loading s then ret Spinner
  else
    match error s with
    | Some message =>
        if message =? "" then
          shown <- panel tab (data s) (timeRange s) ;; ret (Dashboard shown)
        else ret (ErrorBanner message)
    | None =>
        shown <- panel tab (data s) (timeRange s) ;; ret (Dashboard shown)
    end.

End Page.

End Home.

(* ===================================================================== *)
(** * Further vocabulary: payloads *)
(* ===================================================================== *)

Module Payload.
Import JS.

(** Objects and arrays. *)
Definition is_container (v : Value) : bool :=
  match v with
  | VObj _ | VArr _ => true
  | _ => false
  end.

(** A response with status 200 and the given JSON body. *)
Definition ok_response (body : Value) : Home.ClientResponse :=
  {| Home.status := 200; Home.text := ""; Home.json := inr body |}.

(** A template conversion for examples: strings as they are, everything
    else as the empty string. *)
Definition sample_ToString (v : Value) : string :=
  match v with
  | VStr s => s
  | _ => ""
  end.

End Payload.
(* ===================================================================== *)
(** * Properties of the proxy route *)
(* ===================================================================== *)

#[local] Arguments String.append _ _ : simpl never.

Section RouteProperties.
Import JS Route.

Variable env : option string.
Variable parse : string -> option (list (string * string)).
Variable upstream : string -> list (string * string) -> option Response.

Local Abbreviation GET := (Route.GET env parse upstream).
Local Abbreviation target := (Route.target env).

Ltac run_route :=
  unfold Route.GET, run, try_catch, bind, URL_new, fetch, emit, ret, throw,
    Response_json, NextResponse_json, JS.get, internal_error.

(** A request whose URL parses is proxied with one upstream call, to the
    target URL, whatever the upstream then does. *)
Lemma GET_calls_target_once (req : Request) (params : list (string * string)) :
  parse (url req) = Some params ->
  fetched (snd (run (GET req))) = [target params].
Proof.
  intros Hp. run_route. rewrite Hp. simpl.
  unfold Route.target.
  set (u := (API_URL env ++ "/api/dashboard?days=" ++
             or_default (searchParams_get "days" params) "30")).
  destruct (upstream u request_headers) as [r|]; simpl; [|reflexivity].
  destruct (ok r); simpl.
  - destruct (json_body r); simpl; reflexivity.
  - destruct (json_body r) as [v|]; simpl; [|reflexivity].
    destruct v; simpl;
      repeat match goal with
             | |- context [if ?c then _ else _] => destruct c; simpl
             end; reflexivity.
Qed.

(** The handler never lets an exception escape: every request is
    answered. *)
Lemma GET_always_answers (req : Request) :
  exists res, fst (run (GET req)) = Returns res.
Proof.
  run_route.
  destruct (parse (url req)) as [params|]; simpl; [|eexists; reflexivity].
  match goal with |- context [upstream ?u ?h] => destruct (upstream u h) as [r|] end;
    simpl; [|eexists; reflexivity].
  destruct (ok r); simpl.
  - destruct (json_body r); simpl; eexists; reflexivity.
  - destruct (json_body r) as [v|]; simpl; [|eexists; reflexivity].
    destruct v; simpl;
      repeat match goal with
             | |- context [if ?c then _ else _] => destruct c; simpl
             end; eexists; reflexivity.
Qed.

Lemma GET_relays_error (req : Request) (params : list (string * string))
  (r : Response) (body : Value) :
  parse (url req) = Some params ->
  upstream (target params) request_headers = Some r ->
  ok r = false ->
  200 <= status r <= 599 ->
  status r <> 304 ->
  json_body r = Some body ->
  body <> VNull ->
  body <> VUndefined ->
  fst (run (GET req)) = Returns (relayed_error r body).
Proof.
  intros Hp Hu Hok Hrange H304 Hb Hnull Hundef.
  run_route. rewrite Hp. simpl. unfold Route.target in Hu. rewrite Hu. simpl.
  rewrite Hok. simpl. rewrite Hb. simpl.
  assert (Hst : ((status r <? 200) || (599 <? status r))%Z = false).
  { apply orb_false_iff. split; apply Z.ltb_ge; lia. }
  assert (Hnb : null_body_status (status r) = false).
  { unfold ok in Hok. unfold null_body_status.
    apply andb_false_iff in Hok.
    repeat (apply orb_false_iff; split); apply Z.eqb_neq; try lia.
    all: destruct Hok as [Hok|Hok]; [apply Z.leb_gt in Hok | apply Z.leb_gt in Hok]; lia. }
  destruct body; try congruence; simpl; rewrite Hst, Hnb; reflexivity.
Qed.

Lemma GET_transport_failure (req : Request) (params : list (string * string)) :
  parse (url req) = Some params ->
  upstream (target params) request_headers = None \/
  (exists r, upstream (target params) request_headers = Some r /\ json_body r = None) ->
  fst (run (GET req)) = Returns internal_error.
Proof.
  intros Hp Hfail. run_route. rewrite Hp. simpl. unfold Route.target in Hfail.
  destruct Hfail as [Hu | [r [Hu Hb]]]; rewrite Hu; simpl; [reflexivity|].
  destruct (ok r); simpl; rewrite Hb; reflexivity.
Qed.

Lemma target_nonempty_days (params : list (string * string)) :
  exists days, days <> "" /\ target params = API_URL env ++ "/api/dashboard?days=" ++ days.
Proof.
  unfold Route.target.
  exists (or_default (searchParams_get "days" params) "30"). split; [|reflexivity].
  unfold or_default. destruct (searchParams_get "days" params) as [v|]; [|discriminate].
  destruct (String.eqb_spec v ""); [discriminate | assumption].
Qed.

End RouteProperties.

(** C1 (as amended).  A request with [days=90] makes exactly one upstream
    call, to [{API_URL}/api/dashboard?days=90].  When the upstream answers
    with a non-2xx status that a JSON response can carry (300..599 except
    304) and a JSON body other than [null], the route answers with that
    same status and the body [{error: e}], where [e] is the upstream
    body's [error] field if it is truthy and "Failed to fetch dashboard
    data" otherwise.  When [fetch] rejects or the body does not parse, the
    route answers 500 with [{error: "Internal server error"}]. *)
Theorem GET_proxies_dashboard :
  forall env parse upstream (req : Route.Request) params,
    parse (Route.url req) = Some params ->
    (Route.searchParams_get "days" params = Some "90" ->
     Route.fetched (snd (JS.run (Route.GET env parse upstream req))) =
       [Route.API_URL env ++ "/api/dashboard?days=90"])
    /\ (forall r body,
          upstream (Route.target env params) Route.request_headers = Some r ->
          Route.ok r = false ->
          200 <= Route.status r <= 599 ->
          Route.status r <> 304 ->
          Route.json_body r = Some body ->
          body <> JS.VNull ->
          body <> JS.VUndefined ->
          fst (JS.run (Route.GET env parse upstream req)) =
            JS.Returns (Route.relayed_error r body))
    /\ (upstream (Route.target env params) Route.request_headers = None \/
        (exists r, upstream (Route.target env params) Route.request_headers = Some r /\
                   Route.json_body r = None) ->
        fst (JS.run (Route.GET env parse upstream req)) =
          JS.Returns Route.internal_error).
Proof.
  intros env parse upstream req params Hp. repeat split.
  - intros Hd. rewrite (GET_calls_target_once env parse upstream req params Hp).
    unfold Route.target. rewrite Hd. reflexivity.
  - intros r body. apply GET_relays_error; assumption.
  - apply GET_transport_failure; assumption.
Qed.

(** C1, witness: a request for 90 days against an upstream that answers
    503 with an error body. *)
Lemma GET_proxies_dashboard_witness :
  Route.fetched
    (snd (JS.run (Route.GET None Route.sample_searchParams
                    (fun _ _ => Some Route.sample_unavailable)
                    {| Route.url := "http://localhost:3000/api/dashboard?days=90" |}))) =
    ["http://localhost:5000/api/dashboard?days=90"]
  /\ fst (JS.run (Route.GET None Route.sample_searchParams
                    (fun _ _ => Some Route.sample_unavailable)
                    {| Route.url := "http://localhost:3000/api/dashboard?days=90" |})) =
     JS.Returns {| Route.res_status := 503;
                   Route.res_body := JS.VObj [("error", JS.VStr "backend down")] |}.
Proof.
  pose proof (GET_proxies_dashboard None Route.sample_searchParams
                (fun _ _ => Some Route.sample_unavailable)
                {| Route.url := "http://localhost:3000/api/dashboard?days=90" |}
                [("days", "90")] eq_refl) as [Hcall [Hrelay _]].
  split.
  - apply Hcall. reflexivity.
  - apply (Hrelay Route.sample_unavailable
             (JS.VObj [ ("error", JS.VStr "backend down");
                        ("detail", JS.VStr "database unreachable") ]));
      simpl; try reflexivity; try lia; discriminate.
Defined.

(** C1, as stated, fails: a 503 whose body is
    [{error: "backend down", detail: "database unreachable"}] comes back
    as [{error: "backend down"}]; the [detail] field is gone. *)
Lemma GET_error_body_not_verbatim : ~ Stated.relays_error_body_verbatim.
Proof.
  intros H.
  specialize (H None Route.sample_searchParams
                (fun _ _ => Some Route.sample_unavailable)
                {| Route.url := "http://localhost:3000/api/dashboard?days=90" |}
                [("days", "90")] Route.sample_unavailable
                (JS.VObj [ ("error", JS.VStr "backend down");
                           ("detail", JS.VStr "database unreachable") ])
                eq_refl eq_refl eq_refl eq_refl).
  vm_compute in H. discriminate H.
Qed.

(** C10.  A request with no [days] parameter, or an empty one, is proxied
    to [{API_URL}/api/dashboard?days=30]; and whatever the request, the one
    upstream URL carries a non-empty [days] value. *)
Theorem GET_defaults_days :
  forall env parse upstream (req : Route.Request) params,
    parse (Route.url req) = Some params ->
    (Route.searchParams_get "days" params = None \/
     Route.searchParams_get "days" params = Some "" ->
     Route.fetched (snd (JS.run (Route.GET env parse upstream req))) =
       [Route.API_URL env ++ "/api/dashboard?days=30"])
    /\ (exists days, days <> "" /\
          Route.fetched (snd (JS.run (Route.GET env parse upstream req))) =
            [Route.API_URL env ++ "/api/dashboard?days=" ++ days]).
Proof.
  intros env parse upstream req params Hp.
  rewrite (GET_calls_target_once env parse upstream req params Hp). split.
  - unfold Route.target. intros [Hd | Hd]; rewrite Hd; reflexivity.
  - destruct (target_nonempty_days env params) as [days [Hne Ht]].
    exists days. rewrite Ht. split; [assumption | reflexivity].
Qed.

(** C10, witness: the bare route URL and the URL with an empty [days]. *)
Lemma GET_defaults_days_witness :
  Route.fetched
    (snd (JS.run (Route.GET None Route.sample_searchParams (fun _ _ => None)
                    {| Route.url := "http://localhost:3000/api/dashboard" |}))) =
    ["http://localhost:5000/api/dashboard?days=30"]
  /\ Route.fetched
       (snd (JS.run (Route.GET None Route.sample_searchParams (fun _ _ => None)
                       {| Route.url := "http://localhost:3000/api/dashboard?days=" |}))) =
       ["http://localhost:5000/api/dashboard?days=30"].
Proof.
  split.
  - apply (proj1 (GET_defaults_days None Route.sample_searchParams (fun _ _ => None)
                    {| Route.url := "http://localhost:3000/api/dashboard" |} [] eq_refl)).
    left. reflexivity.
  - apply (proj1 (GET_defaults_days None Route.sample_searchParams (fun _ _ => None)
                    {| Route.url := "http://localhost:3000/api/dashboard?days=" |}
                    [("days", "")] eq_refl)).
    right. reflexivity.
Defined.

(* ===================================================================== *)
(** * Properties of the trend formatter *)
(* ===================================================================== *)

Section TrendProperties.
Import JS TrendChart.
Context {host : Host} {dates : DateFns}.

Ltac run_eff :=
  unfold run, bind, ret, throw, emit, try_catch in *.

(** [map] over an array only ever shortens under [filter]. *)
Lemma mapM_length {A B} (f : A -> Eff B) (xs : list A) (ys : list B) (tr tr' : list Event) :
  mapM f xs tr = (Returns ys, tr') -> List.length ys = List.length xs.
Proof.
  revert ys tr tr'. induction xs as [|x xs IH]; intros ys tr tr' Hrun.
  - inversion Hrun. reflexivity.
  - simpl in Hrun. unfold bind in Hrun.
    destruct (f x tr) as [[y|e] tr1]; [|discriminate].
    destruct (mapM f xs tr1) as [[ys1|e] tr2] eqn:Hrest; [|discriminate].
    inversion Hrun; subst. simpl. f_equal. eapply IH. eassumption.
Qed.

Lemma mapM_Forall {A B} (P : B -> Prop) (f : A -> Eff B) (xs : list A) :
  (forall x y tr tr', f x tr = (Returns y, tr') -> P y) ->
  forall ys tr tr', mapM f xs tr = (Returns ys, tr') -> Forall P ys.
Proof.
  intros Hf. induction xs as [|x xs IH]; intros ys tr tr' Hrun.
  - inversion Hrun. constructor.
  - simpl in Hrun. unfold bind in Hrun.
    destruct (f x tr) as [[y|e] tr1] eqn:Hx; [|discriminate].
    destruct (mapM f xs tr1) as [[ys1|e] tr2] eqn:Hrest; [|discriminate].
    inversion Hrun; subst. constructor; [eapply Hf; eassumption | eapply IH; eassumption].
Qed.

(** What the [map] callback can return: [null] or a well-formed point. *)
Lemma format_item_returns (item y : Value) (tr tr' : list Event) :
  format_item item tr = (Returns y, tr') -> y = VNull \/ well_formed_point y.
Proof.
  unfold format_item, invalid_point, format, parseISO, JS.get. run_eff.
  destruct item as [| |b|n|s|items|fields]; simpl; try discriminate;
    try (intros Hrun; inversion Hrun; left; reflexivity).
  destruct (truthy (lookup "date" fields)) eqn:Hd; simpl;
    [|intros Hrun; inversion Hrun; left; reflexivity].
  destruct (lookup "value" fields) as [| |b|n|s|items|fs] eqn:Hv; simpl;
    try (intros Hrun; inversion Hrun; left; reflexivity).
  destruct (lookup "date" fields) as [| |b|n'|s|items|fs]; simpl; try discriminate.
  destruct (parseISO_time s) as [t|] eqn:Hparse; simpl; [|discriminate].
  intros Hrun; inversion Hrun. right. exists s, t, n. split; [assumption | reflexivity].
Qed.

Lemma filter_truthy_points (ys : list Value) :
  Forall (fun y => y = VNull \/ well_formed_point y) ys ->
  Forall well_formed_point (filter truthy ys).
Proof.
  induction 1 as [|y ys Hy _ IH]; simpl; [constructor|].
  destruct Hy as [-> | Hy]; simpl; [assumption|].
  destruct Hy as [s [t [n [Hparse ->]]]]. simpl. constructor; [|assumption].
  exists s, t, n. split; [exact Hparse | reflexivity].
Qed.

(** When the formatting returns at all, it returns no more points than it
    was given, each with a date that parsed and a numeric value. *)
Lemma formatSeries_sound (items out : list Value) (tr : list Event) :
  run (formatSeries (VArr items)) = (Returns out, tr) ->
  (List.length out <= List.length items)%nat /\ Forall well_formed_point out.
Proof.
  unfold formatSeries, formattedData, data_or_default, call_map. simpl. run_eff.
  destruct (mapM format_item items []) as [[ys|e] tr1] eqn:Hmap; [|discriminate].
  intros Hrun; inversion Hrun; subst. split.
  - rewrite <- (mapM_length _ _ _ _ _ Hmap). apply filter_length_le.
  - apply filter_truthy_points.
    eapply mapM_Forall; [|eassumption].
    intros x y t0 t1. apply format_item_returns.
Qed.

End TrendProperties.

(** C9.  The trend formatting applied to the empty list and applied to
    [undefined] (which the default parameter turns into the empty list)
    both return the empty sequence, without an exception and without a
    warning. *)
Theorem formatSeries_empty_input :
  forall (dates : TrendChart.DateFns),
    JS.run (TrendChart.formatSeries (JS.VArr [])) = (JS.Returns [], [])
    /\ JS.run (TrendChart.formatSeries JS.VUndefined) = (JS.Returns [], []).
Proof.
  intros dates. split; reflexivity.
Qed.

(** C2 (the code departs from it).  A point whose [date] is a non-empty
    string that does not parse passes the guard of the [map] callback,
    and [format] then throws on the Invalid Date: the whole call throws a
    RangeError instead of dropping the point, whatever points follow. *)
Theorem formatSeries_throws_on_unparsable_date :
  forall (dates : TrendChart.DateFns)
         (date : string) (value : Z) (rest : list JS.Value),
    date <> "" ->
    TrendChart.parseISO_time date = None ->
    fst (JS.run (TrendChart.formatSeries
                   (JS.VArr (TrendChart.point date value :: rest)))) =
      JS.Throws (JS.RangeError "Invalid time value").
Proof.
  intros dates date value rest Hne Hparse.
  unfold TrendChart.formatSeries, TrendChart.formattedData, TrendChart.data_or_default,
    JS.call_map, JS.run. simpl.
  unfold JS.bind at 1. unfold JS.bind at 1.
  unfold TrendChart.format_item, TrendChart.invalid_point, TrendChart.point,
    TrendChart.format, TrendChart.parseISO, JS.get, JS.bind, JS.ret, JS.throw. simpl.
  destruct (String.eqb_spec date ""); [contradiction|]. simpl.
  rewrite Hparse. reflexivity.
Qed.

(** C2, the failing input: [{date: "not-a-date", value: 1}] ahead of a
    valid point. *)
Lemma formatSeries_throws_on_unparsable_date_witness :
  fst (JS.run (@TrendChart.formatSeries TrendChart.sample_DateFns
                 (JS.VArr [ TrendChart.point "not-a-date" 1;
                            TrendChart.point "2024-01-15" 3 ]))) =
    JS.Throws (JS.RangeError "Invalid time value").
Proof.
  apply (formatSeries_throws_on_unparsable_date TrendChart.sample_DateFns
           "not-a-date" 1 [TrendChart.point "2024-01-15" 3]).
  - discriminate.
  - reflexivity.
Defined.

(* ===================================================================== *)
(** * Components without their collection *)
(* ===================================================================== *)

(** C3 (as amended).  ServiceMisconfigurations and TrendChart, given
    [undefined] or an empty collection, return their empty-state fallback
    without throwing.  ResourceRelationships, whose [resources] prop is
    declared required, given the empty list returns its card around an
    empty graph, without throwing. *)
Theorem empty_collections_render :
  forall (host : JS.Host) (dates : TrendChart.DateFns) title timeRange,
    (forall v, v = JS.VUndefined \/ v = JS.VObj [] ->
       JS.run (ServiceMisconfigurations.ServiceMisconfigurations v) =
         (JS.Returns ServiceMisconfigurations.no_misconfigurations, []))
    /\ (forall v, v = JS.VUndefined \/ v = JS.VArr [] ->
          fst (JS.run (TrendChart.TrendChart
                         {| TrendChart.data := v; TrendChart.title := title;
                            TrendChart.timeRange := timeRange |})) =
            JS.Returns (TrendChart.no_trend_data title timeRange))
    /\ JS.run (ResourceRelationships.ResourceRelationships (JS.VArr [])) =
         (JS.Returns ResourceRelationships.empty_graph_card, []).
Proof.
  intros host dates title timeRange. repeat split.
  - intros v [-> | ->]; reflexivity.
  - intros v [-> | ->]; reflexivity.
Qed.

(** C3, witness: the three components on [undefined], [undefined] and
    [[]]. *)
Lemma empty_collections_render_witness :
  JS.run (ServiceMisconfigurations.ServiceMisconfigurations JS.VUndefined) =
    (JS.Returns ServiceMisconfigurations.no_misconfigurations, [])
  /\ fst (JS.run (@TrendChart.TrendChart JS.sample_Host TrendChart.sample_DateFns
                    {| TrendChart.data := JS.VUndefined; TrendChart.title := "Overall";
                       TrendChart.timeRange := JS.of_Z 30 |})) =
     JS.Returns (@TrendChart.no_trend_data JS.sample_Host "Overall" (JS.of_Z 30)).
Proof.
  destruct (empty_collections_render JS.sample_Host TrendChart.sample_DateFns
              "Overall" (JS.of_Z 30)) as [Hs [Ht _]].
  split.
  - apply Hs. left. reflexivity.
  - apply Ht. left. reflexivity.
Defined.

(** C3, as stated, fails: ResourceRelationships applied to [undefined]
    throws a TypeError at [resources.map]. *)
Lemma ResourceRelationships_undefined_throws : ~ Stated.renders_without_collection.
Proof.
  intros H.
  destruct (H JS.sample_Host TrendChart.sample_DateFns "Overall" (JS.of_Z 30))
    as [_ [_ Hr]].
  destruct (Hr JS.VUndefined (or_introl eq_refl)) as [node Hnode].
  vm_compute in Hnode. discriminate Hnode.
Qed.

(* ===================================================================== *)
(** * The graph projection *)
(* ===================================================================== *)

Section GraphProperties.
Import JS ResourceRelationships.

Lemma mapM_pure {A B C} (f : B -> Eff C) (h : A -> B) (g : A -> C) (xs : list A) :
  (forall x tr, f (h x) tr = (Returns (g x), tr)) ->
  forall tr, mapM f (map h xs) tr = (Returns (map g xs), tr).
Proof.
  intros Hf. induction xs as [|x xs IH]; intros tr; simpl; [reflexivity|].
  unfold bind. rewrite Hf, IH. reflexivity.
Qed.

Lemma node_of_resource (r : Resource) (tr : list Event) :
  node_of (to_value r) tr = (Returns (node_for r), tr).
Proof. reflexivity. Qed.

Lemma links_of_resource (r : Resource) (tr : list Event) :
  links_of (to_value r) tr = (Returns (links_for r), tr).
Proof.
  unfold links_of, to_value, links_for, JS.get, call_map, bind, ret. simpl.
  rewrite (mapM_pure _ VStr
             (fun target => {| link_source := VStr (id r); link_target := VStr target |}));
    reflexivity.
Qed.

Lemma graphData_of_resources (rs : list Resource) :
  run (graphData (VArr (map to_value rs))) =
    (Returns {| nodes := map node_for rs; links := flat_map links_for rs |}, []).
Proof.
  unfold graphData, run, call_map, call_flatMap, bind, ret.
  rewrite (mapM_pure node_of to_value node_for rs node_of_resource).
  rewrite (mapM_pure links_of to_value links_for rs links_of_resource).
  rewrite flat_map_concat_map. reflexivity.
Qed.

End GraphProperties.

(** C5.  For every list of N resources with E relationship entries in
    total, the projection returns N nodes, the i-th carrying the i-th
    resource's id, name and type-derived colour, and E directed edges, one
    per relationship entry in order; an edge is there whether or not its
    target is the id of a resource, and nothing is thrown. *)
Theorem graph_projection_counts :
  forall rs : list ResourceRelationships.Resource,
    exists g,
      JS.run (ResourceRelationships.graphData
                (JS.VArr (map ResourceRelationships.to_value rs))) = (JS.Returns g, [])
      /\ ResourceRelationships.nodes g = map ResourceRelationships.node_for rs
      /\ ResourceRelationships.links g = flat_map ResourceRelationships.links_for rs
      /\ List.length (ResourceRelationships.nodes g) = List.length rs
      /\ List.length (ResourceRelationships.links g) =
           ResourceRelationships.relationship_count rs
      /\ (forall r target,
            In r rs -> In target (ResourceRelationships.relationships r) ->
            In {| ResourceRelationships.link_source := JS.VStr (ResourceRelationships.id r);
                  ResourceRelationships.link_target := JS.VStr target |}
               (ResourceRelationships.links g)).
Proof.
  intros rs. eexists. split; [apply graphData_of_resources|]. simpl.
  repeat split.
  - apply length_map.
  - rewrite length_flat_map. unfold ResourceRelationships.relationship_count.
    f_equal. apply map_ext. intros r. apply length_map.
  - intros r target Hr Ht. apply in_flat_map. exists r. split; [assumption|].
    unfold ResourceRelationships.links_for.
    apply (in_map (fun t => {| ResourceRelationships.link_source :=
                                 JS.VStr (ResourceRelationships.id r);
                               ResourceRelationships.link_target := JS.VStr t |})).
    assumption.
Qed.

(** C5, witness: a bucket pointing at an instance that is not in the list. *)
Lemma graph_projection_counts_witness :
  exists g,
    JS.run (ResourceRelationships.graphData
              (JS.VArr (map ResourceRelationships.to_value
                 [ {| ResourceRelationships.id := "r1"; ResourceRelationships.type := "S3";
                      ResourceRelationships.name := "bucket";
                      ResourceRelationships.relationships := ["missing"] |} ]))) =
      (JS.Returns g, [])
    /\ ResourceRelationships.links g =
         [ {| ResourceRelationships.link_source := JS.VStr "r1";
              ResourceRelationships.link_target := JS.VStr "missing" |} ].
Proof.
  destruct (graph_projection_counts
              [ {| ResourceRelationships.id := "r1"; ResourceRelationships.type := "S3";
                   ResourceRelationships.name := "bucket";
                   ResourceRelationships.relationships := ["missing"] |} ])
    as [g [Hrun [_ [Hlinks _]]]].
  exists g. split; [exact Hrun | exact Hlinks].
Defined.

(* ===================================================================== *)
(** * The colour mappings *)
(* ===================================================================== *)

Section ColorProperties.
Import JS Palette.
Import ServiceMisconfigurations MisconfigTable.

Lemma eqb_false_of_neq (a b : string) : a <> b -> (a =? b) = false.
Proof. intros Hne. apply String.eqb_neq. exact Hne. Qed.

Lemma getSeverityColor_unrecognized (s : string) :
  ~ In s severities -> getSeverityColor (VStr s) = severity_default.
Proof.
  intros Hout. unfold getSeverityColor.
  rewrite !eqb_false_of_neq; [reflexivity| | |];
    intros ->; apply Hout; simpl; auto.
Qed.

Lemma getRiskLevelColor_unrecognized (s : string) :
  ~ In s risk_levels -> getRiskLevelColor s = risk_default.
Proof.
  intros Hout. unfold getRiskLevelColor.
  rewrite !eqb_false_of_neq; [reflexivity| | |];
    intros ->; apply Hout; simpl; auto.
Qed.

(** The colour of a severity, by cases on the three recognized strings. *)
Lemma getSeverityColor_cases (s : string) :
  (s = "HIGH" /\ getSeverityColor (VStr s) = "rose")
  \/ (s = "MEDIUM" /\ getSeverityColor (VStr s) = "amber")
  \/ (s = "LOW" /\ getSeverityColor (VStr s) = "emerald")
  \/ (~ In s severities /\ getSeverityColor (VStr s) = "slate").
Proof.
  unfold getSeverityColor.
  destruct (String.eqb_spec s "HIGH") as [->|H1]; [left; split; reflexivity|].
  destruct (String.eqb_spec s "MEDIUM") as [->|H2]; [right; left; split; reflexivity|].
  destruct (String.eqb_spec s "LOW") as [->|H3]; [right; right; left; split; reflexivity|].
  right; right; right. split; [|reflexivity].
  simpl. intros [E|[E|[E|[]]]]; congruence.
Qed.

Lemma getRiskLevelColor_cases (s : string) :
  (s = "Critical" /\ getRiskLevelColor s = "bg-red-100 text-red-800")
  \/ (s = "High" /\ getRiskLevelColor s = "bg-blue-100 text-blue-800")
  \/ (s <> "Critical" /\ s <> "High" /\ getRiskLevelColor s = "bg-gray-100 text-gray-800").
Proof.
  unfold getRiskLevelColor.
  destruct (String.eqb_spec s "Critical") as [->|H1]; [left; split; reflexivity|].
  destruct (String.eqb_spec s "High") as [->|H2]; [right; left; split; reflexivity|].
  right; right. repeat split; try assumption.
  destruct (s =? "Medium"); reflexivity.
Qed.

End ColorProperties.

(** C4.  On each of HIGH, MEDIUM, LOW, [getSeverityColor] returns one of
    the three colours it declares (rose, amber, emerald, in this order),
    and on each of Critical, High, Medium, Low [getRiskLevelColor] returns
    one of the colours it declares (red, blue, gray and gray); on every
    other string each returns its neutral default.  Both are total
    functions: no input makes them throw. *)
Theorem color_mapping_total :
  forall s : string,
    (In s Palette.severities ->
     In (ServiceMisconfigurations.getSeverityColor (JS.VStr s)) Palette.severity_palette)
    /\ (~ In s Palette.severities ->
        ServiceMisconfigurations.getSeverityColor (JS.VStr s) = Palette.severity_default)
    /\ (In s Palette.risk_levels ->
        In (MisconfigTable.getRiskLevelColor s) Palette.risk_palette)
    /\ (~ In s Palette.risk_levels ->
        MisconfigTable.getRiskLevelColor s = Palette.risk_default)
    /\ map (fun known => ServiceMisconfigurations.getSeverityColor (JS.VStr known))
           Palette.severities = ["rose"; "amber"; "emerald"]
    /\ map MisconfigTable.getRiskLevelColor Palette.risk_levels =
         [ "bg-red-100 text-red-800"; "bg-blue-100 text-blue-800";
           "bg-gray-100 text-gray-800"; "bg-gray-100 text-gray-800" ].
Proof.
  intros s. split; [|split; [|split; [|split; [|split]]]].
  - intros Hin. simpl in Hin.
    destruct Hin as [<-|[<-|[<-|[]]]]; simpl; auto.
  - apply getSeverityColor_unrecognized.
  - intros Hin. simpl in Hin.
    destruct Hin as [<-|[<-|[<-|[<-|[]]]]]; simpl; auto.
  - apply getRiskLevelColor_unrecognized.
  - reflexivity.
  - reflexivity.
Qed.

(** C4, witness: a recognized and an unrecognized value of each kind. *)
Lemma color_mapping_total_witness :
  In (ServiceMisconfigurations.getSeverityColor (JS.VStr "MEDIUM")) Palette.severity_palette
  /\ ServiceMisconfigurations.getSeverityColor (JS.VStr "CRITICAL") = "slate"
  /\ In (MisconfigTable.getRiskLevelColor "Low") Palette.risk_palette
  /\ MisconfigTable.getRiskLevelColor "Informational" = "bg-gray-100 text-gray-800".
Proof.
  split; [|split; [|split]].
  - apply (proj1 (color_mapping_total "MEDIUM")). simpl. auto.
  - apply (proj1 (proj2 (color_mapping_total "CRITICAL"))).
    simpl. intros [E|[E|[E|[]]]]; discriminate E.
  - apply (proj1 (proj2 (proj2 (color_mapping_total "Low")))). simpl. auto.
  - apply (proj1 (proj2 (proj2 (proj2 (color_mapping_total "Informational"))))).
    simpl. intros [E|[E|[E|[E|[]]]]]; discriminate E.
Defined.

(** C8 (as amended).  [getSeverityColor] maps HIGH to a red-family colour
    (rose), MEDIUM to amber, LOW to a green-family colour (emerald) and
    every other string to neutral gray (slate).  [getRiskLevelColor] maps
    Critical to a red-family colour, High to blue, and Medium, Low and
    every other string to neutral gray. *)
Theorem color_families_in_code :
  forall s : string,
    Palette.family (ServiceMisconfigurations.getSeverityColor (JS.VStr s)) =
      Some (Palette.severity_family s)
    /\ Palette.family (MisconfigTable.getRiskLevelColor s) =
         Some (Palette.risk_family_in_code s).
Proof.
  intros s. split.
  - unfold Palette.severity_family.
    destruct (getSeverityColor_cases s) as [[-> ->]|[[-> ->]|[[-> ->]|[Hout ->]]]];
      try reflexivity.
    rewrite !eqb_false_of_neq; [reflexivity| | |];
      intros ->; apply Hout; simpl; auto.
  - unfold Palette.risk_family_in_code.
    destruct (getRiskLevelColor_cases s) as [[-> ->]|[[-> ->]|[H1 [H2 ->]]]];
      try reflexivity.
    rewrite !eqb_false_of_neq; [reflexivity| |]; assumption.
Qed.

(** C8, as stated, fails at the risk level High: its badge is blue, which
    is not an amber/orange-family colour. *)
Lemma High_risk_is_not_amber : ~ Stated.follows_color_families.
Proof.
  intros H. destruct (H "High") as [_ Hrisk].
  specialize (Hrisk ltac:(discriminate)).
  vm_compute in Hrisk. discriminate Hrisk.
Qed.

(* ===================================================================== *)
(** * The risk overview *)
(* ===================================================================== *)

(** C7 (as amended).  Given [riskMetrics = {high: 3, medium: 8, low: 24}],
    RiskAssessment renders exactly three chart segments, with the values
    3, 8 and 24.  The only text its markup writes is the title "Risk
    Assessment", and the tree it returns carries neither the sum 35 nor
    the word "issues", in its text or in a prop.  The "Risk Overview" card
    (SecurityOverview) takes no data: it always shows the four segments
    3, 8, 15 and 24 of its own list, under the total "50 issues". *)
Theorem risk_overview_segments :
  forall host : JS.Host,
    (exists view,
       JS.run (RiskAssessment.RiskAssessment Stated.example_metrics) = (JS.Returns view, [])
       /\ View.segment_values view =
            [JS.VNum (JS.of_Z 3); JS.VNum (JS.of_Z 8); JS.VNum (JS.of_Z 24)]
       /\ View.text view = Some "Risk Assessment"
       /\ View.carries "35" view = false
       /\ View.carries "issues" view = false)
    /\ View.segment_values SecurityOverview.SecurityOverview =
         [JS.VNum (JS.of_Z 3); JS.VNum (JS.of_Z 8); JS.VNum (JS.of_Z 15); JS.VNum (JS.of_Z 24)]
    /\ SecurityOverview.total = JS.of_Z 50
    /\ View.text SecurityOverview.SecurityOverview =
         Some "Risk Overview50 issuesCritical3 issuesHigh8 issuesMedium15 issuesLow24 issues".
Proof.
  intros host. split; [|split; [|split]].
  - eexists. split; [reflexivity|]. split; [reflexivity|].
    split; [reflexivity|]. split; vm_compute; reflexivity.
  - reflexivity.
  - vm_compute. reflexivity.
  - vm_compute. reflexivity.
Qed.

(** C7, as stated, fails: with those metrics neither component shows
    "35 issues" over three segments.  The tree RiskAssessment returns
    carries no such text, and SecurityOverview has four segments. *)
Lemma no_view_reads_35_issues : ~ Stated.risk_overview_reads_35.
Proof.
  intros [host [[view [Hrun [Hread _]]] | [_ Hseg]]].
  - vm_compute in Hrun. injection Hrun as <-.
    vm_compute in Hread. discriminate Hread.
  - vm_compute in Hseg. discriminate Hseg.
Qed.

(* ===================================================================== *)
(** * The pie label *)
(* ===================================================================== *)

Section LabelProperties.
Import JS SecurityOverview.
Context {host : Host}.

(** The label is [null] exactly when the comparison in the guard holds. *)
Lemma label_null_iff_guard (p : LabelProps) :
  renderCustomizedLabel p = None <->
  lt (Number (percentageValue p)) (of_Z 5) = true.
Proof.
  unfold renderCustomizedLabel.
  destruct (lt (Number (percentageValue p)) (of_Z 5)); split; intros E;
    try reflexivity; discriminate E.
Qed.

Lemma nearest_integer_nonneg (m : positive) (e : Z) : 0 <= nearest_integer m e.
Proof.
  unfold nearest_integer. destruct (0 <=? e)%Z eqn:He.
  - apply Z.leb_le in He. apply Z.mul_nonneg_nonneg; [lia|].
    apply Z.pow_nonneg. lia.
  - apply Z.leb_gt in He. apply Z.div_pos.
    + assert (0 <= 2 ^ (- e)) by (apply Z.pow_nonneg; lia). lia.
    + apply Z.pow_pos_nonneg; lia.
Qed.

(** A percentage that rounds to at most 100 is far below the 10^21 from
    which [toFixed] switches to exponent notation. *)
Lemma small_is_below_1e21 (m : positive) (e : Z) :
  nearest_integer m e <= 100 -> at_least_1e21 m e = false.
Proof.
  unfold nearest_integer, at_least_1e21.
  assert (Hten : 10 ^ 21 = 1000000000000000000000) by reflexivity.
  rewrite Hten. destruct (0 <=? e)%Z eqn:He; intros Hn.
  - apply Z.leb_gt. lia.
  - apply Z.leb_gt in He. apply Z.leb_gt.
    assert (Hk : 0 < 2 ^ (- e)) by (apply Z.pow_pos_nonneg; lia).
    assert (Hs : 2 ^ (- e + 1) = 2 * 2 ^ (- e)).
    { rewrite Z.pow_add_r by lia. rewrite Z.pow_1_r. lia. }
    rewrite Hs in Hn.
    pose proof (Z.mul_succ_div_gt (2 * Z.pos m + 2 ^ (- e)) (2 * 2 ^ (- e)) ltac:(lia)) as Hd.
    nia.
Qed.

Lemma guard_agrees_upto_100_holds : guard_agrees_upto_100 = true.
Proof. vm_compute. reflexivity. Qed.

Lemma guard_on_digits (k : Z) :
  0 <= k <= 100 ->
  lt (Number (digits (Z.to_N k))) (of_Z 5) = (k <? 5)%Z
  /\ lt (Number ("-" ++ digits (Z.to_N k))) (of_Z 5) = true.
Proof.
  intros Hk.
  pose proof guard_agrees_upto_100_holds as Hall.
  unfold guard_agrees_upto_100 in Hall. rewrite forallb_forall in Hall.
  specialize (Hall (Z.to_nat k)).
  assert (Hin : In (Z.to_nat k) (seq 0 101)) by (apply in_seq; lia).
  specialize (Hall Hin). apply andb_true_iff in Hall. destruct Hall as [Hpos Hneg].
  apply Bool.eqb_prop in Hpos.
  replace (N.of_nat (Z.to_nat k)) with (Z.to_N k) in Hpos, Hneg by lia.
  replace (Z.of_nat (Z.to_nat k)) with k in Hpos by lia.
  split; assumption.
Qed.

End LabelProperties.

(** C6.  For a slice whose share, as a percentage rounded to the nearest
    integer, lies within -100..100, [renderCustomizedLabel] returns the
    null render exactly when that rounded percentage is below 5; at
    exactly 5 the label is rendered. *)
Theorem label_suppressed_below_5 :
  forall (host : JS.Host) (p : SecurityOverview.LabelProps) (n : Z),
    View.rounded_percentage (SecurityOverview.percent p) = Some n ->
    -100 <= n <= 100 ->
    (SecurityOverview.renderCustomizedLabel p = None <-> n < 5).
Proof.
  intros host p n Hround Hrange.
  rewrite label_null_iff_guard.
  unfold View.rounded_percentage in Hround.
  unfold SecurityOverview.percentageValue, JS.toFixed0.
  destruct (JS.mul (SecurityOverview.percent p) (JS.of_Z 100)) as [z|i| |s m e];
    try discriminate Hround.
  - injection Hround as <-. split; [lia | intros _; vm_compute; reflexivity].
  - pose proof (nearest_integer_nonneg m e) as Hnn.
    assert (Hle : JS.nearest_integer m e <= 100) by (destruct s; injection Hround; lia).
    rewrite (small_is_below_1e21 m e Hle).
    destruct (guard_on_digits (JS.nearest_integer m e) (conj Hnn Hle)) as [Hpos Hneg].
    destruct s; injection Hround as <-.
    + rewrite Hneg. split; [lia | reflexivity].
    + change ("" ++ JS.digits (Z.to_N (JS.nearest_integer m e)))
        with (JS.digits (Z.to_N (JS.nearest_integer m e))).
      rewrite Hpos. rewrite Z.ltb_lt. reflexivity.
Qed.

(** C6, witness: a share of 4/100 rounds to 4 and is suppressed; a share
    of 45/1000, whose percentage is the double 4.5, rounds to 5 and is
    rendered. *)
Lemma label_suppressed_below_5_witness :
  (@SecurityOverview.renderCustomizedLabel JS.sample_Host
     (SecurityOverview.sample_slice (JS.div (JS.of_Z 4) (JS.of_Z 100))) = None <-> 4 < 5)
  /\ (@SecurityOverview.renderCustomizedLabel JS.sample_Host
        (SecurityOverview.sample_slice (JS.div (JS.of_Z 45) (JS.of_Z 1000))) = None <-> 5 < 5).
Proof.
  split.
  - apply (label_suppressed_below_5 JS.sample_Host
             (SecurityOverview.sample_slice (JS.div (JS.of_Z 4) (JS.of_Z 100))) 4).
    + vm_compute. reflexivity.
    + lia.
  - apply (label_suppressed_below_5 JS.sample_Host
             (SecurityOverview.sample_slice (JS.div (JS.of_Z 45) (JS.of_Z 1000))) 5).
    + vm_compute. reflexivity.
    + lia.
Defined.

(* ===================================================================== *)
(** * Further properties of the proxy route *)
(* ===================================================================== *)

(** X1.  The handler never throws, whatever the request, the environment
    and the upstream do, and it calls the upstream at most once. *)
Theorem GET_never_throws_one_call_at_most :
  forall env parse upstream (req : Route.Request),
    (exists res, fst (JS.run (Route.GET env parse upstream req)) = JS.Returns res)
    /\ (List.length (Route.fetched (snd (JS.run (Route.GET env parse upstream req)))) <= 1)%nat.
Proof.
  intros env parse upstream req. split.
  - apply GET_always_answers.
  - destruct (parse (Route.url req)) as [params|] eqn:Hp.
    + rewrite (GET_calls_target_once env parse upstream req params Hp). simpl. lia.
    + unfold Route.GET, JS.run, JS.try_catch, JS.bind, Route.URL_new. rewrite Hp.
      simpl. lia.
Qed.

(** X2.  A 2xx upstream answer with a JSON body comes back with that body
    unchanged and with status 200, whichever 2xx status the upstream
    used; nothing is logged. *)
Theorem GET_success_passes_body_with_200 :
  forall env parse upstream (req : Route.Request) params r data,
    parse (Route.url req) = Some params ->
    upstream (Route.target env params) Route.request_headers = Some r ->
    Route.ok r = true ->
    Route.json_body r = Some data ->
    JS.run (Route.GET env parse upstream req) =
      (JS.Returns {| Route.res_status := 200; Route.res_body := data |},
       [JS.Fetch (Route.target env params) Route.request_headers]).
Proof.
  intros env parse upstream req params r data Hp Hu Hok Hb.
  unfold Route.GET, JS.run, JS.try_catch, JS.bind, Route.URL_new, Route.fetch, JS.emit,
    JS.ret, Route.Response_json.
  rewrite Hp. simpl. unfold Route.target in Hu. rewrite Hu. simpl.
  rewrite Hok. simpl. rewrite Hb. reflexivity.
Qed.

(** X2, witness: a 201 with a body comes back as a 200 with that body. *)
Lemma GET_success_passes_body_with_200_witness :
  JS.run (Route.GET None Route.sample_searchParams
            (fun _ _ => Some {| Route.status := 201;
                                Route.json_body := Some (JS.VObj [("resources", JS.VArr [])]) |})
            {| Route.url := "http://localhost:3000/api/dashboard?days=7" |}) =
    (JS.Returns {| Route.res_status := 200;
                   Route.res_body := JS.VObj [("resources", JS.VArr [])] |},
     [JS.Fetch "http://localhost:5000/api/dashboard?days=7" Route.request_headers]).
Proof.
  apply (GET_success_passes_body_with_200 None Route.sample_searchParams
           (fun _ _ => Some {| Route.status := 201;
                               Route.json_body := Some (JS.VObj [("resources", JS.VArr [])]) |})
           {| Route.url := "http://localhost:3000/api/dashboard?days=7" |}
           [("days", "7")]
           {| Route.status := 201;
              Route.json_body := Some (JS.VObj [("resources", JS.VArr [])]) |}
           (JS.VObj [("resources", JS.VArr [])]));
    reflexivity.
Defined.

(** X3.  When the request URL does not parse, the route answers 500
    without calling the upstream, and logs the error once. *)
Theorem GET_invalid_url_makes_no_call :
  forall env parse upstream (req : Route.Request),
    parse (Route.url req) = None ->
    JS.run (Route.GET env parse upstream req) =
      (JS.Returns Route.internal_error,
       [JS.ConsoleError "Dashboard API Error:" (JS.TypeError "Invalid URL")]).
Proof.
  intros env parse upstream req Hp.
  unfold Route.GET, JS.run, JS.try_catch, JS.bind, Route.URL_new. rewrite Hp. reflexivity.
Qed.

(** X3, witness: a parser that rejects the URL. *)
Lemma GET_invalid_url_makes_no_call_witness :
  JS.run (Route.GET None (fun _ => None) (fun _ _ => None) {| Route.url := "::" |}) =
    (JS.Returns Route.internal_error,
     [JS.ConsoleError "Dashboard API Error:" (JS.TypeError "Invalid URL")]).
Proof.
  apply (GET_invalid_url_makes_no_call None (fun _ => None) (fun _ _ => None)
           {| Route.url := "::" |}).
  reflexivity.
Defined.

(** X4.  A non-2xx upstream answer whose JSON body is [null] is not
    relayed: reading [errorData.error] throws, and the route answers
    500 whatever the upstream status was. *)
Theorem GET_null_error_body_gives_500 :
  forall env parse upstream (req : Route.Request) params r,
    parse (Route.url req) = Some params ->
    upstream (Route.target env params) Route.request_headers = Some r ->
    Route.ok r = false ->
    Route.json_body r = Some JS.VNull ->
    fst (JS.run (Route.GET env parse upstream req)) = JS.Returns Route.internal_error.
Proof.
  intros env parse upstream req params r Hp Hu Hok Hb.
  unfold Route.GET, JS.run, JS.try_catch, JS.bind, Route.URL_new, Route.fetch, JS.emit,
    JS.ret, Route.Response_json.
  rewrite Hp. simpl. unfold Route.target in Hu. rewrite Hu. simpl.
  rewrite Hok. simpl. rewrite Hb. reflexivity.
Qed.

(** X4, witness: a 404 with the body [null]. *)
Lemma GET_null_error_body_gives_500_witness :
  fst (JS.run (Route.GET None Route.sample_searchParams
                 (fun _ _ => Some {| Route.status := 404; Route.json_body := Some JS.VNull |})
                 {| Route.url := "http://localhost:3000/api/dashboard" |})) =
    JS.Returns Route.internal_error.
Proof.
  apply (GET_null_error_body_gives_500 None Route.sample_searchParams
           (fun _ _ => Some {| Route.status := 404; Route.json_body := Some JS.VNull |})
           {| Route.url := "http://localhost:3000/api/dashboard" |} []
           {| Route.status := 404; Route.json_body := Some JS.VNull |});
    reflexivity.
Defined.

(* ===================================================================== *)
(** * Further properties of the trend formatter *)
(* ===================================================================== *)

Section TrendPointProperties.
Import JS TrendChart TrendPoints.
Context {dates : DateFns}.

Lemma dropped_not_kept (item : Value) : dropped item = true -> kept item = None.
Proof.
  destruct item as [| |b|n|s|items|fields]; simpl; try reflexivity.
  destruct (lookup "date" fields) as [| |b|n|s|items|fs]; simpl; try reflexivity.
  destruct (lookup "value" fields) as [| |b|n|s'|items|fs]; simpl; try reflexivity.
  destruct (s =? ""); simpl; [reflexivity | discriminate].
Qed.

(** The callback on a rejected point: [null], and one warning. *)
Lemma format_item_dropped (item : Value) (tr : list Event) :
  dropped item = true ->
  format_item item tr = (Returns VNull, (tr ++ [warning item])%list).
Proof.
  unfold format_item, invalid_point, JS.get, bind, ret, emit, warning.
  destruct item as [| |b|n|s|items|fields]; simpl; try discriminate; try reflexivity.
  destruct (truthy (lookup "date" fields)); simpl; [|reflexivity].
  destruct (lookup "value" fields); simpl; try reflexivity. discriminate.
Qed.

(** The callback on a point that formats: the formatted point, silently. *)
Lemma format_item_kept (item p : Value) (tr : list Event) :
  kept item = Some p -> format_item item tr = (Returns p, tr).
Proof.
  unfold format_item, invalid_point, format, parseISO, JS.get, bind, ret, kept.
  destruct item as [| |b|n|s|items|fields]; simpl; try discriminate.
  destruct (lookup "date" fields) as [| |b|n|s|items|fs]; simpl; try discriminate.
  destruct (lookup "value" fields) as [| |b|n|s'|items|fs]; simpl; try discriminate.
  destruct (s =? ""); simpl; [discriminate|].
  destruct (parseISO_time s) as [t|]; simpl; [|discriminate].
  intros E; inversion E. reflexivity.
Qed.

(** The callback on any other point throws, logging nothing. *)
Lemma format_item_throws (item : Value) (tr : list Event) :
  formattable item = false -> exists e, format_item item tr = (Throws e, tr).
Proof.
  unfold formattable. intros Hf. apply orb_false_iff in Hf. destruct Hf as [Hd Hk].
  destruct item as [| |b|n|s|items|fields]; try discriminate Hd;
    try (eexists; reflexivity).
  simpl in Hd. apply orb_false_iff in Hd. destruct Hd as [Ht Hn].
  apply negb_false_iff in Ht. apply negb_false_iff in Hn.
  unfold format_item, invalid_point, format, parseISO, JS.get, bind, ret, throw.
  rewrite Ht. simpl. unfold kept in Hk.
  destruct (lookup "value" fields) as [| |b'|n'|s'|items'|fs']; try discriminate Hn.
  simpl.
  destruct (lookup "date" fields) as [| |b|n|s|items|fs]; try (eexists; reflexivity).
  simpl in Ht. apply negb_true_iff in Ht. simpl in Hk. rewrite Ht in Hk.
  destruct (parseISO_time s); [discriminate Hk | eexists; reflexivity].
Qed.

Lemma mapM_format_formattable (items : list Value) (tr : list Event) :
  forallb formattable items = true ->
  exists mapped,
    mapM format_item items tr =
      (Returns mapped, (tr ++ map warning (filter dropped items))%list)
    /\ filter truthy mapped = kept_points items.
Proof.
  revert tr. induction items as [|item items IH]; intros tr Hall.
  - exists []. simpl. rewrite app_nil_r. split; reflexivity.
  - simpl in Hall. apply andb_true_iff in Hall. destruct Hall as [Hitem Hrest].
    simpl. unfold bind at 1.
    destruct (dropped item) eqn:Hd.
    + rewrite (format_item_dropped item tr Hd).
      destruct (IH (tr ++ [warning item])%list Hrest) as [mapped [Hrun Hkept]].
      unfold bind at 1. rewrite Hrun. exists (VNull :: mapped). split.
      * unfold ret. simpl. rewrite <- app_assoc. reflexivity.
      * cbn [filter truthy]. unfold kept_points. cbn [flat_map].
        rewrite (dropped_not_kept item Hd). exact Hkept.
    + unfold formattable in Hitem. rewrite Hd in Hitem. simpl in Hitem.
      destruct (kept item) as [p|] eqn:Hk; [|discriminate].
      rewrite (format_item_kept item p tr Hk).
      destruct (IH tr Hrest) as [mapped [Hrun Hkept]].
      unfold bind at 1. rewrite Hrun. exists (p :: mapped). split; [reflexivity|].
      assert (Hp : truthy p = true).
      { unfold kept in Hk. destruct item; try discriminate.
        destruct (lookup "date" fields); try discriminate.
        destruct (lookup "value" fields); try discriminate.
        destruct (s =? ""); try discriminate.
        destruct (parseISO_time s); try discriminate.
        inversion Hk. reflexivity. }
      cbn [filter app]. rewrite Hp. f_equal. exact Hkept.
Qed.

Lemma mapM_format_throws (items : list Value) (tr : list Event) :
  forallb formattable items = false ->
  exists e tr', mapM format_item items tr = (Throws e, tr').
Proof.
  revert tr. induction items as [|item items IH]; intros tr Hall; [discriminate|].
  simpl in Hall. simpl. unfold bind at 1.
  destruct (formattable item) eqn:Hitem.
  - simpl in Hall. unfold formattable in Hitem.
    destruct (dropped item) eqn:Hd.
    + rewrite (format_item_dropped item tr Hd).
      destruct (IH (tr ++ [warning item])%list Hall) as [e [tr' Hrun]].
      unfold bind at 1. rewrite Hrun. exists e, tr'. reflexivity.
    + simpl in Hitem. destruct (kept item) as [p|] eqn:Hk; [|discriminate].
      rewrite (format_item_kept item p tr Hk).
      destruct (IH tr Hall) as [e [tr' Hrun]].
      unfold bind at 1. rewrite Hrun. exists e, tr'. reflexivity.
  - destruct (format_item_throws item tr Hitem) as [e Hrun]. rewrite Hrun.
    exists e, tr. reflexivity.
Qed.

Lemma formatSeries_array (items : list Value) :
  run (formatSeries (VArr items)) =
    match mapM format_item items [] with
    | (Returns mapped, tr) => (Returns (filter truthy mapped), tr)
    | (Throws e, tr) => (Throws e, tr)
    end.
Proof.
  unfold formatSeries, formattedData, data_or_default, call_map, run, bind, ret. simpl.
  destruct (mapM format_item items []) as [[mapped|e] tr]; reflexivity.
Qed.

End TrendPointProperties.

(** X5.  Whenever the trend formatting of an array returns, it returns at
    most as many points as it was given, and every point it returns
    carries a label printed from a date that parsed, and a number. *)
Theorem formatSeries_returns_only_valid_points :
  forall (dates : TrendChart.DateFns) (items out : list JS.Value) (tr : list JS.Event),
    JS.run (TrendChart.formatSeries (JS.VArr items)) = (JS.Returns out, tr) ->
    (List.length out <= List.length items)%nat
    /\ Forall TrendChart.well_formed_point out.
Proof.
  intros dates items out tr Hrun. exact (formatSeries_sound items out tr Hrun).
Qed.

(** X5, witness: a valid point between two that the guard rejects. *)
Lemma formatSeries_returns_only_valid_points_witness :
  (List.length [TrendChart.point "2024-01-15" 3] <= 3)%nat
  /\ Forall (@TrendChart.well_formed_point TrendChart.sample_DateFns)
       [JS.VObj [("date", JS.VStr "Jan 15, 2024"); ("value", JS.VNum (JS.of_Z 3))]].
Proof.
  destruct (formatSeries_returns_only_valid_points TrendChart.sample_DateFns
              [ JS.VObj [("value", JS.VNum (JS.of_Z 1))];
                TrendChart.point "2024-01-15" 3;
                JS.VObj [("date", JS.VStr "2024-01-16"); ("value", JS.VStr "7")] ]
              [JS.VObj [("date", JS.VStr "Jan 15, 2024"); ("value", JS.VNum (JS.of_Z 3))]]
              [ TrendPoints.warning (JS.VObj [("value", JS.VNum (JS.of_Z 1))]);
                TrendPoints.warning
                  (JS.VObj [("date", JS.VStr "2024-01-16"); ("value", JS.VStr "7")]) ]
              eq_refl) as [Hlen Hall].
  split; [simpl; lia | exact Hall].
Defined.

(** X6.  On an array in which every point is either rejected by the guard
    or formats, the formatting returns exactly the formatted points, in
    order, and logs exactly one warning per rejected point, in order. *)
Theorem formatSeries_drops_and_warns :
  forall (dates : TrendChart.DateFns) (items : list JS.Value),
    forallb TrendPoints.formattable items = true ->
    JS.run (TrendChart.formatSeries (JS.VArr items)) =
      (JS.Returns (TrendPoints.kept_points items),
       map TrendPoints.warning (filter TrendPoints.dropped items)).
Proof.
  intros dates items Hall. rewrite formatSeries_array.
  destruct (mapM_format_formattable items [] Hall) as [mapped [Hrun Hkept]].
  rewrite Hrun. simpl. rewrite Hkept. reflexivity.
Qed.

(** X6, witness: of three points, the one without a date and the one with
    a string value are dropped with a warning each. *)
Lemma formatSeries_drops_and_warns_witness :
  JS.run (@TrendChart.formatSeries TrendChart.sample_DateFns
            (JS.VArr [ JS.VObj [("value", JS.VNum (JS.of_Z 1))];
                       TrendChart.point "2024-01-15" 3;
                       JS.VObj [("date", JS.VStr "2024-01-16"); ("value", JS.VStr "7")] ])) =
    (JS.Returns [JS.VObj [("date", JS.VStr "Jan 15, 2024"); ("value", JS.VNum (JS.of_Z 3))]],
     [ TrendPoints.warning (JS.VObj [("value", JS.VNum (JS.of_Z 1))]);
       TrendPoints.warning
         (JS.VObj [("date", JS.VStr "2024-01-16"); ("value", JS.VStr "7")]) ]).
Proof.
  apply (formatSeries_drops_and_warns TrendChart.sample_DateFns
           [ JS.VObj [("value", JS.VNum (JS.of_Z 1))];
             TrendChart.point "2024-01-15" 3;
             JS.VObj [("date", JS.VStr "2024-01-16"); ("value", JS.VStr "7")] ]).
  reflexivity.
Defined.

(** X7.  The formatting of an array throws exactly when some point is
    neither rejected by the guard nor formattable: an [undefined] or
    [null] element, or a point with a numeric value whose truthy [date] is
    not a string that parses. *)
Theorem formatSeries_throws_iff :
  forall (dates : TrendChart.DateFns) (items : list JS.Value),
    (exists e, fst (JS.run (TrendChart.formatSeries (JS.VArr items))) = JS.Throws e)
    <-> forallb TrendPoints.formattable items = false.
Proof.
  intros dates items. rewrite formatSeries_array. split.
  - intros [e He].
    destruct (forallb TrendPoints.formattable items) eqn:Hall; [|reflexivity].
    destruct (mapM_format_formattable items [] Hall) as [mapped [Hrun _]].
    rewrite Hrun in He. discriminate He.
  - intros Hall. destruct (mapM_format_throws items [] Hall) as [e [tr' Hrun]].
    rewrite Hrun. exists e. reflexivity.
Qed.

(** X7, witness: a [null] element after a valid point. *)
Lemma formatSeries_throws_iff_witness :
  exists e,
    fst (JS.run (@TrendChart.formatSeries TrendChart.sample_DateFns
                   (JS.VArr [TrendChart.point "2024-01-15" 3; JS.VNull]))) = JS.Throws e.
Proof.
  apply (proj2 (formatSeries_throws_iff TrendChart.sample_DateFns
                  [TrendChart.point "2024-01-15" 3; JS.VNull])).
  reflexivity.
Defined.

(** X8.  Given data that is neither [undefined] nor an array, the
    formatting returns the empty sequence and logs one "Invalid or missing
    data" warning, without throwing. *)
Theorem formatSeries_rejects_non_arrays :
  forall (dates : TrendChart.DateFns) (data : JS.Value),
    data <> JS.VUndefined ->
    JS.Array_isArray data = false ->
    JS.run (TrendChart.formatSeries data) =
      (JS.Returns [],
       [JS.ConsoleWarn "TrendChart: Invalid or missing data" (JS.VObj [("data", data)])]).
Proof.
  intros dates data Hdef Harr.
  unfold TrendChart.formatSeries, TrendChart.formattedData.
  assert (Hsame : TrendChart.data_or_default data = data)
    by (destruct data; try reflexivity; congruence).
  rewrite Hsame, Harr. simpl negb. rewrite orb_true_r. reflexivity.
Qed.

(** X8, witness: an object where the array was expected. *)
Lemma formatSeries_rejects_non_arrays_witness :
  JS.run (@TrendChart.formatSeries TrendChart.sample_DateFns
            (JS.VObj [("overall", JS.VArr [])])) =
    (JS.Returns [],
     [JS.ConsoleWarn "TrendChart: Invalid or missing data"
        (JS.VObj [("data", JS.VObj [("overall", JS.VArr [])])])]).
Proof.
  apply (formatSeries_rejects_non_arrays TrendChart.sample_DateFns
           (JS.VObj [("overall", JS.VArr [])])).
  - discriminate.
  - reflexivity.
Defined.


(* ===================================================================== *)
(** * Integers as binary64 numbers *)
(* ===================================================================== *)

Section NumberProperties.
Import JS.

(** The number of binary digits of [p] brackets [p] between two powers of
    two. *)
Lemma digits2_pos_bounds (p : positive) :
  2 ^ (Z.pos (digits2_pos p) - 1) <= Z.pos p < 2 ^ Z.pos (digits2_pos p).
Proof.
  induction p as [p IH|p IH|]; simpl digits2_pos.
  - rewrite Pos2Z.inj_succ.
    replace (Z.succ (Z.pos (digits2_pos p)) - 1) with (Z.succ (Z.pos (digits2_pos p) - 1)) by lia.
    rewrite !Z.pow_succ_r by lia. lia.
  - rewrite Pos2Z.inj_succ.
    replace (Z.succ (Z.pos (digits2_pos p)) - 1) with (Z.succ (Z.pos (digits2_pos p) - 1)) by lia.
    rewrite !Z.pow_succ_r by lia. lia.
  - simpl. lia.
Qed.

Lemma digits2_pos_unique (m : positive) (k : Z) :
  2 ^ (k - 1) <= Z.pos m < 2 ^ k -> 0 < k -> Z.pos (digits2_pos m) = k.
Proof.
  intros [Hlo Hhi] Hk. pose proof (digits2_pos_bounds m) as [Hlo' Hhi'].
  destruct (Z.lt_trichotomy (Z.pos (digits2_pos m)) k) as [Hlt|[Heq|Hgt]]; [|exact Heq|].
  - assert (2 ^ Z.pos (digits2_pos m) <= 2 ^ (k - 1)) by (apply Z.pow_le_mono_r; lia). lia.
  - assert (2 ^ k <= 2 ^ (Z.pos (digits2_pos m) - 1)) by (apply Z.pow_le_mono_r; lia). lia.
Qed.

Lemma shr_1_m (mrs : shr_record) :
  0 <= shr_m mrs -> shr_m (shr_1 mrs) = shr_m mrs / 2.
Proof.
  destruct mrs as [m r s]. simpl. intros Hm.
  destruct m as [|p|p]; [reflexivity| |lia].
  destruct p as [p|p|]; simpl.
  - rewrite Pos2Z.inj_xI. apply Z.div_unique with 1; lia.
  - rewrite Pos2Z.inj_xO. apply Z.div_unique with 0; lia.
  - reflexivity.
Qed.

Lemma iter_shr_1_m (n : positive) (mrs : shr_record) :
  0 <= shr_m mrs -> shr_m (iter_pos shr_1 n mrs) = shr_m mrs / 2 ^ Z.pos n.
Proof.
  revert mrs. induction n as [n IH|n IH|]; intros mrs Hm; simpl iter_pos.
  - assert (Hpow : 0 < 2 ^ Z.pos n) by (apply Z.pow_pos_nonneg; lia).
    assert (H1 : 0 <= shr_m (shr_1 mrs)) by (rewrite shr_1_m by lia; apply Z.div_pos; lia).
    assert (H2 : 0 <= shr_m (iter_pos shr_1 n (shr_1 mrs))).
    { rewrite IH by lia. apply Z.div_pos; lia. }
    rewrite IH by lia. rewrite IH by lia. rewrite shr_1_m by lia.
    rewrite !Z.div_div by lia.
    f_equal. rewrite Pos2Z.inj_xI.
    replace (2 * Z.pos n + 1) with (1 + Z.pos n + Z.pos n) by lia.
    rewrite !Z.pow_add_r by lia. rewrite Z.pow_1_r. lia.
  - assert (Hpow : 0 < 2 ^ Z.pos n) by (apply Z.pow_pos_nonneg; lia).
    assert (H2 : 0 <= shr_m (iter_pos shr_1 n mrs)).
    { rewrite IH by lia. apply Z.div_pos; lia. }
    rewrite IH by lia. rewrite IH by lia.
    rewrite !Z.div_div by lia.
    f_equal. rewrite <- Z.pow_add_r by lia. f_equal. lia.
  - rewrite shr_1_m by lia. rewrite Z.pow_1_r. reflexivity.
Qed.

Lemma pos_iter_xO (p : positive) (k : positive) :
  Z.pos (Pos.iter xO p k) = Z.pos p * 2 ^ Z.pos k.
Proof.
  revert p. induction k as [|k IH] using Pos.peano_ind; intros p.
  - simpl. lia.
  - rewrite Pos.iter_succ. rewrite Pos2Z.inj_xO, IH, Pos2Z.inj_succ, Z.pow_succ_r by lia. lia.
Qed.

Lemma digits2_pos_iter_xO (p k : positive) :
  Z.pos (digits2_pos (Pos.iter xO p k)) = Z.pos (digits2_pos p) + Z.pos k.
Proof.
  apply digits2_pos_unique; [|lia].
  rewrite pos_iter_xO. pose proof (digits2_pos_bounds p) as [Hlo Hhi].
  assert (Hk : 0 < 2 ^ Z.pos k) by (apply Z.pow_pos_nonneg; lia).
  replace (Z.pos (digits2_pos p) + Z.pos k - 1) with (Z.pos (digits2_pos p) - 1 + Z.pos k) by lia.
  rewrite !Z.pow_add_r by lia. nia.
Qed.

Lemma shr_record_of_loc_m (m : Z) (l : location) : shr_m (shr_record_of_loc m l) = m.
Proof. destruct l as [|[| |]]; reflexivity. Qed.

(** What [shr_fexp] does to a mantissa of at least 53 digits in the
    normal range: it drops the digits beyond the 53rd. *)
Lemma shr_fexp_normal (m : positive) (e : Z) (l : location) :
  53 <= Z.pos (digits2_pos m) ->
  -1074 <= Z.pos (digits2_pos m) + e - 53 ->
  shr_m (fst (shr_fexp prec emax (Z.pos m) e l)) =
    Z.pos m / 2 ^ (Z.pos (digits2_pos m) - 53)
  /\ snd (shr_fexp prec emax (Z.pos m) e l) = e + (Z.pos (digits2_pos m) - 53).
Proof.
  intros Hd He. unfold shr_fexp, shr, fexp, emin, prec, emax. simpl Zdigits2.
  set (d := Z.pos (digits2_pos m)) in *.
  replace (Z.max (d + e - 53) (3 - 1024 - 53) - e) with (d - 53) by lia.
  destruct (d - 53) as [|k|k] eqn:Hshift; [| |lia].
  - simpl. rewrite shr_record_of_loc_m, Z.div_1_r. split; [reflexivity | lia].
  - simpl. rewrite iter_shr_1_m by (rewrite shr_record_of_loc_m; lia).
    rewrite shr_record_of_loc_m. split; reflexivity.
Qed.

Lemma round_nearest_even_range (m : Z) (l : location) :
  m <= round_nearest_even m l <= m + 1.
Proof.
  unfold round_nearest_even. destruct l as [|[| |]]; try lia.
  destruct (Z.even m); lia.
Qed.

(** Rounding a mantissa of at least 53 digits at an exponent in the
    normal range never gives zero. *)
Lemma binary_round_aux_nonzero (s : bool) (m : positive) (e : Z) :
  53 <= Z.pos (digits2_pos m) ->
  -1074 <= Z.pos (digits2_pos m) + e - 53 ->
  is_zero (binary_round_aux prec emax s (Z.pos m) e loc_Exact) = false.
Proof.
  intros Hd He. unfold binary_round_aux.
  destruct (shr_fexp_normal m e loc_Exact Hd He) as [Hm1 He1].
  destruct (shr_fexp prec emax (Z.pos m) e loc_Exact) as [mrs1 e1]. cbn [fst snd] in Hm1, He1.
  pose proof (digits2_pos_bounds m) as [Hlo Hhi].
  set (d := Z.pos (digits2_pos m)) in *.
  assert (Hn : 0 < 2 ^ (d - 53)) by (apply Z.pow_pos_nonneg; lia).
  assert (Hsplit : 2 ^ d = 2 ^ 53 * 2 ^ (d - 53)).
  { rewrite <- Z.pow_add_r by lia. f_equal. lia. }
  assert (Hsplit' : 2 ^ (d - 1) = 2 ^ 52 * 2 ^ (d - 53)).
  { rewrite <- Z.pow_add_r by lia. f_equal. lia. }
  assert (Hm1lo : 2 ^ 52 <= shr_m mrs1).
  { rewrite Hm1. apply Z.div_le_lower_bound; lia. }
  assert (Hm1hi : shr_m mrs1 < 2 ^ 53).
  { rewrite Hm1. apply Z.div_lt_upper_bound; lia. }
  pose proof (round_nearest_even_range (shr_m mrs1) (loc_of_shr_record mrs1)) as Hr.
  destruct (round_nearest_even (shr_m mrs1) (loc_of_shr_record mrs1)) as [|q|q] eqn:Hq;
    [assert (0 < 2 ^ 52) by (apply Z.pow_pos_nonneg; lia); lia | |
     assert (0 < 2 ^ 52) by (apply Z.pow_pos_nonneg; lia); lia].
  pose proof (digits2_pos_bounds q) as [Hqlo Hqhi].
  assert (Hdq : 53 <= Z.pos (digits2_pos q) <= 54).
  { assert (H52 : 52 < Z.pos (digits2_pos q)).
    { apply (proj2 (Z.pow_lt_mono_r_iff 2 52 (Z.pos (digits2_pos q))
                      ltac:(lia) ltac:(lia))). lia. }
    assert (H54 : Z.pos (digits2_pos q) - 1 < 54).
    { apply (proj2 (Z.pow_lt_mono_r_iff 2 (Z.pos (digits2_pos q) - 1) 54
                      ltac:(lia) ltac:(lia))).
      replace (2 ^ 54) with (2 * 2 ^ 53) by reflexivity. lia. }
    lia. }
  destruct (shr_fexp_normal q e1 loc_Exact (proj1 Hdq) ltac:(lia)) as [Hm2 He2].
  destruct (shr_fexp prec emax (Z.pos q) e1 loc_Exact) as [mrs2 e2]. cbn [fst snd] in Hm2, He2.
  assert (Hpos : 0 < shr_m mrs2).
  { rewrite Hm2.
    assert (Hcase : Z.pos (digits2_pos q) - 53 = 0 \/ Z.pos (digits2_pos q) - 53 = 1) by lia.
    destruct Hcase as [-> | ->].
    - rewrite Z.div_1_r. lia.
    - apply Z.div_str_pos. change (2 ^ 1) with 2.
      assert (2 <= 2 ^ 52) by (change (2 ^ 52) with 4503599627370496; lia). lia. }
  destruct (shr_m mrs2) as [|m3|m3]; [lia| |lia].
  destruct (e2 <=? emax - prec)%Z; reflexivity.
Qed.

(** Rounding a positive integer to binary64 never gives zero. *)
Lemma of_Z_pos_nonzero (p : positive) : is_zero (of_Z (Z.pos p)) = false.
Proof.
  unfold of_Z, binary_normalize, binary_round, shl_align, fexp, emin.
  change prec with 53. change emax with 1024.
  set (d := Z.pos (digits2_pos p)).
  assert (Hd : 0 < d) by (unfold d; lia).
  replace (Z.max (d + 0 - 53) (3 - 1024 - 53) - 0) with (d - 53) by lia.
  destruct (d - 53) as [|k|k] eqn:Hshift.
  - apply (binary_round_aux_nonzero false p 0); fold d; lia.
  - apply (binary_round_aux_nonzero false p 0); fold d; lia.
  - replace (Z.max (d + 0 - 53) (3 - 1024 - 53)) with (d - 53) by lia.
    pose proof (digits2_pos_iter_xO p k) as Hdk. fold d in Hdk.
    apply (binary_round_aux_nonzero false (Pos.iter xO p k) (d - 53)); lia.
Qed.

End NumberProperties.

(** X9.  TrendChart decides between the chart and the "No trend data
    available" state on the array it was given, not on what is left after
    formatting: for a non-empty array whose formatting returns, it renders
    the line chart over the formatted points, even when none is left. *)
Theorem TrendChart_charts_nonempty_input :
  forall (host : JS.Host) (dates : TrendChart.DateFns)
         (item : JS.Value) (items out : list JS.Value) (tr : list JS.Event) title timeRange,
    JS.run (TrendChart.formatSeries (JS.VArr (item :: items))) = (JS.Returns out, tr) ->
    fst (JS.run (TrendChart.TrendChart
                   {| TrendChart.data := JS.VArr (item :: items);
                      TrendChart.title := title;
                      TrendChart.timeRange := timeRange |})) =
      JS.Returns (TrendChart.chart title timeRange out).
Proof.
  intros host dates item items out tr title timeRange Hrun.
  unfold TrendChart.TrendChart, TrendChart.formatSeries, JS.run in *.
  simpl TrendChart.data. simpl TrendChart.data_or_default in *.
  unfold JS.bind at 1. rewrite Hrun.
  unfold JS.bind, JS.emit, JS.ret.
  assert (Hlen : JS.is_number_zero (JS.length_of (JS.VArr (item :: items))) = false).
  { unfold JS.length_of, JS.is_number_zero. cbn [List.length].
    rewrite Nat2Z.inj_succ, <- Z.add_1_r.
    destruct (Z.of_nat (List.length items) + 1) as [|p|p] eqn:Hp; try lia.
    apply of_Z_pos_nonzero. }
  rewrite Hlen. reflexivity.
Qed.

(** X9, witness: the only point has no date; the chart is drawn over no
    points. *)
Lemma TrendChart_charts_nonempty_input_witness :
  fst (JS.run (@TrendChart.TrendChart JS.sample_Host TrendChart.sample_DateFns
                 {| TrendChart.data := JS.VArr [JS.VObj [("value", JS.VNum (JS.of_Z 1))]];
                    TrendChart.title := "Overall";
                    TrendChart.timeRange := JS.of_Z 30 |})) =
    JS.Returns (@TrendChart.chart JS.sample_Host "Overall" (JS.of_Z 30) []).
Proof.
  apply (TrendChart_charts_nonempty_input JS.sample_Host TrendChart.sample_DateFns
           (JS.VObj [("value", JS.VNum (JS.of_Z 1))]) [] []
           [TrendPoints.warning (JS.VObj [("value", JS.VNum (JS.of_Z 1))])]
           "Overall" (JS.of_Z 30)).
  reflexivity.
Defined.

(* ===================================================================== *)
(** * Sequencing callbacks that log nothing *)
(* ===================================================================== *)

Section SequenceProperties.
Import JS Sequence.

Lemma mapM_silent {A B} (f : A -> Eff B) (xs : list A) (tr : list Event) :
  silent f -> mapM f xs tr = (sequence (map (fun x => fst (f x [])) xs), tr).
Proof.
  intros Hf. revert tr. induction xs as [|x xs IH]; intros tr; [reflexivity|].
  simpl. unfold bind. rewrite (Hf x tr).
  destruct (fst (f x [])) as [y|e]; [|reflexivity].
  rewrite IH. destruct (sequence (map (fun x0 => fst (f x0 [])) xs)); reflexivity.
Qed.

Lemma sequence_returns_iff {B} (os : list (Outcome B)) :
  (exists ys, sequence os = Returns ys) <-> forallb returns os = true.
Proof.
  induction os as [|o os IH]; simpl.
  - split; [reflexivity | intros _; eexists; reflexivity].
  - destruct o as [y|e]; simpl.
    + rewrite <- IH. split.
      * intros [ys Hys]. destruct (sequence os) as [ys'|e]; [eexists; reflexivity | discriminate].
      * intros [ys Hys]. rewrite Hys. eexists; reflexivity.
    + split; [intros [ys Hys]; discriminate | discriminate].
Qed.

Lemma sequence_Forall2 {A B} (g : A -> Outcome B) (xs : list A) (ys : list B) :
  sequence (map g xs) = Returns ys -> Forall2 (fun x y => g x = Returns y) xs ys.
Proof.
  revert ys. induction xs as [|x xs IH]; intros ys Hseq; simpl in Hseq.
  - inversion Hseq. constructor.
  - destruct (g x) as [y|e] eqn:Hx; [|discriminate].
    destruct (sequence (map g xs)) as [ys'|e]; [|discriminate].
    inversion Hseq; subst. constructor; [assumption | apply IH; reflexivity].
Qed.

End SequenceProperties.

(* ===================================================================== *)
(** * Further properties of the graph projection *)
(* ===================================================================== *)

Section GraphShapeProperties.
Import JS Sequence ResourceRelationships ResourceShape.

Lemma node_of_silent : silent node_of.
Proof.
  intros r tr. unfold node_of, getResourceColor, JS.get, bind, ret, throw.
  destruct r as [| |b|n|s|items|fields]; try reflexivity.
  destruct (lookup "type" fields); reflexivity.
Qed.

Lemma links_of_object (fields : list (string * Value)) (targets : list Value)
  (tr : list Event) :
  lookup "relationships" fields = VArr targets ->
  links_of (VObj fields) tr =
    (Returns (map (fun t => {| link_source := lookup "id" fields; link_target := t |})
                  targets), tr).
Proof.
  intros Hrel. unfold links_of, JS.get, call_map, bind, ret. rewrite Hrel.
  pose proof (mapM_pure
                (fun targetId : Value =>
                   bind (JS.get (VObj fields) "id")
                        (fun source => ret {| link_source := source; link_target := targetId |}))
                (fun t : Value => t)
                (fun t => {| link_source := lookup "id" fields; link_target := t |})
                targets (fun x tr0 => eq_refl) tr) as Hmap.
  rewrite map_id in Hmap. unfold JS.get, bind, ret in Hmap. rewrite Hmap. reflexivity.
Qed.

Lemma links_of_silent : silent links_of.
Proof.
  intros r tr.
  destruct r as [| |b|n|s|items|fields]; try reflexivity.
  destruct (lookup "relationships" fields) as [| |b|n|s|targets|fs] eqn:Hrel;
    try (unfold links_of, JS.get, call_map, bind, ret, throw; rewrite Hrel; reflexivity).
  rewrite (links_of_object fields targets tr Hrel).
  rewrite (links_of_object fields targets [] Hrel). reflexivity.
Qed.

(** A resource is projectable exactly when both callbacks return on it. *)
Lemma projectable_iff_callbacks (r : Value) :
  projectable r = returns (fst (node_of r [])) && returns (fst (links_of r [])).
Proof.
  destruct r as [| |b|n|s|items|fields]; try reflexivity.
  unfold projectable.
  destruct (lookup "relationships" fields) as [| |b|n|s|targets|fs] eqn:Hrel;
    try (unfold node_of, links_of, getResourceColor, JS.get, call_map, bind, ret, throw;
         rewrite Hrel; destruct (lookup "type" fields); reflexivity).
  rewrite (links_of_object fields targets [] Hrel).
  unfold node_of, getResourceColor, JS.get, bind, ret, throw.
  destruct (lookup "type" fields); reflexivity.
Qed.

Lemma links_of_count (r : Value) (part : list GraphLink) :
  fst (links_of r []) = Returns part -> List.length part = edge_count r.
Proof.
  destruct r as [| |b|n|s|items|fields]; try discriminate.
  unfold edge_count.
  destruct (lookup "relationships" fields) as [| |b|n|s|targets|fs] eqn:Hrel;
    try (unfold links_of, JS.get, call_map, bind, ret, throw; rewrite Hrel; discriminate).
  rewrite (links_of_object fields targets [] Hrel). simpl.
  intros E; inversion E. apply length_map.
Qed.

Lemma forallb_projectable_split (items : list Value) :
  forallb projectable items =
    forallb returns (map (fun r => fst (node_of r [])) items)
    && forallb returns (map (fun r => fst (links_of r [])) items).
Proof.
  induction items as [|r items IH]; [reflexivity|].
  simpl. rewrite IH, projectable_iff_callbacks.
  destruct (returns (fst (node_of r []))), (returns (fst (links_of r [])));
    simpl; try reflexivity;
    rewrite ?andb_false_r; reflexivity.
Qed.

Lemma graphData_array (items : list Value) :
  run (graphData (VArr items)) =
    match sequence (map (fun r => fst (node_of r [])) items) with
    | Returns ns =>
        match sequence (map (fun r => fst (links_of r [])) items) with
        | Returns parts => (Returns {| nodes := ns; links := List.concat parts |}, [])
        | Throws e => (Throws e, [])
        end
    | Throws e => (Throws e, [])
    end.
Proof.
  unfold graphData, run, call_map, call_flatMap, bind, ret.
  rewrite (mapM_silent node_of items [] node_of_silent).
  destruct (sequence (map (fun r => fst (node_of r [])) items)) as [ns|e]; [|reflexivity].
  rewrite (mapM_silent links_of items [] links_of_silent).
  destruct (sequence (map (fun r => fst (links_of r [])) items)); reflexivity.
Qed.

Lemma concat_parts_count (items : list Value) (parts : list (list GraphLink)) :
  Forall2 (fun r part => fst (links_of r []) = Returns part) items parts ->
  List.length (List.concat parts) = list_sum (map edge_count items).
Proof.
  induction 1 as [|r part items parts Hpart _ IH]; [reflexivity|].
  simpl. rewrite length_app, IH, (links_of_count r part Hpart). reflexivity.
Qed.

End GraphShapeProperties.

(** X10.  On an array of arbitrary values, the graph projection returns
    exactly when every element is an object whose [type] is a string and
    whose [relationships] is an array; it then has one node per element
    and one link per relationship entry, and logs nothing.  A single
    element of another shape makes the whole projection throw. *)
Theorem graphData_returns_iff_projectable :
  forall items : list JS.Value,
    ((exists g, fst (JS.run (ResourceRelationships.graphData (JS.VArr items))) = JS.Returns g)
     <-> forallb ResourceShape.projectable items = true)
    /\ (forall g tr,
          JS.run (ResourceRelationships.graphData (JS.VArr items)) = (JS.Returns g, tr) ->
          tr = []
          /\ List.length (ResourceRelationships.nodes g) = List.length items
          /\ List.length (ResourceRelationships.links g) =
               list_sum (map ResourceShape.edge_count items)).
Proof.
  intros items. rewrite graphData_array, forallb_projectable_split. split.
  - rewrite andb_true_iff, <- !sequence_returns_iff.
    destruct (Sequence.sequence (map (fun r => fst (ResourceRelationships.node_of r [])) items))
      as [ns|e].
    + destruct (Sequence.sequence
                  (map (fun r => fst (ResourceRelationships.links_of r [])) items))
        as [parts|e]; simpl.
      * split; [intros _; split; eexists; reflexivity | intros _; eexists; reflexivity].
      * split; [intros [g Hg]; discriminate Hg | intros [_ [ys Hys]]; discriminate Hys].
    + simpl. split; [intros [g Hg]; discriminate Hg | intros [[ys Hys] _]; discriminate Hys].
  - intros g tr Hrun.
    destruct (Sequence.sequence (map (fun r => fst (ResourceRelationships.node_of r [])) items))
      as [ns|e] eqn:Hns; [|discriminate].
    destruct (Sequence.sequence (map (fun r => fst (ResourceRelationships.links_of r [])) items))
      as [parts|e] eqn:Hparts; [|discriminate].
    inversion Hrun; subst. simpl. repeat split.
    + apply sequence_Forall2 in Hns. apply Forall2_length in Hns. symmetry. exact Hns.
    + apply concat_parts_count. apply sequence_Forall2. exact Hparts.
Qed.

(** X10, witness: one resource with two relationship entries and a
    numeric id. *)
Lemma graphData_returns_iff_projectable_witness :
  exists g,
    fst (JS.run (ResourceRelationships.graphData
                   (JS.VArr [JS.VObj [ ("id", JS.VNum (JS.of_Z 7)); ("type", JS.VStr "S3");
                                       ("relationships",
                                        JS.VArr [JS.VStr "a"; JS.VStr "b"]) ]]))) =
      JS.Returns g.
Proof.
  apply (proj2 (proj1 (graphData_returns_iff_projectable
                         [JS.VObj [ ("id", JS.VNum (JS.of_Z 7)); ("type", JS.VStr "S3");
                                    ("relationships",
                                     JS.VArr [JS.VStr "a"; JS.VStr "b"]) ]]))).
  reflexivity.
Defined.

(** X11.  [getResourceTypeIcon] and [getResourceColor] classify resource
    types identically: two type strings get the same icon exactly when
    they get the same colour. *)
Theorem resource_icon_matches_color :
  forall s t : string,
    fst (JS.run (ResourceShape.getResourceTypeIcon (JS.VStr s))) =
    fst (JS.run (ResourceShape.getResourceTypeIcon (JS.VStr t)))
    <->
    fst (JS.run (ResourceRelationships.getResourceColor (JS.VStr s))) =
    fst (JS.run (ResourceRelationships.getResourceColor (JS.VStr t))).
Proof.
  intros s t. simpl.
  unfold ResourceShape.icon_of_type, ResourceRelationships.color_of_type.
  destruct (JS.toLowerCase s =? "ec2"), (JS.toLowerCase s =? "s3"),
    (JS.toLowerCase s =? "rds"), (JS.toLowerCase s =? "iam"),
    (JS.toLowerCase t =? "ec2"), (JS.toLowerCase t =? "s3"),
    (JS.toLowerCase t =? "rds"), (JS.toLowerCase t =? "iam");
    split; intros E; try reflexivity; discriminate E.
Qed.

(* ===================================================================== *)
(** * The order of an object's properties *)
(* ===================================================================== *)

Section EnumerationProperties.
Import JS.

Lemma insert_index_length {A} (i : N) (x : A) (sorted : list (N * A)) :
  List.length (insert_index i x sorted) = S (List.length sorted).
Proof.
  induction sorted as [|[j y] rest IH]; [reflexivity|].
  simpl. destruct (i <? j)%N; simpl; [reflexivity | rewrite IH; reflexivity].
Qed.

(** Enumeration neither drops nor repeats a property. *)
Lemma own_properties_length {A} (fields : list (string * A)) :
  List.length (own_properties fields) = List.length fields.
Proof.
  unfold own_properties. rewrite length_app, length_map.
  induction fields as [|kv rest IH]; [reflexivity|].
  cbn [index_properties filter].
  change (is_named kv) with (match array_index (fst kv) with Some _ => false | None => true end).
  destruct (array_index (fst kv)); cbn [List.length].
  - rewrite insert_index_length. simpl. rewrite IH. reflexivity.
  - rewrite Nat.add_succ_r, IH. reflexivity.
Qed.

Lemma insert_index_forallb {A} (p : A -> bool) (i : N) (x : A) (sorted : list (N * A)) :
  forallb p (map snd (insert_index i x sorted)) = p x && forallb p (map snd sorted).
Proof.
  induction sorted as [|[j y] rest IH]; [reflexivity|].
  simpl. destruct (i <? j)%N; simpl; [reflexivity|].
  rewrite IH. destruct (p x), (p y); reflexivity.
Qed.

(** A test holds of every enumerated property exactly when it holds of
    every property. *)
Lemma own_properties_forallb {A} (p : string * A -> bool) (fields : list (string * A)) :
  forallb p (own_properties fields) = forallb p fields.
Proof.
  unfold own_properties. rewrite forallb_app.
  induction fields as [|kv rest IH]; [reflexivity|].
  cbn [index_properties filter].
  change (is_named kv) with (match array_index (fst kv) with Some _ => false | None => true end).
  destruct (array_index (fst kv)); cbn [forallb map].
  - rewrite insert_index_forallb, <- IH, andb_assoc. reflexivity.
  - rewrite <- IH. destruct (p kv), (forallb p (map snd (index_properties rest)));
      reflexivity.
Qed.

(** Without array indices among the keys, enumeration follows creation
    order. *)
Lemma own_properties_named {A} (fields : list (string * A)) :
  forallb is_named fields = true -> own_properties fields = fields.
Proof.
  intros Hnamed.
  assert (H : index_properties fields = [] /\ filter is_named fields = fields).
  { induction fields as [|kv rest IH]; [split; reflexivity|].
    cbn [forallb] in Hnamed. apply andb_true_iff in Hnamed.
    destruct Hnamed as [Hkv Hrest]. destruct (IH Hrest) as [Hindex Hfilter].
    cbn [index_properties filter]. rewrite Hkv, Hfilter.
    unfold is_named in Hkv. destruct (array_index (fst kv)); [discriminate Hkv|].
    split; [exact Hindex | reflexivity]. }
  unfold own_properties. destruct H as [-> ->]. reflexivity.
Qed.

Lemma insert_index_map {A B} (h : A -> B) (i : N) (x : A) (sorted : list (N * A)) :
  insert_index i (h x) (map (fun jy => (fst jy, h (snd jy))) sorted) =
  map (fun jy => (fst jy, h (snd jy))) (insert_index i x sorted).
Proof.
  induction sorted as [|[j y] rest IH]; [reflexivity|].
  simpl. destruct (i <? j)%N; simpl; [reflexivity | rewrite IH; reflexivity].
Qed.

(** Enumeration looks at the keys only. *)
Lemma own_properties_map {A B} (g : A -> B) (fields : list (string * A)) :
  own_properties (map (fun kv => (fst kv, g (snd kv))) fields) =
  map (fun kv => (fst kv, g (snd kv))) (own_properties fields).
Proof.
  unfold own_properties. rewrite map_app, !map_map. f_equal.
  - assert (H : index_properties (map (fun kv => (fst kv, g (snd kv))) fields) =
                map (fun jy => (fst jy, (fst (snd jy), g (snd (snd jy)))))
                    (index_properties fields)).
    { induction fields as [|kv rest IH]; [reflexivity|].
      simpl. destruct (array_index (fst kv)); [|exact IH].
      rewrite IH.
      apply (insert_index_map (fun kv => (fst kv, g (snd kv))) n kv). }
    rewrite H, map_map. reflexivity.
  - induction fields as [|kv rest IH]; [reflexivity|].
    cbn [map filter]. rewrite IH.
    change (is_named (fst kv, g (snd kv))) with (is_named kv).
    destruct (is_named kv); reflexivity.
Qed.

End EnumerationProperties.

(* ===================================================================== *)
(** * Further properties of ServiceMisconfigurations *)
(* ===================================================================== *)

Section ServiceProperties.
Import JS Sequence ServiceMisconfigurations ServiceShape.

Lemma annotate_issue_typed (m : Aws.Misconfiguration) (tr : list Event) :
  annotate_issue (Aws.misconfiguration_value m) tr = (Returns (issue_view m), tr).
Proof. reflexivity. Qed.

Lemma annotate_resource_typed (r : Aws.Resource) (tr : list Event) :
  annotate_resource (Aws.resource_value r) tr = (Returns (resource_view r), tr).
Proof.
  unfold annotate_resource, Aws.resource_value, JS.get, call_map, bind, ret. simpl lookup.
  rewrite (mapM_pure annotate_issue Aws.misconfiguration_value issue_view
             (Aws.res_misconfigurations r) annotate_issue_typed).
  reflexivity.
Qed.

Lemma resourcesList_typed (services : Aws.ServiceData) :
  run (resourcesList (Aws.services_value services)) =
    (Returns (map service_view (own_properties services)), []).
Proof.
  unfold resourcesList, Aws.services_value, run. cbn [Object_entries].
  change (map Aws.service_entry services)
    with (map (fun kv : string * list Aws.Resource =>
                 (fst kv, (fun rs => VArr (map Aws.resource_value rs)) (snd kv))) services).
  rewrite own_properties_map.
  apply (mapM_pure _ Aws.service_entry service_view (own_properties services)).
  intros entry tr. unfold Aws.service_entry, call_map, bind, ret. simpl snd. simpl fst.
  rewrite (mapM_pure annotate_resource Aws.resource_value resource_view
             (snd entry) annotate_resource_typed).
  reflexivity.
Qed.

Lemma typed_colors (m : Aws.Misconfiguration) :
  In (severityColor (issue_view m)) ["rose"; "amber"; "emerald"].
Proof.
  unfold issue_view. simpl. destruct (Aws.mis_severity m); simpl; auto.
Qed.

Lemma typed_issue_colors (services : Aws.ServiceData) :
  Forall (fun c => In c ["rose"; "amber"; "emerald"])
         (issue_colors (map service_view services)).
Proof.
  unfold issue_colors. apply Forall_flat_map. apply Forall_forall. intros s Hs.
  apply in_map_iff in Hs. destruct Hs as [entry [<- _]].
  apply Forall_flat_map. apply Forall_forall. intros r Hr.
  apply Forall_forall. intros c Hc. apply in_map_iff in Hc.
  destruct Hc as [iv [<- Hiv]].
  simpl in Hr. apply in_map_iff in Hr. destruct Hr as [r0 [<- _]].
  simpl in Hiv. apply in_map_iff in Hiv. destruct Hiv as [m [<- _]].
  apply typed_colors.
Qed.

(** The annotation callbacks log nothing. *)
Lemma annotate_issue_silent : silent annotate_issue.
Proof.
  intros i tr. unfold annotate_issue, JS.get, bind, ret, throw.
  destruct i; reflexivity.
Qed.

Lemma annotate_issue_returns (i : Value) :
  returns (fst (annotate_issue i [])) = shaped_issue i.
Proof. destruct i; reflexivity. Qed.

Lemma annotate_resource_outcome (r : Value) (tr : list Event) :
  annotate_resource r tr = (fst (annotate_resource r []), tr)
  /\ returns (fst (annotate_resource r [])) = shaped_resource r.
Proof.
  destruct r as [| |b|n|s|items|fields]; try (split; reflexivity).
  unfold annotate_resource, shaped_resource, JS.get, call_map, bind, ret, throw.
  destruct (lookup "misconfigurations" fields) as [| |b|n|s|issues|fs];
    try (split; reflexivity).
  rewrite (mapM_silent annotate_issue issues tr annotate_issue_silent).
  rewrite (mapM_silent annotate_issue issues [] annotate_issue_silent).
  assert (Hret : returns (sequence (map (fun x => fst (annotate_issue x [])) issues)) =
                 forallb shaped_issue issues).
  { induction issues as [|i issues IH]; [reflexivity|].
    simpl. rewrite <- annotate_issue_returns, <- IH.
    destruct (fst (annotate_issue i [])); [|reflexivity].
    destruct (sequence (map (fun x => fst (annotate_issue x [])) issues)); reflexivity. }
  rewrite <- Hret.
  destruct (sequence (map (fun x => fst (annotate_issue x [])) issues)); split; reflexivity.
Qed.

Lemma annotate_resource_silent : silent annotate_resource.
Proof. intros r tr. exact (proj1 (annotate_resource_outcome r tr)). Qed.

Lemma annotate_service_outcome (entry : string * Value) (tr : list Event) :
  annotate_service entry tr = (fst (annotate_service entry []), tr)
  /\ returns (fst (annotate_service entry [])) = shaped_service entry.
Proof.
  destruct entry as [name v]. unfold annotate_service, shaped_service, call_map, bind, ret,
    throw. simpl snd. simpl fst.
  destruct v as [| |b|n|s|rs|fields]; try (split; reflexivity).
  cbn [snd fst].
  rewrite (mapM_silent annotate_resource rs tr annotate_resource_silent).
  rewrite (mapM_silent annotate_resource rs [] annotate_resource_silent).
  assert (Hret : returns (sequence (map (fun x => fst (annotate_resource x [])) rs)) =
                 forallb shaped_resource rs).
  { induction rs as [|r rs IH]; [reflexivity|].
    simpl. rewrite <- (proj2 (annotate_resource_outcome r [])), <- IH.
    destruct (fst (annotate_resource r [])); [|reflexivity].
    destruct (sequence (map (fun x => fst (annotate_resource x [])) rs)); reflexivity. }
  rewrite <- Hret.
  destruct (sequence (map (fun x => fst (annotate_resource x [])) rs)); split; reflexivity.
Qed.

Lemma annotate_service_silent : silent annotate_service.
Proof. intros entry tr. exact (proj1 (annotate_service_outcome entry tr)). Qed.

Lemma forallb_returns_map {A B} (g : A -> Outcome B) (h : A -> bool) (xs : list A) :
  (forall x, returns (g x) = h x) ->
  forallb returns (map g xs) = forallb h xs.
Proof.
  intros Hgh. induction xs as [|x xs IH]; [reflexivity|].
  simpl. rewrite Hgh, IH. reflexivity.
Qed.

Lemma resourcesList_returns_iff (services : Value) :
  (exists views, fst (run (resourcesList services)) = Returns views)
  <-> forallb shaped_service (Object_entries services) = true.
Proof.
  unfold resourcesList, run.
  change (mapM _ (Object_entries services) [])
    with (mapM annotate_service (Object_entries services) []).
  rewrite (mapM_silent annotate_service _ [] annotate_service_silent). simpl fst.
  rewrite sequence_returns_iff.
  assert (Hmap : forallb returns
                   (map (fun x => fst (annotate_service x [])) (Object_entries services)) =
                 forallb shaped_service (Object_entries services)).
  { apply forallb_returns_map. intros entry.
    exact (proj2 (annotate_service_outcome entry [])). }
  rewrite Hmap. reflexivity.
Qed.

(** With at least one key, the component is the card over
    [resourcesList]. *)
Lemma ServiceMisconfigurations_with_keys (entry : string * Value)
  (entries : list (string * Value)) (tr : list Event) :
  ServiceMisconfigurations.ServiceMisconfigurations (VObj (entry :: entries)) tr =
    match resourcesList (VObj (entry :: entries)) tr with
    | (Returns views, tr') => (Returns (card views), tr')
    | (Throws e, tr') => (Throws e, tr')
    end.
Proof.
  unfold ServiceMisconfigurations.ServiceMisconfigurations, Object_keys.
  cbn [services_or_default truthy negb orb Object_entries].
  rewrite length_map, own_properties_length. reflexivity.
Qed.

End ServiceProperties.

(** X12.  Given a value without own keys (anything but a non-empty object,
    array or string: [undefined], [null], [false], a number, [{}], [[]],
    the empty string), ServiceMisconfigurations returns the "No
    misconfigurations found" fallback; it neither throws nor logs. *)
Theorem ServiceMisconfigurations_fallback_on_keyless :
  forall v : JS.Value,
    ServiceShape.keyless v = true ->
    JS.run (ServiceMisconfigurations.ServiceMisconfigurations v) =
      (JS.Returns ServiceMisconfigurations.no_misconfigurations, []).
Proof.
  intros v Hk. unfold ServiceMisconfigurations.ServiceMisconfigurations.
  destruct v as [| |b|n|s|items|fields]; simpl in *; try reflexivity.
  - destruct b; reflexivity.
  - destruct (negb (JS.is_zero n || JS.is_nan n)); reflexivity.
  - destruct s; [reflexivity | discriminate Hk].
  - destruct items; [reflexivity | discriminate Hk].
  - destruct fields; [reflexivity | discriminate Hk].
Qed.

(** X12, witness: the number 42 where the services object was expected. *)
Lemma ServiceMisconfigurations_fallback_on_keyless_witness :
  JS.run (ServiceMisconfigurations.ServiceMisconfigurations (JS.VNum (JS.of_Z 42))) =
    (JS.Returns ServiceMisconfigurations.no_misconfigurations, []).
Proof.
  apply (ServiceMisconfigurations_fallback_on_keyless (JS.VNum (JS.of_Z 42))).
  reflexivity.
Defined.

(** X13.  On services that conform to the declared model, [resourcesList]
    returns, without throwing or logging, one view per service, resource
    and misconfiguration: the services in the order in which JavaScript
    enumerates the keys of the object (the names that are array indices
    first, by ascending index, then the others as written; so as written
    when no name is an array index), the resources and misconfigurations
    in array order.  Every misconfiguration is coloured rose, amber or
    emerald (the neutral default is never used), and when there is at
    least one service the component returns the card over these views. *)
Theorem ServiceMisconfigurations_on_typed_services :
  forall services : Aws.ServiceData,
    JS.run (ServiceMisconfigurations.resourcesList (Aws.services_value services)) =
      (JS.Returns (map ServiceShape.service_view (JS.own_properties services)), [])
    /\ List.length (JS.own_properties services) = List.length services
    /\ (forallb JS.is_named services = true -> JS.own_properties services = services)
    /\ Forall (fun c => In c ["rose"; "amber"; "emerald"])
              (ServiceShape.issue_colors
                 (map ServiceShape.service_view (JS.own_properties services)))
    /\ (services <> [] ->
        JS.run (ServiceMisconfigurations.ServiceMisconfigurations
                  (Aws.services_value services)) =
          (JS.Returns
             (ServiceShape.card
                (map ServiceShape.service_view (JS.own_properties services))), [])).
Proof.
  intros services. split; [apply resourcesList_typed|].
  split; [apply own_properties_length|]. split; [apply own_properties_named|].
  split; [apply typed_issue_colors|].
  intros Hne.
  pose proof (resourcesList_typed services) as Hlist. unfold JS.run in *.
  destruct services as [|entry services]; [congruence|].
  change (Aws.services_value (entry :: services))
    with (JS.VObj (Aws.service_entry entry :: map Aws.service_entry services)) in *.
  rewrite ServiceMisconfigurations_with_keys, Hlist. reflexivity.
Qed.

(** X13, witness: a bucket with one HIGH finding under [s3], written
    before a service named [2]; the card lists [2] first. *)
Lemma ServiceMisconfigurations_on_typed_services_witness :
  JS.run (ServiceMisconfigurations.ServiceMisconfigurations
            (Aws.services_value
               [("s3", [ {| Aws.res_id := "r1"; Aws.res_resource_id := "bucket-1";
                            Aws.res_type := "s3"; Aws.res_name := "backups";
                            Aws.res_relationships := [];
                            Aws.res_misconfigurations :=
                              [ {| Aws.mis_type := "public-read";
                                   Aws.mis_severity := Aws.HIGH;
                                   Aws.mis_description := "Bucket is public" |} ] |} ]);
                ("2", [])])) =
    (JS.Returns
       (ServiceShape.card
          (map ServiceShape.service_view
             [("2", []);
              ("s3", [ {| Aws.res_id := "r1"; Aws.res_resource_id := "bucket-1";
                          Aws.res_type := "s3"; Aws.res_name := "backups";
                          Aws.res_relationships := [];
                          Aws.res_misconfigurations :=
                            [ {| Aws.mis_type := "public-read";
                                 Aws.mis_severity := Aws.HIGH;
                                 Aws.mis_description := "Bucket is public" |} ] |} ])])),
     []).
Proof.
  apply (proj2 (proj2 (proj2 (proj2 (ServiceMisconfigurations_on_typed_services
           [("s3", [ {| Aws.res_id := "r1"; Aws.res_resource_id := "bucket-1";
                        Aws.res_type := "s3"; Aws.res_name := "backups";
                        Aws.res_relationships := [];
                        Aws.res_misconfigurations :=
                          [ {| Aws.mis_type := "public-read";
                               Aws.mis_severity := Aws.HIGH;
                               Aws.mis_description := "Bucket is public" |} ] |} ]);
            ("2", [])]))))).
  discriminate.
Defined.

(** X14.  Given a services object with at least one key,
    ServiceMisconfigurations returns exactly when every service is an
    array, every resource in it is an object whose [misconfigurations] is
    an array, and no misconfiguration is [undefined] or [null]; one
    element of another shape makes the whole card throw. *)
Theorem ServiceMisconfigurations_returns_iff_shaped :
  forall (entry : string * JS.Value) (entries : list (string * JS.Value)),
    (exists node,
       fst (JS.run (ServiceMisconfigurations.ServiceMisconfigurations
                      (JS.VObj (entry :: entries)))) = JS.Returns node)
    <-> forallb ServiceShape.shaped_service (entry :: entries) = true.
Proof.
  intros entry entries.
  rewrite <- (own_properties_forallb ServiceShape.shaped_service (entry :: entries)).
  change (JS.own_properties (entry :: entries))
    with (JS.Object_entries (JS.VObj (entry :: entries))).
  rewrite <- (resourcesList_returns_iff (JS.VObj (entry :: entries))).
  unfold JS.run. rewrite ServiceMisconfigurations_with_keys.
  destruct (ServiceMisconfigurations.resourcesList (JS.VObj (entry :: entries)) [])
    as [[views|e] tr]; simpl.
  - split; intros _; eexists; reflexivity.
  - split; intros [x Hx]; discriminate Hx.
Qed.

(** X14, witness: a resource without [misconfigurations] makes the card
    throw, although the service before it is well-formed. *)
Lemma ServiceMisconfigurations_returns_iff_shaped_witness :
  ~ exists node,
      fst (JS.run (ServiceMisconfigurations.ServiceMisconfigurations
                     (JS.VObj [ ("ec2", JS.VArr []);
                                ("s3", JS.VArr [JS.VObj [("resource_id", JS.VStr "b1")]]) ]))) =
        JS.Returns node.
Proof.
  intros Hret.
  apply (proj1 (ServiceMisconfigurations_returns_iff_shaped
                  ("ec2", JS.VArr [])
                  [("s3", JS.VArr [JS.VObj [("resource_id", JS.VStr "b1")]])])) in Hret.
  discriminate Hret.
Defined.

(** X15.  The icon of a misconfiguration is determined by its colour:
    two severities that get the same colour get the same icon, whatever
    values they are. *)
Theorem severity_icon_follows_color :
  forall a b : JS.Value,
    ServiceMisconfigurations.getSeverityColor a = ServiceMisconfigurations.getSeverityColor b ->
    ServiceMisconfigurations.getSeverityIcon a = ServiceMisconfigurations.getSeverityIcon b.
Proof.
  intros a b.
  unfold ServiceMisconfigurations.getSeverityColor, ServiceMisconfigurations.getSeverityIcon.
  destruct a as [| |x|x|s|x|x], b as [| |y|y|t|y|y]; try reflexivity;
    repeat match goal with
           | |- context [if ?c then _ else _] => destruct c
           end; intros E; try reflexivity; discriminate E.
Qed.

(** X15, witness: an unknown severity string and a number. *)
Lemma severity_icon_follows_color_witness :
  ServiceMisconfigurations.getSeverityIcon (JS.VStr "CRITICAL") =
  ServiceMisconfigurations.getSeverityIcon (JS.VNum (JS.of_Z 3)).
Proof.
  apply (severity_icon_follows_color (JS.VStr "CRITICAL") (JS.VNum (JS.of_Z 3))).
  reflexivity.
Defined.

(* ===================================================================== *)
(** * Further properties of RiskAssessment and of the pie label *)
(* ===================================================================== *)

(** X16.  RiskAssessment does not validate its metrics.  On [undefined]
    or [null] it throws a TypeError; on every other value it returns,
    logging nothing, a donut of exactly three segments whose values are
    whatever is stored under [high], [medium] and [low] ([undefined] for
    a missing key).  The only text its markup writes is the title: the
    counts reach the page through the donut's [data] alone. *)
Theorem RiskAssessment_three_unvalidated_segments :
  forall (host : JS.Host) (metrics : JS.Value),
    (Reading.nullish metrics = true ->
     exists msg,
       JS.run (RiskAssessment.RiskAssessment metrics) = (JS.Throws (JS.TypeError msg), []))
    /\ (Reading.nullish metrics = false ->
        exists view,
          JS.run (RiskAssessment.RiskAssessment metrics) = (JS.Returns view, [])
          /\ View.segment_values view =
               [ Reading.metric metrics "high"; Reading.metric metrics "medium";
                 Reading.metric metrics "low" ]
          /\ View.text view = Some "Risk Assessment").
Proof.
  intros host metrics. split; intros Hn.
  - destruct metrics; try discriminate Hn; eexists; reflexivity.
  - destruct metrics; try discriminate Hn;
      (eexists; split; [reflexivity | split; reflexivity]).
Qed.

(** X16, witness: metrics without a [low] count, and [undefined]. *)
Lemma RiskAssessment_three_unvalidated_segments_witness :
  (exists view,
     JS.run (RiskAssessment.RiskAssessment
               (JS.VObj [("high", JS.VNum (JS.of_Z 2)); ("medium", JS.VStr "n/a")])) =
       (JS.Returns view, [])
     /\ View.segment_values view = [JS.VNum (JS.of_Z 2); JS.VStr "n/a"; JS.VUndefined])
  /\ (exists msg,
        JS.run (RiskAssessment.RiskAssessment JS.VUndefined) =
          (JS.Throws (JS.TypeError msg), [])).
Proof.
  split.
  - destruct (proj2 (RiskAssessment_three_unvalidated_segments JS.sample_Host
                       (JS.VObj [("high", JS.VNum (JS.of_Z 2)); ("medium", JS.VStr "n/a")]))
                    eq_refl) as [view [Hrun [Hseg _]]].
    exists view. split; [exact Hrun | exact Hseg].
  - apply (proj1 (RiskAssessment_three_unvalidated_segments JS.sample_Host JS.VUndefined)).
    reflexivity.
Defined.

Section CompareProperties.
Import JS.

Lemma SFcompare_refl (x : number) : is_nan x = false -> SFcompare x x = Some Eq.
Proof.
  destruct x as [s|s| |s m e]; simpl; try reflexivity; try discriminate.
  - destruct s; reflexivity.
  - intros _. rewrite Z.compare_refl, Pos.compare_cont_refl. destruct s; reflexivity.
Qed.

Lemma SFcompare_antisym (x y : number) (c : comparison) :
  SFcompare x y = Some c -> SFcompare y x = Some (CompOpp c).
Proof.
  destruct x as [s|s| |s m e], y as [s'|s'| |s' m' e']; simpl;
    try discriminate; intros E; inversion E; subst; clear E;
    try (destruct s; reflexivity); try (destruct s'; reflexivity);
    try (destruct s, s'; reflexivity); try reflexivity.
  destruct s, s'; simpl; try reflexivity.
  - rewrite (Z.compare_antisym e e').
    destruct (e ?= e')%Z; simpl; try reflexivity.
    rewrite Pos.compare_cont_antisym. simpl. rewrite CompOpp_involutive. reflexivity.
  - rewrite (Z.compare_antisym e e').
    destruct (e ?= e')%Z; simpl; try reflexivity.
    rewrite Pos.compare_cont_antisym. reflexivity.
Qed.

Lemma compare_not_nan (x y : number) (c : comparison) :
  SFcompare x y = Some c -> is_nan x = false /\ is_nan y = false.
Proof.
  destruct x, y; simpl; try discriminate; intros _; split; reflexivity.
Qed.

(** [Math.min(a, b)] is NaN or at most [b]. *)
Lemma Math_min_bound (a b : number) :
  is_nan (Math_min a b) = true \/ Reading.le (Math_min a b) b = true.
Proof.
  unfold Math_min, Reading.le, SFleb.
  destruct (SFcompare a b) as [c|] eqn:Hc; [|left; reflexivity].
  right. destruct (compare_not_nan a b c Hc) as [_ Hb].
  destruct c.
  - destruct (is_neg_zero a); [rewrite Hc; reflexivity|].
    rewrite (SFcompare_refl b Hb). reflexivity.
  - rewrite Hc. reflexivity.
  - rewrite (SFcompare_refl b Hb). reflexivity.
Qed.

(** [Math.max(a, b)] is NaN or at least [b]. *)
Lemma Math_max_bound (a b : number) :
  is_nan (Math_max a b) = true \/ Reading.le b (Math_max a b) = true.
Proof.
  unfold Math_max, Reading.le, SFleb.
  destruct (SFcompare a b) as [c|] eqn:Hc; [|left; reflexivity].
  right. destruct (compare_not_nan a b c Hc) as [_ Hb].
  pose proof (SFcompare_antisym a b c Hc) as Hanti.
  destruct c; simpl in Hanti.
  - destruct (is_neg_zero a); [rewrite (SFcompare_refl b Hb) | rewrite Hanti]; reflexivity.
  - rewrite (SFcompare_refl b Hb). reflexivity.
  - rewrite Hanti. reflexivity.
Qed.

End CompareProperties.

(** X17.  A rendered pie label never sticks out by more than 70 units: on
    the right half ([cos >= 0]) it is anchored at its start and its [x] is
    NaN or at most [cx + 70]; on the left half it is anchored at its end
    and its [x] is NaN or at least [cx - 70]. *)
Theorem label_x_is_clamped :
  forall (host : JS.Host) (p : SecurityOverview.LabelProps) (label : JS.Node),
    SecurityOverview.renderCustomizedLabel p = Some label ->
    exists x,
      Reading.label_attribute "x" label = JS.VNum x
      /\ (JS.ge (Reading.label_cos p) (JS.of_Z 0) = true ->
          Reading.label_attribute "textAnchor" label = JS.VStr "start"
          /\ (JS.is_nan x = true
              \/ Reading.le x (JS.add (SecurityOverview.cx p) (JS.of_Z 70)) = true))
      /\ (JS.ge (Reading.label_cos p) (JS.of_Z 0) = false ->
          Reading.label_attribute "textAnchor" label = JS.VStr "end"
          /\ (JS.is_nan x = true
              \/ Reading.le (JS.sub (SecurityOverview.cx p) (JS.of_Z 70)) x = true)).
Proof.
  intros host p label Hlabel.
  unfold SecurityOverview.renderCustomizedLabel in Hlabel. unfold Reading.label_cos.
  set (c := JS.ge (JS.Math_cos (JS.mul (JS.neg (SecurityOverview.midAngle p))
                                       SecurityOverview.RADIAN)) (JS.of_Z 0)) in *.
  destruct (JS.lt (JS.Number (SecurityOverview.percentageValue p)) (JS.of_Z 5));
    [discriminate Hlabel|].
  injection Hlabel as <-. unfold Reading.label_attribute.
  cbn [JS.lookup String.eqb Ascii.eqb Bool.eqb].
  eexists. split; [reflexivity|].
  destruct c; split; intros E; try discriminate E; (split; [reflexivity|]).
  - apply Math_min_bound.
  - apply Math_max_bound.
Qed.

(** X17, witness: the slice of the examples, which is rendered on the
    right half. *)
Lemma label_x_is_clamped_witness :
  exists label x,
    @SecurityOverview.renderCustomizedLabel JS.sample_Host
      (SecurityOverview.sample_slice (JS.div (JS.of_Z 45) (JS.of_Z 1000))) = Some label
    /\ Reading.label_attribute "x" label = JS.VNum x
    /\ (JS.is_nan x = true \/ Reading.le x (JS.add (JS.of_Z 100) (JS.of_Z 70)) = true).
Proof.
  destruct (@SecurityOverview.renderCustomizedLabel JS.sample_Host
              (SecurityOverview.sample_slice (JS.div (JS.of_Z 45) (JS.of_Z 1000))))
    as [label|] eqn:Hlabel; [|vm_compute in Hlabel; discriminate Hlabel].
  destruct (label_x_is_clamped JS.sample_Host
              (SecurityOverview.sample_slice (JS.div (JS.of_Z 45) (JS.of_Z 1000)))
              label Hlabel) as [x [Hx [Hright _]]].
  exists label, x. split; [reflexivity|]. split; [exact Hx|].
  apply Hright. vm_compute. reflexivity.
Defined.

(** X18.  A share that is not a number is not suppressed: when
    [percent * 100] is NaN (and the host reads the string "NaN" as NaN, as
    every JavaScript host does) the guard [< 5] is false and the label is
    rendered, with "NaN%" in its text. *)
Theorem label_rendered_for_NaN_share :
  forall (host : JS.Host) (p : SecurityOverview.LabelProps),
    JS.is_nan (JS.StringToNumber "NaN") = true ->
    JS.is_nan (JS.mul (SecurityOverview.percent p) (JS.of_Z 100)) = true ->
    SecurityOverview.percentageValue p = "NaN"
    /\ exists label, SecurityOverview.renderCustomizedLabel p = Some label.
Proof.
  intros host p Hhost Hnan.
  assert (Hpv : SecurityOverview.percentageValue p = "NaN").
  { unfold SecurityOverview.percentageValue, JS.toFixed0.
    destruct (JS.mul (SecurityOverview.percent p) (JS.of_Z 100)); try discriminate Hnan.
    reflexivity. }
  split; [exact Hpv|].
  unfold SecurityOverview.renderCustomizedLabel. rewrite Hpv.
  change (JS.Number "NaN") with (JS.StringToNumber "NaN").
  destruct (JS.StringToNumber "NaN"); try discriminate Hhost.
  eexists. reflexivity.
Qed.

(** X18, witness: a slice whose share is NaN. *)
Lemma label_rendered_for_NaN_share_witness :
  exists label,
    @SecurityOverview.renderCustomizedLabel JS.sample_Host
      (SecurityOverview.sample_slice JS.NaN) = Some label.
Proof.
  apply (proj2 (label_rendered_for_NaN_share JS.sample_Host
                  (SecurityOverview.sample_slice JS.NaN) eq_refl eq_refl)).
Defined.

(* ===================================================================== *)
(** * The modal of MisconfigTable *)
(* ===================================================================== *)

Section ModalProperties.
Import JS MisconfigModal.

(** Whenever the modal is flagged open, a row of the table is selected. *)
Lemma open_has_selection (actions : list Action) (s : State) :
  (showDetails s = true ->
   exists m, selectedMisconfig s = Some m /\ In m mockMisconfigurations) ->
  showDetails (fold_left step actions s) = true ->
  exists m, selectedMisconfig (fold_left step actions s) = Some m
            /\ In m mockMisconfigurations.
Proof.
  revert s. induction actions as [|a actions IH]; intros s Hinv; [exact Hinv|].
  cbn [fold_left]. apply IH. destruct a as [row|]; cbn [step].
  - destruct (nth_error mockMisconfigurations row) as [m|] eqn:Hrow; [|exact Hinv].
    intros _. exists m. split; [reflexivity|]. eapply nth_error_In. exact Hrow.
  - cbn [showDetails]. discriminate.
Qed.

Lemma modal_of_render (s : State) :
  modal (render s) =
    if showDetails s then option_map MisconfigDetails (selectedMisconfig s) else None.
Proof.
  unfold modal, render, modal_slot.
  destruct (showDetails s); [|reflexivity].
  destruct (selectedMisconfig s); reflexivity.
Qed.

End ModalProperties.

(** X19.  After any sequence of "View Details" clicks and closings, the
    details modal of MisconfigTable is on screen exactly when
    [showDetails] is set, and it then shows a row of the table: the
    [selectedMisconfig] operand of the guard never hides an open modal.
    Closing hides the modal and keeps the selection. *)
Theorem MisconfigTable_modal_follows_showDetails :
  forall actions : list MisconfigModal.Action,
    let s := MisconfigModal.after actions in
    (MisconfigModal.showDetails s = true ->
     exists m, In m MisconfigModal.mockMisconfigurations
               /\ MisconfigModal.modal (MisconfigModal.render s) =
                    Some (MisconfigModal.MisconfigDetails m))
    /\ (MisconfigModal.showDetails s = false ->
        MisconfigModal.modal (MisconfigModal.render s) = None)
    /\ MisconfigModal.modal
         (MisconfigModal.render (MisconfigModal.step s MisconfigModal.Close)) = None
    /\ MisconfigModal.selectedMisconfig (MisconfigModal.step s MisconfigModal.Close) =
         MisconfigModal.selectedMisconfig s.
Proof.
  intros actions. cbv zeta. unfold MisconfigModal.after. repeat split.
  - intros Hopen.
    destruct (open_has_selection actions MisconfigModal.initial
                ltac:(discriminate) Hopen) as [m [Hsel Hin]].
    exists m. split; [exact Hin|].
    rewrite modal_of_render, Hopen, Hsel. reflexivity.
  - intros Hclosed. rewrite modal_of_render, Hclosed. reflexivity.
Qed.

(** X19, witness: opening the second row, closing, opening the first. *)
Lemma MisconfigTable_modal_follows_showDetails_witness :
  exists m,
    In m MisconfigModal.mockMisconfigurations
    /\ MisconfigModal.modal
         (MisconfigModal.render
            (MisconfigModal.after
               [ MisconfigModal.ViewDetails 1; MisconfigModal.Close;
                 MisconfigModal.ViewDetails 0 ])) =
         Some (MisconfigModal.MisconfigDetails m).
Proof.
  apply (proj1 (MisconfigTable_modal_follows_showDetails
                  [ MisconfigModal.ViewDetails 1; MisconfigModal.Close;
                    MisconfigModal.ViewDetails 0 ])).
  reflexivity.
Defined.

(* ===================================================================== *)
(** * ComplianceOverview and the dashboard page *)
(* ===================================================================== *)



(** X21.  After a refresh the page is never left loading.  When the
    refresh fails, the page keeps the data it had but shows only the
    error banner with the failure's message; when it succeeds, the new
    payload replaces the data and an earlier error is cleared. *)
Theorem fetchData_keeps_stale_data_behind_banner :
  forall (host : JS.Host) (dates : TrendChart.DateFns)
         (network : string -> Home.Settled) (ToString : JS.Value -> string)
         (s : Home.State) (tab : Home.Tab),
    Home.loading (Home.fetchData network s) = false
    /\ (forall message,
          Home.load (network (Home.request_url s)) = inl message ->
          Home.data (Home.fetchData network s) = Home.data s
          /\ Home.error (Home.fetchData network s) = Some message
          /\ (message <> "" ->
              JS.run (Home.Home ToString (Home.fetchData network s) tab) =
                (JS.Returns (Home.ErrorBanner message), [])))
    /\ (forall payload,
          Home.load (network (Home.request_url s)) = inr payload ->
          Home.data (Home.fetchData network s) = payload
          /\ Home.error (Home.fetchData network s) = None).
Proof.
  intros host dates network ToString s tab. unfold Home.fetchData. split; [|split].
  - destruct (Home.load (network (Home.request_url s))); reflexivity.
  - intros message Hload. rewrite Hload. simpl. repeat split.
    intros Hne. unfold Home.Home. simpl.
    destruct (String.eqb_spec message ""); [contradiction | reflexivity].
  - intros payload Hload. rewrite Hload. split; reflexivity.
Qed.

(** X21, witness: a 503 after a successful load. *)
Lemma fetchData_keeps_stale_data_behind_banner_witness :
  JS.run (@Home.Home JS.sample_Host TrendChart.sample_DateFns Payload.sample_ToString
            (@Home.fetchData JS.sample_Host
               (fun _ => Home.Resolved {| Home.status := 503; Home.text := "down";
                                          Home.json := inl "Unexpected token" |})
               {| Home.data := JS.VObj [("resources", JS.VArr [])]; Home.loading := false;
                  Home.error := None; Home.timeRange := JS.of_Z 7 |})
            Home.Resources) =
    (JS.Returns (Home.ErrorBanner "Failed to fetch dashboard data: down"), []).
Proof.
  destruct (fetchData_keeps_stale_data_behind_banner JS.sample_Host TrendChart.sample_DateFns
              (fun _ => Home.Resolved {| Home.status := 503; Home.text := "down";
                                         Home.json := inl "Unexpected token" |})
              Payload.sample_ToString
              {| Home.data := JS.VObj [("resources", JS.VArr [])]; Home.loading := false;
                 Home.error := None; Home.timeRange := JS.of_Z 7 |}
              Home.Resources) as [_ [Hfail _]].
  apply (Hfail "Failed to fetch dashboard data: down" eq_refl). discriminate.
Defined.

(** X22.  The page accepts a 2xx JSON payload exactly when it is an object
    or an array: [null], strings, numbers and booleans are refused with
    "Invalid dashboard data received", while an array or the empty
    object is accepted although it has none of the fields. *)
Theorem load_accepts_objects_and_arrays :
  forall (response : Home.ClientResponse) (payload : JS.Value),
    Home.ok response = true ->
    Home.json response = inr payload ->
    Home.load (Home.Resolved response) =
      if Payload.is_container payload then inr payload
      else inl "Invalid dashboard data received".
Proof.
  intros response payload Hok Hjson. unfold Home.load. rewrite Hok, Hjson. simpl.
  unfold Home.invalid_payload.
  destruct payload as [| |b|n|s| |]; simpl; try reflexivity.
  - destruct b; reflexivity.
  - destruct (JS.is_zero n || JS.is_nan n); reflexivity.
  - destruct (s =? ""); reflexivity.
Qed.

(** X22, witness: an empty array is taken as dashboard data. *)
Lemma load_accepts_objects_and_arrays_witness :
  Home.load (Home.Resolved (Payload.ok_response (JS.VArr []))) = inr (JS.VArr []).
Proof.
  apply (load_accepts_objects_and_arrays (Payload.ok_response (JS.VArr [])) (JS.VArr []));
    reflexivity.
Defined.

(** X23.  Two panels of the page do not guard their input.  With data
    that has no [riskMetrics] the Overview panel throws (in
    RiskAssessment, unless ComplianceOverview threw first), and with data
    that has no [resources] the Resources panel throws; the payload [{}],
    which the page accepts, does both. *)
Theorem unguarded_panels_throw :
  forall (host : JS.Host) (dates : TrendChart.DateFns) (ToString : JS.Value -> string)
         (data : JS.Value) (timeRange : JS.number),
    JS.truthy data = true ->
    (Reading.nullish (Home.optional data "riskMetrics") = true ->
     exists e, fst (JS.run (Home.panel ToString Home.Overview data timeRange)) = JS.Throws e)
    /\ (Reading.nullish (Home.optional data "resources") = true ->
        exists e, fst (JS.run (Home.panel ToString Home.Resources data timeRange)) = JS.Throws e).
Proof.
  intros host dates ToString data timeRange Htruthy.
  unfold Home.panel. rewrite Htruthy. unfold Home.panel_content, JS.run. split; intros Hnull.
  - unfold JS.bind at 1. unfold JS.bind at 1.
    destruct (ComplianceOverview.ComplianceOverview ToString
                (Home.optional data "compliance") []) as [[view|e] tr];
      [|eexists; reflexivity].
    unfold JS.bind at 1.
    destruct (Home.optional data "riskMetrics"); try discriminate Hnull;
      eexists; reflexivity.
  - unfold JS.bind at 1. unfold JS.bind at 1.
    destruct (Home.optional data "resources"); try discriminate Hnull;
      eexists; reflexivity.
Qed.

(** X23, witness: the empty object. *)
Lemma unguarded_panels_throw_witness :
  (exists e,
     fst (JS.run (@Home.panel JS.sample_Host TrendChart.sample_DateFns
                    Payload.sample_ToString Home.Overview (JS.VObj []) (JS.of_Z 30))) =
       JS.Throws e)
  /\ (exists e,
        fst (JS.run (@Home.panel JS.sample_Host TrendChart.sample_DateFns
                       Payload.sample_ToString Home.Resources (JS.VObj []) (JS.of_Z 30))) =
          JS.Throws e).
Proof.
  destruct (unguarded_panels_throw JS.sample_Host TrendChart.sample_DateFns
              Payload.sample_ToString (JS.VObj []) (JS.of_Z 30) eq_refl) as [Hover Hres].
  split; [apply Hover | apply Hres]; reflexivity.
Defined.

(** X24.  The Analytics panel guards its input: with data that has no
    [trends] (the optional chaining yields [undefined] for both charts) it
    returns the two "No trend data available" cards without throwing. *)
Theorem analytics_panel_tolerates_missing_trends :
  forall (host : JS.Host) (dates : TrendChart.DateFns) (ToString : JS.Value -> string)
         (data : JS.Value) (timeRange : JS.number),
    JS.truthy data = true ->
    Reading.nullish (Home.optional data "trends") = true ->
    fst (JS.run (Home.panel ToString Home.Analytics data timeRange)) =
      JS.Returns
        (Home.grid
           [ JS.El "Fragment" []
               [ JS.El "div" [("className", JS.VStr "grid md:grid-cols-2 gap-8")]
                   [ TrendChart.no_trend_data "Overall Security Trend" timeRange;
                     TrendChart.no_trend_data "EC2 Security Trend" timeRange ] ] ]).
Proof.
  intros host dates ToString data timeRange Htruthy Hnull.
  unfold Home.panel. rewrite Htruthy. unfold Home.panel_content.
  destruct (Home.optional data "trends"); try discriminate Hnull; reflexivity.
Qed.

(** X24, witness: the empty object. *)
Lemma analytics_panel_tolerates_missing_trends_witness :
  fst (JS.run (@Home.panel JS.sample_Host TrendChart.sample_DateFns
                 Payload.sample_ToString Home.Analytics (JS.VObj []) (JS.of_Z 30))) =
    JS.Returns
      (Home.grid
         [ JS.El "Fragment" []
             [ JS.El "div" [("className", JS.VStr "grid md:grid-cols-2 gap-8")]
                 [ @TrendChart.no_trend_data JS.sample_Host "Overall Security Trend" (JS.of_Z 30);
                   @TrendChart.no_trend_data JS.sample_Host "EC2 Security Trend" (JS.of_Z 30) ] ] ]).
Proof.
  apply (analytics_panel_tolerates_missing_trends JS.sample_Host TrendChart.sample_DateFns
           Payload.sample_ToString (JS.VObj []) (JS.of_Z 30)); reflexivity.
Defined.
